(** * DiracX authorization server: routers/auth.py and routers/configuration.py

    A shallow embedding of the request handlers of [diracx.routers.auth] and
    [diracx.routers.configuration], with the properties of the flow and token
    core stated against it; and of the dependency of [diracx.routers.utils]
    and the connection handling of [diracx.db.utils.BaseDB].

    Conventions.
    - A Python [str] is the list of its Unicode code points, a [bytes] value
      the list of its octets; both are lists of [Z].
    - A Python call that may raise returns a [result]; exceptions are the
      constructors of [exn]. The handlers that can end in an exception of
      a further class return an [attempt].
    - An f-string is kept as its template and the values interpolated in it.
    - Dictionaries that are only looked up are [gmap]s; dictionaries whose
      insertion order reaches a serialisation are association lists.
    - Calls to collaborators that are not part of these modules (the flow
      store, the clock, the UUID generator) take their outcome as an
      argument. *)

From Stdlib Require Import ZArith String Ascii List Lia.
From stdpp Require Import base option list gmap.

Open Scope Z_scope.

(** ** Python values *)

Abbreviation str := (list Z) (only parsing).
Abbreviation bytes := (list Z) (only parsing).

(** A string literal of the source, as its code points. *)
Definition py (s : string) : str :=
  map (fun a => Z.of_N (N_of_ascii a)) (list_ascii_of_string s).

(** [s.startswith(prefix)] *)
Fixpoint startswith (s prefix : str) {struct prefix} : bool :=
  match prefix, s with
  | [], _ => true
  | p :: prefix', c :: s' => bool_decide (c = p) && startswith s' prefix'
  | _ :: _, [] => false
  end.

(** [s.split(sep)] for a separator of one character: every occurrence
    splits, so consecutive separators give empty items and the result is
    never empty. *)
Fixpoint str_split (sep : Z) (s : str) : list str :=
  match s with
  | [] => [[]]
  | c :: s' =>
      if decide (c = sep) then [] :: str_split sep s'
      else match str_split sep s' with
           | w :: ws => (c :: w) :: ws
           | [] => [[c]]
           end
  end.

(** [s.split(sep, 1)]: split at the first occurrence only. *)
Fixpoint str_split_1 (sep : Z) (s : str) : list str :=
  match s with
  | [] => [[]]
  | c :: s' =>
      if decide (c = sep) then [[]; s']
      else match str_split_1 sep s' with
           | w :: ws => (c :: w) :: ws
           | [] => [[c]]
           end
  end.

(** [sep.join(items)] *)
Fixpoint str_join (sep : str) (items : list str) : str :=
  match items with
  | [] => []
  | [x] => x
  | x :: rest => x ++ sep ++ str_join sep rest
  end.

(** ** Exceptions and results *)

(** An f-string (or a plain literal): the template and what is
    interpolated. *)
Record message := Msg { template : string; interpolated : list str }.

(** Ordered dictionaries ([dict] literals that are serialised). *)
Abbreviation dict V := (list (str * V)) (only parsing).

Inductive exn :=
| KeyError (key : str)
| IndexError
| ValueError (msg : message)
| AssertionError (args : list str)
| NotImplementedError (msg : message)
| UnicodeError
| RecursionError
| HTTPException (status_code : Z) (detail : message) (headers : dict str)
| DiracHttpResponse (status_code : Z) (data : dict str)
| PendingAuthorizationError
| ExpiredFlowError
| StoreError (name : string).

Inductive result (A : Type) :=
| Ok (a : A)
| Raise (e : exn).
Arguments Ok {A} a.
Arguments Raise {A} e.

#[global] Instance result_ret : MRet result := fun A a => Ok a.
#[global] Instance result_bind : MBind result := fun A B f r =>
  match r with
  | Ok a => f a
  | Raise e => Raise e
  end.

(** [d[k]] on a dictionary. *)
Definition getitem {V} (d : gmap str V) (k : str) : result V :=
  match d !! k with
  | Some v => Ok v
  | None => Raise (KeyError k)
  end.

(** [l[i]] on a list. *)
Definition index {A} (l : list A) (i : nat) : result A :=
  match l !! i with
  | Some x => Ok x
  | None => Raise IndexError
  end.

(** [dict.get]-like lookup, replacement and merge on ordered dictionaries:
    an existing key keeps its position, a new key goes last. *)
Fixpoint dict_get {V} (d : dict V) (k : str) : option V :=
  match d with
  | [] => None
  | (k', v) :: d' => if decide (k' = k) then Some v else dict_get d' k
  end.

Fixpoint dict_set {V} (d : dict V) (k : str) (v : V) : dict V :=
  match d with
  | [] => [(k, v)]
  | (k', v') :: d' =>
      if decide (k' = k) then (k', v) :: d' else (k', v') :: dict_set d' k v
  end.

Definition dict_update {V} (d other : dict V) : dict V :=
  fold_left (fun acc kv => dict_set acc kv.1 kv.2) other d.

(** ** HTTP status codes ([fastapi.status]) *)

Definition HTTP_200_OK : Z := 200.
Definition HTTP_304_NOT_MODIFIED : Z := 304.
Definition HTTP_400_BAD_REQUEST : Z := 400.
Definition HTTP_401_UNAUTHORIZED : Z := 401.
Definition HTTP_500_INTERNAL_SERVER_ERROR : Z := 500.

(** ** The configuration ([diracx.core.config]) *)

(** The configuration classes are imported, not defined, by the routers;
    the records hold the attributes the routers read. *)
Record GroupConfig := {
  Users : list str;
  Properties : list str
}.

Record RegistryConfig := {
  DefaultGroup : gmap str (list str);
  Groups : gmap str (gmap str GroupConfig)
}.

Record Config := {
  Registry : RegistryConfig;
  _hexsha : str;
  _modified : Z
}.

(** ** Text encodings ([str.encode], [bytes.decode]) *)

(** The UTF-8 encoding of one code point; surrogates and values outside
    the code space have none ([UnicodeEncodeError]). *)
Definition utf8_encode_char (c : Z) : result bytes :=
  if (c <? 0) then Raise UnicodeError
  else if (c <? 128) then Ok [c]
  else if (c <? 2048) then
    Ok [Z.lor 192 (Z.shiftr c 6); Z.lor 128 (Z.land c 63)]
  else if (c <? 65536) then
    if (55296 <=? c) && (c <=? 57343) then Raise UnicodeError
    else Ok [Z.lor 224 (Z.shiftr c 12);
             Z.lor 128 (Z.land (Z.shiftr c 6) 63);
             Z.lor 128 (Z.land c 63)]
  else if (c <? 1114112) then
    Ok [Z.lor 240 (Z.shiftr c 18);
        Z.lor 128 (Z.land (Z.shiftr c 12) 63);
        Z.lor 128 (Z.land (Z.shiftr c 6) 63);
        Z.lor 128 (Z.land c 63)]
  else Raise UnicodeError.

(** [s.encode()] *)
Fixpoint str_encode (s : str) : result bytes :=
  match s with
  | [] => Ok []
  | c :: s' =>
      b ← utf8_encode_char c;
      bs ← str_encode s';
      Ok (b ++ bs)
  end.

(** A continuation octet, 10xxxxxx. *)
Definition is_cont (b : Z) : bool := (128 <=? b) && (b <=? 191).

(** [b.decode()]: strict UTF-8; overlong forms, surrogates and values past
    U+10FFFF are refused ([UnicodeDecodeError]). *)
Fixpoint bytes_decode (b : bytes) : result str :=
  match b with
  | [] => Ok []
  | b0 :: r0 =>
    if (0 <=? b0) && (b0 <? 128) then
      s ← bytes_decode r0; Ok (b0 :: s)
    else
    match r0 with
    | [] => Raise UnicodeError
    | b1 :: r1 =>
      if (194 <=? b0) && (b0 <=? 223) then
        if is_cont b1 then
          s ← bytes_decode r1;
          Ok (Z.lor (Z.shiftl (Z.land b0 31) 6) (Z.land b1 63) :: s)
        else Raise UnicodeError
      else
      match r1 with
      | [] => Raise UnicodeError
      | b2 :: r2 =>
        if (224 <=? b0) && (b0 <=? 239) then
          if is_cont b1 && is_cont b2
             && negb ((b0 =? 224) && (b1 <? 160))
             && negb ((b0 =? 237) && (160 <=? b1)) then
            s ← bytes_decode r2;
            Ok (Z.lor (Z.shiftl (Z.land b0 15) 12)
                  (Z.lor (Z.shiftl (Z.land b1 63) 6) (Z.land b2 63)) :: s)
          else Raise UnicodeError
        else
        match r2 with
        | [] => Raise UnicodeError
        | b3 :: r3 =>
          if (240 <=? b0) && (b0 <=? 244) then
            if is_cont b1 && is_cont b2 && is_cont b3
               && negb ((b0 =? 240) && (b1 <? 144))
               && negb ((b0 =? 244) && (144 <=? b1)) then
              s ← bytes_decode r3;
              Ok (Z.lor (Z.shiftl (Z.land b0 7) 18)
                    (Z.lor (Z.shiftl (Z.land b1 63) 12)
                       (Z.lor (Z.shiftl (Z.land b2 63) 6) (Z.land b3 63))) :: s)
            else Raise UnicodeError
          else Raise UnicodeError
        end
      end
    end
  end.

(** [s.encode('ascii')] *)
Definition str_encode_ascii (s : str) : result bytes :=
  if forallb (fun c => (0 <=? c) && (c <? 128)) s then Ok s
  else Raise (ValueError
                (Msg "string argument should contain only ASCII characters" [])).

(** [s.replace(old, '')] for [old] of one character. *)
Definition str_remove (old : Z) (s : str) : str :=
  filter (fun c => c ≠ old) s.

(** [s.lstrip(ch)], [s.rstrip(ch)], [s.strip(ch)] for one character. *)
Fixpoint str_lstrip (ch : Z) (s : str) : str :=
  match s with
  | [] => []
  | c :: s' => if decide (c = ch) then str_lstrip ch s' else s
  end.

Definition str_rstrip (ch : Z) (s : str) : str :=
  rev (str_lstrip ch (rev s)).

Definition str_strip (ch : Z) (s : str) : str :=
  str_rstrip ch (str_lstrip ch s).

(** ** [base64] *)

Module base64.

(** The standard alphabet ([binascii]'s [table_b2a_base64]). *)
Definition b2a (v : Z) : Z :=
  if v <? 26 then 65 + v
  else if v <? 52 then 97 + (v - 26)
  else if v <? 62 then 48 + (v - 52)
  else if v =? 62 then 43
  else 47.

(** Its inverse ([table_a2b_base64]); [None] for every other character. *)
Definition a2b (c : Z) : option Z :=
  if (65 <=? c) && (c <=? 90) then Some (c - 65)
  else if (97 <=? c) && (c <=? 122) then Some (c - 97 + 26)
  else if (48 <=? c) && (c <=? 57) then Some (c - 48 + 52)
  else if c =? 43 then Some 62
  else if c =? 47 then Some 63
  else None.

Definition PAD : Z := 61.

(** [base64.b64encode] *)
Fixpoint b64encode (s : bytes) : bytes :=
  match s with
  | [] => []
  | [a] =>
      [b2a (Z.shiftr a 2); b2a (Z.shiftl (Z.land a 3) 4); PAD; PAD]
  | [a; b] =>
      [b2a (Z.shiftr a 2);
       b2a (Z.lor (Z.shiftl (Z.land a 3) 4) (Z.shiftr b 4));
       b2a (Z.shiftl (Z.land b 15) 2); PAD]
  | a :: b :: c :: rest =>
      b2a (Z.shiftr a 2)
      :: b2a (Z.lor (Z.shiftl (Z.land a 3) 4) (Z.shiftr b 4))
      :: b2a (Z.lor (Z.shiftl (Z.land b 15) 2) (Z.shiftr c 6))
      :: b2a (Z.land c 63)
      :: b64encode rest
  end.

(** [binascii.a2b_base64] without [strict_mode]: characters outside the
    alphabet are skipped, and a pad that completes a quad ends the input. *)
Fixpoint a2b_base64 (ascii_data : bytes) (quad_pos leftchar pads : Z)
  : result bytes :=
  match ascii_data with
  | [] =>
      if quad_pos =? 0 then Ok []
      else if quad_pos =? 1 then
        Raise (ValueError (Msg "Invalid base64-encoded string: number of data characters cannot be 1 more than a multiple of 4" []))
      else Raise (ValueError (Msg "Incorrect padding" []))
  | this_ch :: rest =>
      if this_ch =? PAD then
        if 2 <=? quad_pos then
          if 4 <=? quad_pos + (pads + 1) then Ok []
          else a2b_base64 rest quad_pos leftchar (pads + 1)
        else a2b_base64 rest quad_pos leftchar pads
      else
        match a2b this_ch with
        | None => a2b_base64 rest quad_pos leftchar pads
        | Some v =>
            if quad_pos =? 0 then a2b_base64 rest 1 v 0
            else if quad_pos =? 1 then
              out ← a2b_base64 rest 2 (Z.land v 15) 0;
              Ok (Z.lor (Z.shiftl leftchar 2) (Z.shiftr v 4) :: out)
            else if quad_pos =? 2 then
              out ← a2b_base64 rest 3 (Z.land v 3) 0;
              Ok (Z.lor (Z.shiftl leftchar 4) (Z.shiftr v 2) :: out)
            else
              out ← a2b_base64 rest 0 0 0;
              Ok (Z.lor (Z.shiftl leftchar 6) v :: out)
        end
  end.

Definition b64decode (s : bytes) : result bytes := a2b_base64 s 0 0 0.

(** [_urlsafe_encode_translation]: [+] to [-], [/] to [_]. *)
Definition urlsafe_encode_translation (c : Z) : Z :=
  if c =? 43 then 45 else if c =? 47 then 95 else c.

(** [_urlsafe_decode_translation]: [-] to [+], [_] to [/]. *)
Definition urlsafe_decode_translation (c : Z) : Z :=
  if c =? 45 then 43 else if c =? 95 then 47 else c.

Definition urlsafe_b64encode (s : bytes) : bytes :=
  map urlsafe_encode_translation (b64encode s).

(** [base64.urlsafe_b64decode] of a [str] argument. *)
Definition urlsafe_b64decode (s : str) : result bytes :=
  s ← str_encode_ascii s;
  b64decode (map urlsafe_decode_translation s).

End base64.

(** ** [hashlib.sha256] *)

Module hashlib.

Definition w32 (x : Z) : Z := x mod 4294967296.

Definition rotr (n x : Z) : Z :=
  Z.lor (Z.shiftr x n) (w32 (Z.shiftl x (32 - n))).

Definition xor3 (x y z : Z) : Z := Z.lxor (Z.lxor x y) z.

Definition Ch (x y z : Z) : Z :=
  Z.lxor (Z.land x y) (Z.land (Z.lxor x 4294967295) z).
Definition Maj (x y z : Z) : Z :=
  xor3 (Z.land x y) (Z.land x z) (Z.land y z).
Definition Sigma0 (x : Z) : Z := xor3 (rotr 2 x) (rotr 13 x) (rotr 22 x).
Definition Sigma1 (x : Z) : Z := xor3 (rotr 6 x) (rotr 11 x) (rotr 25 x).
Definition sigma0 (x : Z) : Z := xor3 (rotr 7 x) (rotr 18 x) (Z.shiftr x 3).
Definition sigma1 (x : Z) : Z := xor3 (rotr 17 x) (rotr 19 x) (Z.shiftr x 10).

Definition is_prime (n : Z) : bool :=
  (2 <=? n) && forallb (fun d => negb (n mod d =? 0)) (seqZ 2 (n - 2)).

(** The first [count] primes (below 312, which holds the first 64). *)
Definition primes (count : nat) : list Z :=
  take count (filter (fun n => is_prime n = true) (seqZ 2 310)).

(** The integer cube root, by bisection between [lo] and [hi]. *)
Fixpoint cube_root (steps : nat) (lo hi n : Z) : Z :=
  match steps with
  | O => lo
  | S steps' =>
      let mid := (lo + hi + 1) / 2 in
      if mid * mid * mid <=? n then cube_root steps' mid hi n
      else cube_root steps' lo (mid - 1) n
  end.

(** The round constants: the first 32 bits of the fractional parts of the
    cube roots of the first 64 primes. *)
Definition K : list Z :=
  Eval vm_compute in
    map (fun p => w32 (cube_root 40 0 (2 ^ 35) (p * 2 ^ 96))) (primes 64).

(** The initial hash value: the first 32 bits of the fractional parts of
    the square roots of the first 8 primes. *)
Definition H0 : list Z :=
  Eval vm_compute in map (fun p => w32 (Z.sqrt (p * 2 ^ 64))) (primes 8).

(** Big-endian octets of a word of [n] octets. *)
Fixpoint be_bytes (n : nat) (x : Z) : bytes :=
  match n with
  | O => []
  | S n' => (Z.shiftr x (8 * Z.of_nat n')) mod 256 :: be_bytes n' x
  end.

Fixpoint be_words (b : bytes) : list Z :=
  match b with
  | b0 :: b1 :: b2 :: b3 :: rest =>
      (Z.shiftl b0 24 + Z.shiftl b1 16 + Z.shiftl b2 8 + b3) :: be_words rest
  | _ => []
  end.

(** The message, a 1 bit, zeros up to 56 modulo 64, and the length in
    bits. *)
Definition pad (msg : bytes) : bytes :=
  let l := Z.of_nat (length msg) in
  msg ++ [128] ++ repeat 0 (Z.to_nat ((55 - l) mod 64)) ++ be_bytes 8 (8 * l).

(** The message schedule; [rw] holds the words so far, last first. *)
Fixpoint schedule (n : nat) (rw : list Z) : list Z :=
  match n with
  | O => rev rw
  | S n' =>
      let w := w32 (sigma1 (nth 1 rw 0) + nth 6 rw 0
                    + sigma0 (nth 14 rw 0) + nth 15 rw 0) in
      schedule n' (w :: rw)
  end.

Definition round (st : list Z) (kw : Z * Z) : list Z :=
  match st with
  | [a; b; c; d; e; f; g; h] =>
      let t1 := h + Sigma1 e + Ch e f g + kw.1 + kw.2 in
      let t2 := Sigma0 a + Maj a b c in
      [w32 (t1 + t2); a; b; c; w32 (d + t1); e; f; g]
  | _ => st
  end.

Definition compress (h : list Z) (block : bytes) : list Z :=
  let w := schedule 48 (rev (be_words block)) in
  let st := fold_left round (combine K w) h in
  map (fun p => w32 (p.1 + p.2)) (combine h st).

Fixpoint blocks (n : nat) (b : bytes) : list bytes :=
  match n with
  | O => []
  | S n' => firstn 64 b :: blocks n' (skipn 64 b)
  end.

(** [hashlib.sha256(data).digest()] *)
Definition sha256 (data : bytes) : bytes :=
  let m := pad data in
  let h := fold_left compress (blocks (length m / 64) m) H0 in
  flat_map (be_bytes 4) h.

End hashlib.

(** ** [json] *)

Module json.

(** What [json.loads] builds: [None], [bool], [int], [float], [str], [list]
    and [dict]. A float is kept as the text of its literal. *)
#[local] Unset Elimination Schemes.
Inductive value :=
| Null
| Bool (b : bool)
| Int (n : Z)
| Float (literal : str)
| String (s : str)
| Array (items : list value)
| Object (members : dict value).
#[local] Set Elimination Schemes.

Definition JSONDecodeError (msg : string) : exn := ValueError (Msg msg []).

(** *** Encoding ([json.dumps] with its defaults, on a [dict[str, str]]) *)

Definition hex_digit (v : Z) : Z :=
  if v <? 10 then 48 + v else 97 + (v - 10).

(** ['\\u{0:04x}'.format(n)] *)
Definition u_escape (n : Z) : str :=
  [92; 117; hex_digit (n / 4096 mod 16); hex_digit (n / 256 mod 16);
   hex_digit (n / 16 mod 16); hex_digit (n mod 16)].

(** The replacement of one character by [encode_basestring_ascii]:
    [ESCAPE_DCT], then [\uXXXX] for all that is not printable ASCII, as a
    surrogate pair past the basic plane. *)
Definition escape_char (c : Z) : str :=
  if c =? 34 then [92; 34]
  else if c =? 92 then [92; 92]
  else if c =? 10 then [92; 110]
  else if c =? 13 then [92; 114]
  else if c =? 9 then [92; 116]
  else if c =? 8 then [92; 98]
  else if c =? 12 then [92; 102]
  else if (32 <=? c) && (c <=? 126) then [c]
  else if c <? 65536 then u_escape c
  else
    let n := c - 65536 in
    u_escape (Z.lor 55296 (Z.land (Z.shiftr n 10) 1023))
    ++ u_escape (Z.lor 56320 (Z.land n 1023)).

Definition encode_basestring_ascii (s : str) : str :=
  [34] ++ flat_map escape_char s ++ [34].

Fixpoint dumps_items (d : dict str) : str :=
  match d with
  | [] => []
  | [(k, v)] =>
      encode_basestring_ascii k ++ py ": " ++ encode_basestring_ascii v
  | (k, v) :: rest =>
      encode_basestring_ascii k ++ py ": " ++ encode_basestring_ascii v
      ++ py ", " ++ dumps_items rest
  end.

Definition dumps (d : dict str) : str :=
  [123] ++ dumps_items d ++ [125].

(** *** Decoding ([json.loads], after the scanner of [_json]) *)

Definition is_ws (c : Z) : bool :=
  (c =? 32) || (c =? 9) || (c =? 10) || (c =? 13).

Fixpoint skip_ws (s : str) : str :=
  match s with
  | c :: s' => if is_ws c then skip_ws s' else s
  | [] => []
  end.

Definition is_digit (c : Z) : bool := (48 <=? c) && (c <=? 57).

Definition hex_value (c : Z) : option Z :=
  if (48 <=? c) && (c <=? 57) then Some (c - 48)
  else if (97 <=? c) && (c <=? 102) then Some (c - 87)
  else if (65 <=? c) && (c <=? 70) then Some (c - 55)
  else None.

(** Four hexadecimal digits after [\u]. *)
Definition decode_uXXXX (s : str) : result (Z * str) :=
  match s with
  | h1 :: h2 :: h3 :: h4 :: rest =>
      match hex_value h1, hex_value h2, hex_value h3, hex_value h4 with
      | Some a, Some b, Some c, Some d =>
          Ok (((a * 16 + b) * 16 + c) * 16 + d, rest)
      | _, _, _, _ => Raise (JSONDecodeError "Invalid \uXXXX escape")
      end
  | _ => Raise (JSONDecodeError "Invalid \uXXXX escape")
  end.

(** The [BACKSLASH] table. *)
Definition backslash (esc : Z) : option Z :=
  if esc =? 34 then Some 34
  else if esc =? 92 then Some 92
  else if esc =? 47 then Some 47
  else if esc =? 98 then Some 8
  else if esc =? 102 then Some 12
  else if esc =? 110 then Some 10
  else if esc =? 114 then Some 13
  else if esc =? 116 then Some 9
  else None.

(** A [\u] escape already read as [uni], with the low half of a surrogate
    pair when one follows. *)
Definition join_surrogates (uni : Z) (s : str) : result (Z * str) :=
  if (55296 <=? uni) && (uni <=? 56319) then
    match s with
    | c1 :: c2 :: s' =>
        if (c1 =? 92) && (c2 =? 117) then
          '(uni2, s'') ← decode_uXXXX s';
          if (56320 <=? uni2) && (uni2 <=? 57343) then
            Ok (65536 + Z.lor (Z.shiftl (uni - 55296) 10) (uni2 - 56320), s'')
          else Ok (uni, s)
        else Ok (uni, s)
    | _ => Ok (uni, s)
    end
  else Ok (uni, s).

(** [scanstring] in strict mode, from the character after the opening
    quote: the string and what follows its closing quote. *)
Fixpoint scanstring_loop (n : nat) (s : str) : result (str * str) :=
  match n with
  | O => Raise (JSONDecodeError "Unterminated string starting at")
  | S n' =>
    match s with
    | [] => Raise (JSONDecodeError "Unterminated string starting at")
    | c :: r =>
      if c =? 34 then Ok ([], r)
      else if c =? 92 then
        match r with
        | [] => Raise (JSONDecodeError "Unterminated string starting at")
        | esc :: r' =>
          if esc =? 117 then
            '(uni, r1) ← decode_uXXXX r';
            '(char, r2) ← join_surrogates uni r1;
            '(tail, rest) ← scanstring_loop n' r2;
            Ok (char :: tail, rest)
          else
            match backslash esc with
            | Some char =>
                '(tail, rest) ← scanstring_loop n' r';
                Ok (char :: tail, rest)
            | None => Raise (JSONDecodeError "Invalid \escape")
            end
        end
      else if (0 <=? c) && (c <? 32) then
        Raise (JSONDecodeError "Invalid control character at")
      else
        '(tail, rest) ← scanstring_loop n' r;
        Ok (c :: tail, rest)
    end
  end.

Definition scanstring (s : str) : result (str * str) :=
  scanstring_loop (length s) s.

(** The longest prefix of digits, and the rest. *)
Fixpoint span_digits (s : str) : str * str :=
  match s with
  | c :: s' =>
      if is_digit c then let '(d, r) := span_digits s' in (c :: d, r)
      else ([], s)
  | [] => ([], [])
  end.

Definition int_of_digits (d : str) : Z :=
  fold_left (fun acc c => acc * 10 + (c - 48)) d 0.

(** [_match_number]: an integer part, then a fraction and an exponent when
    they are complete; the value and what follows. *)
Definition match_number (s : str) : result (value * str) :=
  let '(neg, s1) :=
    match s with
    | c :: s' => if c =? 45 then (true, s') else (false, s)
    | [] => (false, s)
    end in
  match s1 with
  | [] => Raise (JSONDecodeError "Expecting value")
  | c :: s2 =>
    if is_digit c then
      let '(int_digits, s3) :=
        if c =? 48 then ([c], s2)
        else let '(d, r) := span_digits s2 in (c :: d, r) in
      let '(frac, s4) :=
        match s3 with
        | dot :: s3' =>
            if dot =? 46 then
              match span_digits s3' with
              | ([], _) => ([], s3)
              | (d, r) => (dot :: d, r)
              end
            else ([], s3)
        | [] => ([], s3)
        end in
      let '(exp, s5) :=
        match s4 with
        | e :: s4' =>
            if (e =? 101) || (e =? 69) then
              let '(sign, s4'') :=
                match s4' with
                | sg :: t => if (sg =? 45) || (sg =? 43) then ([sg], t)
                             else ([], s4')
                | [] => ([], s4')
                end in
              match span_digits s4'' with
              | ([], _) => ([], s4)
              | (d, r) => (e :: sign ++ d, r)
              end
            else ([], s4)
        | [] => ([], s4)
        end in
      match frac, exp with
      | [], [] =>
          Ok (Int (if neg then - int_of_digits int_digits
                   else int_of_digits int_digits), s5)
      | _, _ =>
          Ok (Float ((if neg then [45] else []) ++ int_digits ++ frac ++ exp),
              s5)
      end
    else Raise (JSONDecodeError "Expecting value")
  end.

(** [scan_once] with the object and array loops. [fuel] bounds the depth of
    the calls, as the interpreter's recursion limit does. *)
Fixpoint scan_once (fuel : nat) (s : str) : result (value * str) :=
  match fuel with
  | O => Raise RecursionError
  | S fuel' =>
    match s with
    | [] => Raise (JSONDecodeError "Expecting value")
    | c :: r =>
      if c =? 34 then
        '(x, rest) ← scanstring r; Ok (String x, rest)
      else if c =? 123 then
        match skip_ws r with
        | c' :: r' =>
            if c' =? 125 then Ok (Object [], r')
            else
              '(pairs, rest) ← parse_members fuel' (c' :: r');
              Ok (Object (dict_update [] pairs), rest)
        | [] =>
            Raise (JSONDecodeError
                     "Expecting property name enclosed in double quotes")
        end
      else if c =? 91 then
        match skip_ws r with
        | c' :: r' =>
            if c' =? 93 then Ok (Array [], r')
            else
              '(items, rest) ← parse_elements fuel' (c' :: r');
              Ok (Array items, rest)
        | [] => Raise (JSONDecodeError "Expecting value")
        end
      else if startswith s (py "null") then Ok (Null, drop 4 s)
      else if startswith s (py "true") then Ok (Bool true, drop 4 s)
      else if startswith s (py "false") then Ok (Bool false, drop 5 s)
      else if startswith s (py "NaN") then Ok (Float (py "NaN"), drop 3 s)
      else if startswith s (py "Infinity") then
        Ok (Float (py "Infinity"), drop 8 s)
      else if startswith s (py "-Infinity") then
        Ok (Float (py "-Infinity"), drop 9 s)
      else match_number s
    end
  end
with parse_members (fuel : nat) (s : str)
  : result (list (str * value) * str) :=
  match fuel with
  | O => Raise RecursionError
  | S fuel' =>
    match s with
    | c :: r =>
      if c =? 34 then
        '(key, r1) ← scanstring r;
        match skip_ws r1 with
        | c2 :: r2 =>
          if c2 =? 58 then
            '(val, r3) ← scan_once fuel' (skip_ws r2);
            match skip_ws r3 with
            | c4 :: r4 =>
              if c4 =? 125 then Ok ([(key, val)], r4)
              else if c4 =? 44 then
                '(more, rest) ← parse_members fuel' (skip_ws r4);
                Ok ((key, val) :: more, rest)
              else Raise (JSONDecodeError "Expecting ',' delimiter")
            | [] => Raise (JSONDecodeError "Expecting ',' delimiter")
            end
          else Raise (JSONDecodeError "Expecting ':' delimiter")
        | [] => Raise (JSONDecodeError "Expecting ':' delimiter")
        end
      else
        Raise (JSONDecodeError
                 "Expecting property name enclosed in double quotes")
    | [] =>
        Raise (JSONDecodeError
                 "Expecting property name enclosed in double quotes")
    end
  end
with parse_elements (fuel : nat) (s : str) : result (list value * str) :=
  match fuel with
  | O => Raise RecursionError
  | S fuel' =>
    '(val, r1) ← scan_once fuel' s;
    match skip_ws r1 with
    | c2 :: r2 =>
      if c2 =? 93 then Ok ([val], r2)
      else if c2 =? 44 then
        '(more, rest) ← parse_elements fuel' (skip_ws r2);
        Ok (val :: more, rest)
      else Raise (JSONDecodeError "Expecting ',' delimiter")
    | [] => Raise (JSONDecodeError "Expecting ',' delimiter")
    end
  end.

(** [json.loads] of a [str]. *)
Definition loads (s : str) : result value :=
  if startswith s [65279] then
    Raise (JSONDecodeError "Unexpected UTF-8 BOM (decode using utf-8-sig)")
  else
    '(obj, rest) ← scan_once (2 * length s + 2) (skip_ws s);
    match skip_ws rest with
    | [] => Ok obj
    | _ :: _ => Raise (JSONDecodeError "Extra data")
    end.

End json.

(** ** routers/auth.py: constants and data *)

Definition lhcb_iam_endpoint : str := py "https://lhcb-auth.web.cern.ch".
Definition ISSUER : str := py "http://lhcbdirac.cern.ch/".
Definition AUDIENCE : str := py "dirac".
Definition ACCESS_TOKEN_EXPIRE_MINUTES : Z := 3000.
Definition DIRAC_CLIENT_ID : str := py "myDIRACClientID".

Definition KNOWN_CLIENTS : gmap str (gmap str (list str)) :=
  {[ DIRAC_CLIENT_ID :=
       {[ py "allowed_redirects" :=
            [py "http://localhost:8000/docs/oauth2-redirect"] ]} ]}.

Definition SID_TO_USERNAME : gmap str str :=
  <[ py "b824d4dc-1f9d-4ee8-8df5-c0ae55d46041" := py "chaen" ]>
  (<[ py "59382c3f-181c-4df8-981d-ec3e9015fcb9" := py "cburr" ]> ∅).

Definition DEVICE_FLOW_EXPIRATION_SECONDS : Z := 600.
Definition AUTHORIZATION_FLOW_EXPIRATION_SECONDS : Z := 300.

Definition lhcb_iam_client_id : str :=
  py "d396912e-2f04-439b-8ae7-d8c585a34790".

(** The value of a claim in a token payload. *)
Inductive claim :=
| ClaimStr (s : str)
| ClaimList (l : list str)
| ClaimTime (t : Z).

(** What [JsonWebToken.encode(header, payload, key)] of authlib signs and
    serialises. The compact serialisation is represented by the three
    arguments it is computed from. *)
Record JsonWebToken := jwt_encode {
  jwt_header : dict claim;
  jwt_payload : dict claim;
  jwt_key : str
}.

(** What [get_secrets()] returns. *)
Record Secrets := {
  token_algorithm : str;
  token_key_jwk : str
}.

Record TokenResponse := {
  access_token : JsonWebToken;
  expires_in : Z;
  state : str
}.

Record InitiateDeviceFlowResponse := {
  user_code : str;
  device_code : str;
  verification_uri_complete : str;
  verification_uri : str;
  device_expires_in : Z
}.

(** Modelled from the spec: [FlowStatus] of [diracx.db.auth.schema] is not
    part of the sources; the spec gives a row the statuses Pending, Ready
    and Expired. The handlers name [FlowStatus.READY] only. *)
Inductive FlowStatus := PENDING | READY | EXPIRED.

#[global] Instance FlowStatus_eq_dec : EqDecision FlowStatus.
Proof. solve_decision. Defined.

(** A flow row as the store returns it: [info["client_id"]] is
    [info.client_id info]. *)
Module info.
Record t := mk {
  client_id : str;
  scope : str;
  status : FlowStatus;
  id_token : gmap str str;
  redirect_uri : str;
  code_challenge : str
}.
End info.

(** The flow store ([diracx.db.auth.db.AuthDB]). Its methods are not part
    of these modules: each is given by its outcome. *)
Record AuthDB := {
  insert_device_flow : str -> str -> str -> result (str * str);
  get_device_flow : str -> Z -> result info.t;
  insert_authorization_flow :
    str -> str -> str -> str -> str -> str -> result str;
  get_authorization_flow : str -> Z -> result info.t
}.

(** The request: [str(request.url.replace(query=''))]. *)
Record Request := {
  url_without_query : str
}.

Inductive RedirectResponse := Redirect (url : str).

(** ** PKCE challenges and the state parameter *)

(** [initiate_authorization_flow_with_iam], lines 283-287. *)
Definition code_challenge_iam (code_verifier : str) : result str :=
  b ← str_encode code_verifier;
  s ← bytes_decode (base64.urlsafe_b64encode (hashlib.sha256 b));
  Ok (str_remove 61 s).

(** [token], lines 620-626. *)
Definition code_challenge_token (code_verifier : str) : result str :=
  b ← str_encode code_verifier;
  s ← bytes_decode (base64.urlsafe_b64encode (hashlib.sha256 b));
  Ok (str_strip 61 s).

(** [initiate_authorization_flow_with_iam], lines 296-298, on the mapping
    that is serialised. *)
Definition encode_state (m : dict str) : result str :=
  b ← str_encode (json.dumps m);
  bytes_decode (base64.urlsafe_b64encode b).

Definition encrypted_state (state : dict str) (code_verifier : str)
  : result str :=
  encode_state (dict_update state [(py "code_verifier", code_verifier)]).

Definition initiate_authorization_flow_with_iam
    (code_verifier authorization_endpoint : str)
    (vo redirect_uri : str) (state : dict str) : result str :=
  code_challenge ← code_challenge_iam code_verifier;
  encrypted_state ← encrypted_state state code_verifier;
  let urlParams :=
    [py "response_type=code";
     py "code_challenge=" ++ code_challenge;
     py "code_challenge_method=S256";
     py "client_id=" ++ lhcb_iam_client_id;
     py "redirect_uri=" ++ redirect_uri;
     py "scope=openid%20profile";
     py "state=" ++ encrypted_state] in
  Ok (authorization_endpoint ++ py "?" ++ str_join (py "&") urlParams).

Definition decrypt_state (state : str) : result json.value :=
  match (b ← base64.urlsafe_b64decode state;
         s ← bytes_decode b;
         json.loads s) with
  | Ok v => Ok v
  | Raise _ =>
      Raise (HTTPException HTTP_400_BAD_REQUEST (Msg "Invalid state" []) [])
  end.

(** ** Token issuance *)

Section Auth.

(** The order in which a [set] built from a list is iterated. CPython
    fixes it by the hashes of the items; here it is a parameter. *)
Variable set_iter : list str -> list str.

(** The members of the [SecurityProperty] enumeration
    ([diracx.core.properties]). *)
Variable SecurityProperty : list str.

(** [get_secrets()] *)
Variable secrets : Secrets.

(** [expires_delta] and the clock are in seconds. *)
Definition create_access_token (utcnow : Z) (payload : dict claim)
    (expires_delta : option Z) : JsonWebToken :=
  let to_encode := payload in
  let expire :=
    match expires_delta with
    | Some delta => if delta =? 0
                    then utcnow + ACCESS_TOKEN_EXPIRE_MINUTES * 60
                    else utcnow + delta
    | None => utcnow + ACCESS_TOKEN_EXPIRE_MINUTES * 60
    end in
  let to_encode := dict_update to_encode [(py "exp", ClaimTime expire)] in
  jwt_encode [(py "alg", ClaimStr (token_algorithm secrets))]
             payload (token_key_jwk secrets).

Definition exchange_token (utcnow : Z) (uuid4 : str)
    (dirac_group : str) (id_token : gmap str str) (config : Config)
  : result TokenResponse :=
  vo ← getitem id_token (py "organisation_name");
  sub ← getitem id_token (py "sub");
  subId ← getitem SID_TO_USERNAME sub;
  vo_groups ← getitem (Groups (Registry config)) vo;
  group_config ← getitem vo_groups dirac_group;
  if bool_decide (subId ∉ Users group_config) then
    preferred_username ← getitem id_token (py "preferred_username");
    Raise (ValueError
             (Msg "User is not a member of the requested group ({}, {})"
                  [preferred_username; dirac_group]))
  else
    preferred_username ← getitem id_token (py "preferred_username");
    let payload :=
      [(py "sub", ClaimStr (vo ++ py ":" ++ subId));
       (py "vo", ClaimStr vo);
       (py "aud", ClaimStr AUDIENCE);
       (py "iss", ClaimStr ISSUER);
       (py "dirac_properties", ClaimList (Properties group_config));
       (py "jti", ClaimStr uuid4);
       (py "preferred_username", ClaimStr preferred_username);
       (py "dirac_group", ClaimStr dirac_group)] in
    Ok {| access_token := create_access_token utcnow payload None;
          expires_in := ACCESS_TOKEN_EXPIRE_MINUTES * 60;
          state := py "None" |}.

(** ** Scope validation *)

Record ScopeInfoDict := {
  group : str;
  properties : list str
}.

(** The body of the [for scope in scopes] loop. *)
Definition classify_scope (acc : list str * list str * list str) (scope : str)
  : result (list str * list str * list str) :=
  let '(groups, properties, unrecognised) := acc in
  if startswith scope (py "group:") then
    g ← index (str_split_1 58 scope) 1;
    Ok (groups ++ [g], properties, unrecognised)
  else if startswith scope (py "property:") then
    p ← index (str_split_1 58 scope) 1;
    Ok (groups, properties ++ [p], unrecognised)
  else
    Ok (groups, properties, unrecognised ++ [scope]).

Fixpoint classify_scopes (scopes : list str)
    (acc : list str * list str * list str)
  : result (list str * list str * list str) :=
  match scopes with
  | [] => Ok acc
  | scope :: rest => acc' ← classify_scope acc scope; classify_scopes rest acc'
  end.

Definition parse_and_validate_scope (scope vo : str) (config : Config)
  : result ScopeInfoDict :=
  let scopes := set_iter (str_split 32 scope) in
  '(groups, properties, unrecognised) ← classify_scopes scopes ([], [], []);
  match unrecognised with
  | _ :: _ => Raise (ValueError (Msg "Unrecognised scopes: {}" unrecognised))
  | [] =>
    group ←
      match groups with
      | [] =>
          defaults ← getitem (DefaultGroup (Registry config)) vo;
          index defaults 0
      | _ :: _ :: _ =>
          Raise (ValueError (Msg "Only one DIRAC group allowed but got {}" groups))
      | [group] =>
          vo_groups ← getitem (Groups (Registry config)) vo;
          match vo_groups !! group with
          | None => Raise (ValueError (Msg "{} not in {} groups" [group; vo]))
          | Some _ => Ok group
          end
      end;
    if forallb (fun p => bool_decide (p ∈ SecurityProperty)) properties then
      Ok {| group := group; properties := properties |}
    else
      Raise (ValueError (Msg "{} are not valid properties"
               (filter (fun p => p ∉ SecurityProperty) properties)))
  end.

(** ** Endpoints *)

(** [POST /{vo}/device] *)
Definition initiate_device_flow (vo client_id scope audience : str)
    (request : Request) (auth_db : AuthDB) (config : Config)
  : result InitiateDeviceFlowResponse :=
  match KNOWN_CLIENTS !! client_id with
  | None => Raise (AssertionError [client_id])
  | Some _ =>
    match parse_and_validate_scope scope vo config with
    | Raise (ValueError e) =>
        Raise (HTTPException HTTP_400_BAD_REQUEST e [])
    | Raise e => Raise e
    | Ok _ =>
      '(user_code, device_code) ←
        insert_device_flow auth_db client_id scope audience;
      let verification_uri := url_without_query request in
      Ok {| user_code := user_code;
            device_code := device_code;
            verification_uri_complete :=
              verification_uri ++ py "?user_code=" ++ user_code;
            verification_uri := url_without_query request;
            device_expires_in := DEVICE_FLOW_EXPIRATION_SECONDS |}
    end
  end.

(** [POST /{vo}/token] *)
Definition token (utcnow : Z) (uuid4 : str)
    (vo grant_type client_id : str) (auth_db : AuthDB) (config : Config)
    (device_code code redirect_uri code_verifier : option str)
  : result TokenResponse :=
  info ←
    (if decide (grant_type = py "urn:ietf:params:oauth:grant-type:device_code")
     then
       match device_code with
       | None => Raise (AssertionError [])
       | Some device_code =>
         match get_device_flow auth_db device_code
                 DEVICE_FLOW_EXPIRATION_SECONDS with
         | Raise PendingAuthorizationError =>
             Raise (DiracHttpResponse HTTP_400_BAD_REQUEST
                      [(py "error", py "authorization_pending")])
         | Raise ExpiredFlowError =>
             Raise (DiracHttpResponse HTTP_400_BAD_REQUEST
                      [(py "error", py "expired_token")])
         | Raise e => Raise e
         | Ok info =>
             if decide (info.client_id info ≠ client_id) then
               Raise (HTTPException HTTP_400_BAD_REQUEST
                        (Msg "Bad client_id" []) [])
             else Ok info
         end
       end
     else if decide (grant_type = py "authorization_code") then
       match code with
       | None => Raise (AssertionError [])
       | Some code =>
         info ← get_authorization_flow auth_db code
                  AUTHORIZATION_FLOW_EXPIRATION_SECONDS;
         if decide (redirect_uri ≠ Some (info.redirect_uri info)) then
           Raise (HTTPException HTTP_400_BAD_REQUEST
                    (Msg "Invalid redirect_uri" []) [])
         else
           match (match code_verifier with
                  | None => Raise (AssertionError [])
                  | Some code_verifier => code_challenge_token code_verifier
                  end) with
           | Raise _ =>
               Raise (HTTPException HTTP_400_BAD_REQUEST
                        (Msg "Malformed code_verifier" []) [])
           | Ok code_challenge =>
               if decide (code_challenge ≠ info.code_challenge info) then
                 Raise (HTTPException HTTP_400_BAD_REQUEST
                          (Msg "Invalid code_challenge" []) [])
               else Ok info
           end
       end
     else
       Raise (NotImplementedError
                (Msg "Grant type not implemented {}" [grant_type])));
  if decide (info.status info ≠ READY) then
    Raise (NotImplementedError (Msg "Unexpected flow status {}" []))
  else
    parsed_scope ← parse_and_validate_scope (info.scope info) vo config;
    exchange_token utcnow uuid4 (group parsed_scope) (info.id_token info)
      config.

(** [GET /{vo}/authorize]; [code_verifier] is what [secrets.token_hex()]
    draws and [authorization_endpoint] what the identity provider's
    metadata gives. *)
Definition authorization_flow (code_verifier authorization_endpoint : str)
    (vo : str) (request : Request)
    (response_type code_challenge code_challenge_method client_id
       redirect_uri scope state : str)
    (auth_db : AuthDB) (config : Config) : result RedirectResponse :=
  match KNOWN_CLIENTS !! client_id with
  | None => Raise (AssertionError [client_id])
  | Some client =>
    allowed_redirects ← getitem client (py "allowed_redirects");
    if bool_decide (redirect_uri ∈ allowed_redirects) then
      match parse_and_validate_scope scope vo config with
      | Raise (ValueError e) =>
          Raise (HTTPException HTTP_400_BAD_REQUEST e [])
      | Raise e => Raise e
      | Ok _ =>
        uuid ← insert_authorization_flow auth_db client_id scope
                 (py "audience") code_challenge code_challenge_method
                 redirect_uri;
        let state_for_iam :=
          [(py "external_state", state);
           (py "uuid", uuid);
           (py "grant_type", py "authorization_code")] in
        authorization_flow_url ←
          initiate_authorization_flow_with_iam
            code_verifier authorization_endpoint
            vo (url_without_query request ++ py "/complete") state_for_iam;
        Ok (Redirect authorization_flow_url)
      end
    else Raise (AssertionError [])
  end.

End Auth.

(** ** routers/configuration.py *)

Definition LAST_MODIFIED_FORMAT : str := py "%a, %d %b %Y %H:%M:%S GMT".

(** A [datetime] without time zone, as [strptime] returns it. A [datetime]
    with a time zone ([config._modified]) is an instant, in seconds. *)
Record datetime := {
  year : Z; month : Z; day : Z; hour : Z; minute : Z; second : Z
}.

(** [response.headers] is [Response.headers response]. *)
Module Response.
Record t := mk {
  headers : dict str
}.
End Response.

Section Configuration.

(** [datetime.strptime(s, format)]; [None] stands for its [ValueError]. *)
Variable strptime : str -> str -> option datetime.

(** [d.astimezone(timezone.utc)] on the [datetime] that [strptime]
    returns. *)
Variable astimezone_utc : datetime -> Z.

(** [d.strftime(format)] *)
Variable strftime : Z -> str -> str.

(** [GET /{vo}]: the configuration and the response with its headers, or
    the exception raised. *)
Definition serve_config (vo : str) (config : Config) (response : Response.t)
    (if_none_match if_modified_since : option str)
  : result (Config * Response.t) :=
  let headers :=
    [(py "ETag", _hexsha config);
     (py "Last-Modified", strftime (_modified config) LAST_MODIFIED_FORMAT)] in
  if decide (if_none_match = Some (_hexsha config)) then
    Raise (HTTPException HTTP_304_NOT_MODIFIED (Msg "Not Modified" []) headers)
  else
    _ ← match if_modified_since with
        | Some ((_ :: _) as if_modified_since) =>
            match strptime if_modified_since LAST_MODIFIED_FORMAT with
            | None => Ok tt
            | Some parsed =>
                let not_before := astimezone_utc parsed in
                if _modified config <? not_before then
                  Raise (HTTPException HTTP_304_NOT_MODIFIED
                           (Msg "Not Modified" []) headers)
                else Ok tt
            end
        | _ => Ok tt
        end;
    Ok (config, Response.mk (dict_update (Response.headers response) headers)).

End Configuration.

(** ** Error responses *)

Inductive body :=
| Detail (detail : message)
| PlainJSON (data : dict str)
| InternalServerError.

(** Modelled from the spec: the exception handlers of the application
    ([diracx.routers]' [app] and the defaults of the framework) are not
    part of the sources. An [HTTPException] is answered with its status and
    the envelope [{"detail": ...}]; a [DiracHttpResponse] "as plain JSON
    with the given HTTP status, not as generic HTTP error envelopes"; an
    exception that no handler takes is answered with status 500. *)
Definition error_response (e : exn) : Z * body :=
  match e with
  | HTTPException status_code detail _ => (status_code, Detail detail)
  | DiracHttpResponse status_code data => (status_code, PlainJSON data)
  | _ => (HTTP_500_INTERNAL_SERVER_ERROR, InternalServerError)
  end.

(** The answer to a request that ends in an exception. *)
Definition answered {A} (r : result A) : option (Z * body) :=
  match r with
  | Ok _ => None
  | Raise e => Some (error_response e)
  end.

(** ** Scope tokens *)

(** The name in a [group:<name>] token, and in a [property:<name>] token. *)
Definition group_name (token : str) : option str :=
  if startswith token (py "group:") then Some (drop 6 token) else None.

Definition property_name (token : str) : option str :=
  if startswith token (py "group:") then None
  else if startswith token (py "property:") then Some (drop 9 token)
  else None.

(** The property names that a list of tokens requests, in the order of the
    tokens and as often as they occur. *)
Definition requested_properties (tokens : list str) : list str :=
  omap property_name tokens.

Definition requested_groups (tokens : list str) : list str :=
  omap group_name tokens.

(** The tokens that are neither a group nor a property. *)
Definition unrecognised_tokens (tokens : list str) : list str :=
  filter (fun t => startswith t (py "group:") = false
                   /\ startswith t (py "property:") = false) tokens.

(** ** Octets and sextets *)

Definition is_byte (b : Z) : Prop := 0 <= b < 256.
Definition is_sextet (v : Z) : Prop := 0 <= v < 64.
Definition sextet_b (v : Z) : bool := (0 <=? v) && (v <? 64).

(** A character of the URL-safe alphabet: a letter, a digit, [-] or [_]. *)
Definition urlsafe_char (c : Z) : Prop :=
  0 <= c < 128 /\ c <> base64.PAD
  /\ base64.a2b (base64.urlsafe_decode_translation c) <> None.

(** ** Text and state mappings *)

(** A Unicode scalar value: a code point that is not a surrogate. *)
Definition scalar (c : Z) : Prop := 0 <= c < 55296 \/ 57344 <= c < 1114112.

(** Printable ASCII. *)
Definition printable (c : Z) : Prop := 32 <= c <= 126.

(** A key and a value that are Unicode text. *)
Definition text_pair (kv : str * str) : Prop :=
  Forall scalar kv.1 /\ Forall scalar kv.2.

(** A [dict[str, str]] as [json.loads] returns it. *)
Definition as_json (m : dict str) : dict json.value :=
  map (fun kv => (kv.1, json.String kv.2)) m.

(** The character that stands for a sextet in an encoded string, once the
    decoder has translated it back to the standard alphabet. *)
Definition wire (v : Z) : Z :=
  base64.urlsafe_decode_translation
    (base64.urlsafe_encode_translation (base64.b2a v)).


(** A state mapping as [authorization_flow] builds it. *)
Definition state_for_iam : dict str :=
  [(py "external_state", py "external-state");
   (py "uuid", py "0d5b7f0a");
   (py "grant_type", py "authorization_code")].

(** A value that holds the two halves of a surrogate pair as two code
    points. *)
Definition surrogate_state : dict str := [(py "k", [55357; 56832])].

(** ** The registry and the flows of the scenarios *)

(** One admissible iteration order: first occurrences, in order. *)
Definition first_occurrences : list str -> list str := remove_dups.

Definition known_properties : list str :=
  [py "NormalUser"; py "JobAdministrator"].

Definition test_secrets : Secrets :=
  {| token_algorithm := py "RS256"; token_key_jwk := py "signing-key" |}.

Definition lhcb_user : GroupConfig :=
  {| Users := [py "chaen"]; Properties := [py "NormalUser"] |}.

Definition lhcb_config : Config :=
  {| Registry :=
       {| DefaultGroup := {[ py "lhcb" := [py "lhcb_user"] ]};
          Groups := {[ py "lhcb" := {[ py "lhcb_user" := lhcb_user ]} ]} |};
     _hexsha := py "b5f3ae5c";
     _modified := 1680307200 |}.

Definition chaen_id_token : gmap str str :=
  <[ py "sub" := py "b824d4dc-1f9d-4ee8-8df5-c0ae55d46041" ]>
  (<[ py "organisation_name" := py "lhcb" ]>
   (<[ py "preferred_username" := py "chaen" ]> ∅)).

(** A registry whose default group for [lhcb] is not one of its groups. *)
Definition stale_default_config : Config :=
  {| Registry :=
       {| DefaultGroup := {[ py "lhcb" := [py "lhcb_admin"] ]};
          Groups := {[ py "lhcb" := {[ py "lhcb_user" := lhcb_user ]} ]} |};
     _hexsha := py "b5f3ae5c";
     _modified := 1680307200 |}.

(** An [id_token] of a subject that [SID_TO_USERNAME] does not list. *)
Definition stranger_id_token : gmap str str :=
  <[ py "sub" := py "0d5b7f0a-5a7e-4a55-9a0e-2f1d3c4b5a69" ]> chaen_id_token.

(** A scope that names a property twice, and what the validator returns
    for it when the set is iterated by first occurrences. *)
Definition repeated_scope : str :=
  py "group:lhcb_user property:NormalUser property:NormalUser".

Definition repeated_scope_info : ScopeInfoDict :=
  {| group := py "lhcb_user"; properties := [py "NormalUser"] |}.

Definition lhcb_request : Request :=
  {| url_without_query := py "http://localhost:8000/auth/lhcb/authorize" |}.

(** A store that answers every lookup with the same outcome. *)
Definition store_answering (outcome : result info.t) : AuthDB :=
  {| insert_device_flow := fun _ _ _ => Ok (py "USERCODE", py "devicecode");
     get_device_flow := fun _ _ => outcome;
     insert_authorization_flow := fun _ _ _ _ _ _ => Ok (py "uuid");
     get_authorization_flow := fun _ _ => outcome |}.

(** The verifier and the challenge of an authorization-code flow, and the
    row of the flow once the identity provider has answered. *)
Definition pkce_verifier : str :=
  py "0123456789abcdef0123456789abcdef0123456789abcdef0123456789abcdef".

Definition pkce_challenge : str :=
  py "qK5ubukpq-o6_PxSWMjM1vhSc-DUYm0mxyefMlD3fI4".

Definition ready_flow : info.t :=
  info.mk DIRAC_CLIENT_ID (py "group:lhcb_user property:NormalUser") READY
    chaen_id_token (py "http://localhost:8000/docs/oauth2-redirect")
    pkce_challenge.

(** ** Dates for the replay of [test_get_config] *)

Definition digits_value (s : str) : option Z :=
  match s with
  | [] => None
  | _ :: _ =>
      if forallb json.is_digit s then Some (json.int_of_digits s) else None
  end.

Definition day_names : list str :=
  [py "Mon"; py "Tue"; py "Wed"; py "Thu"; py "Fri"; py "Sat"; py "Sun"].

Definition month_names : list str :=
  [py "Jan"; py "Feb"; py "Mar"; py "Apr"; py "May"; py "Jun";
   py "Jul"; py "Aug"; py "Sep"; py "Oct"; py "Nov"; py "Dec"].

Definition month_number (name : str) : option Z :=
  (fun found => Z.of_nat found.1 + 1) <$> list_find (fun n => n = name) month_names.

Definition is_leap (y : Z) : bool :=
  (y mod 4 =? 0) && (negb (y mod 100 =? 0) || (y mod 400 =? 0)).

Definition days_in_month (y m : Z) : Z :=
  if m =? 2 then (if is_leap y then 29 else 28)
  else if (m =? 4) || (m =? 6) || (m =? 9) || (m =? 11) then 30
  else 31.

(** A reading of the dates that the tests send, written
    [Www, D Mon YYYY HH:MM:SS GMT] with single blanks. It stands for
    [datetime.strptime] with [LAST_MODIFIED_FORMAT] in the replay of the
    tests only; [strptime] itself also reads other spellings. *)
Definition test_strptime (s format : str) : option datetime :=
  match str_split 32 s with
  | [weekday; d; mon; y; time; zone] =>
      if bool_decide (weekday ∈ map (fun n => n ++ py ",") day_names)
         && bool_decide (zone = py "GMT")
         && bool_decide (length y = 4%nat)
      then
        d ← digits_value d;
        m ← month_number mon;
        y ← digits_value y;
        match str_split 58 time with
        | [hh; mm; ss] =>
            h ← digits_value hh;
            mi ← digits_value mm;
            sec ← digits_value ss;
            if (1 <=? y) && (1 <=? d) && (d <=? days_in_month y m)
               && (h <? 24) && (mi <? 60) && (sec <? 60)
            then Some {| year := y; month := m; day := d;
                         hour := h; minute := mi; second := sec |}
            else None
        | _ => None
        end
      else None
  | _ => None
  end.

(** Days from 1970-01-01 to a date of the Gregorian calendar. *)
Definition days_from_civil (y m d : Z) : Z :=
  let y' := if m <=? 2 then y - 1 else y in
  let era := y' / 400 in
  let yoe := y' - era * 400 in
  let mp := if 2 <? m then m - 3 else m + 9 in
  let doy := (153 * mp + 2) / 5 + d - 1 in
  let doe := yoe * 365 + yoe / 4 - yoe / 100 + doy in
  era * 146097 + doe - 719468.

(** [astimezone(timezone.utc)] on a host whose local time is UTC. *)
Definition utc_seconds (t : datetime) : Z :=
  days_from_civil (year t) (month t) (day t) * 86400
  + hour t * 3600 + minute t * 60 + second t.

(** The [Last-Modified] of [lhcb_config]. *)
Definition test_strftime (t : Z) (format : str) : str :=
  py "Sat, 01 Apr 2023 00:00:00 GMT".

(** The status of an answer of [serve_config]. *)
Definition serve_config_status {A} (r : result A) : Z :=
  match answered r with
  | Some (status_code, _) => status_code
  | None => HTTP_200_OK
  end.

(** The request of the tests with the given [If-None-Match] and
    [If-Modified-Since]. *)
Definition get_config (if_none_match if_modified_since : option str) : Z :=
  serve_config_status
    (serve_config test_strptime utc_seconds test_strftime (py "lhcb")
       lhcb_config (Response.mk []) if_none_match if_modified_since).

(** ** Exceptions of other classes *)

(** What the handlers of the browser leg, the bearer-token dependency and
    the database base class can end in: an exception of [exn], or one of
    four further classes. *)
Inductive error :=
| Known (e : exn)
| TypeError
| AttributeError
| RuntimeError (msg : message)
| ValidationError.

Inductive attempt (A : Type) :=
| Return (a : A)
| Throw (e : error).
Arguments Return {A} a.
Arguments Throw {A} e.

#[global] Instance attempt_ret : MRet attempt := fun A a => Return a.
#[global] Instance attempt_bind : MBind attempt := fun A B f r =>
  match r with
  | Return a => f a
  | Throw e => Throw e
  end.

(** A call that raises exceptions of [exn] only. *)
Definition lift {A} (r : result A) : attempt A :=
  match r with
  | Ok a => Return a
  | Raise e => Throw (Known e)
  end.

(** The answer to an exception, as [error_response] gives it; no handler
    takes an exception of the further classes. *)
Definition error_answer (e : error) : Z * body :=
  match e with
  | Known e => error_response e
  | _ => (HTTP_500_INTERNAL_SERVER_ERROR, InternalServerError)
  end.

Definition HTTP_403_FORBIDDEN : Z := 403.
Definition HTTP_502_BAD_GATEWAY : Z := 502.

(** [v[k]] for a string [k] on what [json.loads] returns: a dictionary is
    looked up, every other value raises [TypeError]. *)
Definition subscript (v : json.value) (k : str) : attempt json.value :=
  match v with
  | json.Object members =>
      match dict_get members k with
      | Some x => Return x
      | None => Throw (Known (KeyError k))
      end
  | _ => Throw TypeError
  end.

(** [v == s] for a string literal [s]. *)
Definition equals_str (v : json.value) (s : str) : bool :=
  match v with
  | json.String s' => bool_decide (s' = s)
  | _ => false
  end.

(** ** routers/auth.py: the browser leg *)

(** [res] of [c.post(...)]: the status and what [res.json()] gives. *)
Record HTTPResponse := {
  status_code : Z;
  json_body : attempt json.value
}.

(** The client that [oauth.create_client(vo)] returns, by what the handlers
    ask of it: the [token_endpoint] of the metadata that
    [load_server_metadata] fetches, the answer to a POST of form data to a
    URL, and the outcome of [parse_id_token] (whose calls all go to
    authlib) on a raw token and an audience. *)
Record IdentityProvider := {
  token_endpoint : attempt str;
  post : str -> dict json.value -> attempt HTTPResponse;
  parse_id_token : json.value -> str -> attempt (gmap str str)
}.

(** The methods of [AuthDB] that the browser leg calls, each by its
    outcome; the key is the value found in the decoded state. *)
Record AuthDB_login := {
  device_flow_validate_user_code : str -> Z -> attempt unit;
  device_flow_insert_id_token :
    json.value -> gmap str str -> Z -> attempt unit;
  authorization_flow_insert_id_token :
    json.value -> gmap str str -> Z -> attempt (str * str)
}.

Inductive HTMLResponse := HTML (content : str).

(** The form data of the token request, lines 322-328. *)
Definition token_request_data (code : str) (state : json.value)
    (redirect_uri : str) : attempt (dict json.value) :=
  code_verifier ← subscript state (py "code_verifier");
  Return [(py "grant_type", json.String (py "authorization_code"));
          (py "client_id", json.String lhcb_iam_client_id);
          (py "code", json.String code);
          (py "code_verifier", code_verifier);
          (py "redirect_uri", json.String redirect_uri)].

(** [client] is what [oauth.create_client(vo)] returns. *)
Definition get_token_from_iam (client : IdentityProvider)
    (vo code : str) (state : json.value) (redirect_uri : str)
  : attempt (gmap str str) :=
  token_endpoint ← token_endpoint client;
  data ← token_request_data code state redirect_uri;
  res ← post client token_endpoint data;
  if 500 <=? status_code res then
    Throw (Known (HTTPException HTTP_502_BAD_GATEWAY
                    (Msg "Failed to contact IAM token endpoint" []) []))
  else if 400 <=? status_code res then
    Throw (Known (HTTPException HTTP_401_UNAUTHORIZED
                    (Msg "Invalid code" []) []))
  else
    body ← json_body res;
    raw_id_token ← subscript body (py "id_token");
    id_token ← parse_id_token client raw_id_token lhcb_iam_client_id;
    organisation_name ← lift (getitem id_token (py "organisation_name"));
    if decide (organisation_name ≠ vo) then
      Throw (Known (HTTPException HTTP_401_UNAUTHORIZED
                      (Msg "vo does not match organization_name" []) []))
    else Return id_token.

(** [GET /{vo}/device]; [code_verifier] and [authorization_endpoint] are
    as in [authorization_flow]. The quotation mark is the code point 34. *)
Definition do_device_flow (code_verifier authorization_endpoint : str)
    (vo : str) (request : Request) (auth_db : AuthDB_login) (user_code : str)
  : attempt HTMLResponse :=
  _ ← device_flow_validate_user_code auth_db user_code
        DEVICE_FLOW_EXPIRATION_SECONDS;
  let redirect_uri := url_without_query request ++ py "/complete" in
  let state_for_iam :=
    [(py "grant_type", py "urn:ietf:params:oauth:grant-type:device_code");
     (py "user_code", user_code)] in
  authorization_flow_url ←
    lift (initiate_authorization_flow_with_iam
            code_verifier authorization_endpoint vo redirect_uri
            state_for_iam);
  Return (HTML (py "<a href=" ++ [34] ++ authorization_flow_url ++ [34]
                ++ py ">click here to login</a>")).

(** [GET /{vo}/device/complete] *)
Definition finish_device_flow (client : IdentityProvider)
    (vo : str) (request : Request) (code state : str)
    (auth_db : AuthDB_login) : attempt RedirectResponse :=
  decrypted_state ← lift (decrypt_state state);
  grant_type ← subscript decrypted_state (py "grant_type");
  if equals_str grant_type
       (py "urn:ietf:params:oauth:grant-type:device_code") then
    id_token ← get_token_from_iam client vo code decrypted_state
                 (url_without_query request);
    user_code ← subscript decrypted_state (py "user_code");
    _ ← device_flow_insert_id_token auth_db user_code id_token
          DEVICE_FLOW_EXPIRATION_SECONDS;
    Return (Redirect (url_without_query request ++ py "/finished"))
  else Throw (Known (AssertionError [])).

Section Completion.

(** [str(v)], as an f-string formats it, for a value [v] of the decoded
    state that is no string. *)
Variable python_str : json.value -> str.

Definition format_value (v : json.value) : str :=
  match v with
  | json.String s => s
  | _ => python_str v
  end.

(** [GET /{vo}/authorize/complete] *)
Definition authorization_flow_complete (client : IdentityProvider)
    (vo code state : str) (request : Request) (auth_db : AuthDB_login)
  : attempt RedirectResponse :=
  decrypted_state ← lift (decrypt_state state);
  grant_type ← subscript decrypted_state (py "grant_type");
  if equals_str grant_type (py "authorization_code") then
    id_token ← get_token_from_iam client vo code decrypted_state
                 (url_without_query request);
    uuid ← subscript decrypted_state (py "uuid");
    '(code, redirect_uri) ←
      authorization_flow_insert_id_token auth_db uuid id_token
        AUTHORIZATION_FLOW_EXPIRATION_SECONDS;
    external_state ← subscript decrypted_state (py "external_state");
    Return (Redirect (redirect_uri ++ py "?code=" ++ code ++ py "&state="
                      ++ format_value external_state))
  else Throw (Known (AssertionError [])).

End Completion.

(** ** routers/auth.py: the bearer token *)

(** [re.fullmatch(r"Bearer (.+)", authorization)]: group 1 of the match,
    where [.] is every character but the line feed. *)
Definition match_bearer (authorization : str) : option str :=
  if startswith authorization (py "Bearer ") then
    match drop 7 authorization with
    | [] => None
    | (_ :: _) as raw_token =>
        if forallb (fun c => negb (c =? 10)) raw_token then Some raw_token
        else None
    end
  else None.

(** The arguments of [UserInfo(...)]. *)
Module UserInfo.
Record t := mk {
  bearer_token : str;
  token_id : claim;
  properties : claim;
  sub : claim;
  preferred_username : claim;
  dirac_group : claim;
  vo : claim
}.
End UserInfo.

Section Bearer.

Variable secrets : Secrets.

(** [JsonWebToken(algorithm).decode(raw_token, key, claims_options)]
    followed by [token.validate()]: the claims, or [None] for a
    [JoseError]. *)
Variable jwt_decode :
  str -> str -> str -> dict (list str) -> option (gmap str claim).

(** The validation that pydantic runs when [UserInfo] is built: the
    model, or [None] for its [ValidationError]. *)
Variable validate_model : UserInfo.t -> option UserInfo.t.

Definition verify_dirac_token (authorization : str) : attempt UserInfo.t :=
  match match_bearer authorization with
  | None =>
      Throw (Known (HTTPException HTTP_400_BAD_REQUEST
                      (Msg "Invalid authorization header" []) []))
  | Some raw_token =>
      match jwt_decode (token_algorithm secrets) raw_token
              (token_key_jwk secrets)
              [(py "iss", [ISSUER]); (py "aud", [AUDIENCE])] with
      | None =>
          Throw (Known (HTTPException HTTP_401_UNAUTHORIZED
                          (Msg "Invalid JWT" []) []))
      | Some token =>
          jti ← lift (getitem token (py "jti"));
          dirac_properties ← lift (getitem token (py "dirac_properties"));
          sub ← lift (getitem token (py "sub"));
          preferred_username ←
            lift (getitem token (py "preferred_username"));
          dirac_group ← lift (getitem token (py "dirac_group"));
          vo ← lift (getitem token (py "vo"));
          match validate_model
                  (UserInfo.mk raw_token jti dirac_properties sub
                     preferred_username dirac_group vo) with
          | Some user => Return user
          | None => Throw ValidationError
          end
      end
  end.

(** ** routers/utils.py *)

(** [require_property] for the [evaluator] that [has_properties] builds
    from its expression; an [HTTPException] without detail carries the
    phrase of its status. *)
Definition require_property (evaluator : claim -> bool) (user : UserInfo.t)
  : attempt unit :=
  if negb (evaluator (UserInfo.properties user)) then
    Throw (Known (HTTPException HTTP_403_FORBIDDEN (Msg "Forbidden" []) []))
  else Return tt.

(** The dependency that [has_properties] returns, resolved on a request:
    [require_property] on what [verify_dirac_token] returns for the
    [Authorization] header. *)
Definition has_properties (evaluator : claim -> bool) (authorization : str)
  : attempt unit :=
  user ← verify_dirac_token authorization;
  require_property evaluator user.

End Bearer.

(** ** db/utils.py: [BaseDB] *)

Module BaseDB.

(** What reaches the connection [c] of the engine. *)
Inductive event :=
| Commit (c : Z)
| Exit (c : Z) (exc : option error).

(** The object: [_conn], and the calls made on connections so far. *)
Record t := mk {
  _conn : option Z;
  calls : list event
}.

Definition __init__ : t := mk None [].

(** The property [conn]; [class] is [str(self.__class__)]. *)
Definition conn (class : str) (self : t) : attempt Z :=
  match _conn self with
  | None => Throw (RuntimeError (Msg "{} was used before entering" [class]))
  | Some c => Return c
  end.

(** [connect] is the outcome of [self.engine.connect().__aenter__()]. *)
Definition __aenter__ (connect : attempt Z) (self : t) : t * attempt unit :=
  match connect with
  | Return c => (mk (Some c) (calls self), Return tt)
  | Throw e => (self, Throw e)
  end.

(** [commit] and [conn_aexit] are the outcomes of the two calls on the
    connection; [exc] is the exception that the block ended in. *)
Definition __aexit__ (commit conn_aexit : attempt unit) (self : t)
    (exc : option error) : t * attempt unit :=
  match _conn self with
  | None => (self, Throw AttributeError)
  | Some c =>
      let '(self, committed) :=
        match exc with
        | None => (mk (Some c) (calls self ++ [Commit c]), commit)
        | Some _ => (self, Return tt)
        end in
      match committed with
      | Throw e => (self, Throw e)
      | Return _ =>
          let self := mk (Some c) (calls self ++ [Exit c exc]) in
          match conn_aexit with
          | Throw e => (self, Throw e)
          | Return _ => (mk None (calls self), Return tt)
          end
      end
  end.

(** [async with self: body]: the block is entered once [__aenter__] has
    returned; [__aexit__] is called with the exception of the body, which
    is raised again as [__aexit__] returns [None]. *)
Definition async_with {A} (connect : attempt Z)
    (commit conn_aexit : attempt unit) (body : t -> attempt A) (self : t)
  : t * attempt A :=
  match __aenter__ connect self with
  | (self, Throw e) => (self, Throw e)
  | (self, Return _) =>
      match body self with
      | Return a =>
          match __aexit__ commit conn_aexit self None with
          | (self, Return _) => (self, Return a)
          | (self, Throw e) => (self, Throw e)
          end
      | Throw e =>
          match __aexit__ commit conn_aexit self (Some e) with
          | (self, Return _) => (self, Throw e)
          | (self, Throw e') => (self, Throw e')
          end
      end
  end.

End BaseDB.

(** ** The identity provider and the store of the browser scenarios *)

(** A provider that answers the token request with [status] and a body
    that holds an [id_token], which parses to the claims of [chaen]. *)
Definition iam_answering (status : Z) : IdentityProvider :=
  {| token_endpoint := Return (py "https://lhcb-auth.web.cern.ch/token");
     post := fun _ _ =>
       Return {| status_code := status;
                 json_body :=
                   Return (json.Object
                             [(py "id_token",
                               json.String (py "raw-id-token"))]) |};
     parse_id_token := fun _ _ => Return chaen_id_token |}.

(** A store that accepts every code. *)
Definition login_store : AuthDB_login :=
  {| device_flow_validate_user_code := fun _ _ => Return tt;
     device_flow_insert_id_token := fun _ _ _ => Return tt;
     authorization_flow_insert_id_token := fun _ _ _ =>
       Return (py "authcode",
               py "http://localhost:8000/docs/oauth2-redirect") |}.

Definition lhcb_authorization_endpoint : str :=
  py "https://lhcb-auth.web.cern.ch/authorize".

Definition device_request : Request :=
  {| url_without_query := py "http://localhost:8000/auth/lhcb/device" |}.

(** The state mapping that [do_device_flow] builds for [USERCODE], what it
    is encoded to with [pkce_verifier], and the page with the login link. *)
Definition device_state : list (str * str) :=
  [(py "grant_type", py "urn:ietf:params:oauth:grant-type:device_code");
   (py "user_code", py "USERCODE")].

Definition device_state_encoded : str :=
  py "eyJncmFudF90eXBlIjogInVybjppZXRmOnBhcmFtczpvYXV0aDpncmFudC10eXBlOmRldmljZV9jb2RlIiwgInVzZXJfY29kZSI6ICJVU0VSQ09ERSIsICJjb2RlX3ZlcmlmaWVyIjogIjAxMjM0NTY3ODlhYmNkZWYwMTIzNDU2Nzg5YWJjZGVmMDEyMzQ1Njc4OWFiY2RlZjAxMjM0NTY3ODlhYmNkZWYifQ==".

Definition login_page : HTMLResponse :=
  HTML (py "<a href=" ++ [34]
        ++ lhcb_authorization_endpoint
        ++ py "?response_type=code&code_challenge=" ++ pkce_challenge
        ++ py "&code_challenge_method=S256&client_id=" ++ lhcb_iam_client_id
        ++ py "&redirect_uri=http://localhost:8000/auth/lhcb/device/complete"
        ++ py "&scope=openid%20profile&state=" ++ device_state_encoded
        ++ [34] ++ py ">click here to login</a>").

(** The state that [authorization_flow] encodes for the client state
    [external-state] and the flow [uuid], and where it redirects the
    browser. *)
Definition authorization_state_encoded : str :=
  py "eyJleHRlcm5hbF9zdGF0ZSI6ICJleHRlcm5hbC1zdGF0ZSIsICJ1dWlkIjogInV1aWQiLCAiZ3JhbnRfdHlwZSI6ICJhdXRob3JpemF0aW9uX2NvZGUiLCAiY29kZV92ZXJpZmllciI6ICIwMTIzNDU2Nzg5YWJjZGVmMDEyMzQ1Njc4OWFiY2RlZjAxMjM0NTY3ODlhYmNkZWYwMTIzNDU2Nzg5YWJjZGVmIn0=".

Definition authorization_redirect : str :=
  lhcb_authorization_endpoint
  ++ py "?response_type=code&code_challenge=" ++ pkce_challenge
  ++ py "&code_challenge_method=S256&client_id=" ++ lhcb_iam_client_id
  ++ py "&redirect_uri=http://localhost:8000/auth/lhcb/authorize/complete"
  ++ py "&scope=openid%20profile&state=" ++ authorization_state_encoded.

(** A token whose claims are those that [exchange_token] signs for
    [chaen], a decoder that accepts the raw token [signed] only, and a
    model validation that accepts everything. *)
Definition chaen_claims : gmap str claim :=
  list_to_map
    [(py "sub", ClaimStr (py "lhcb:chaen"));
     (py "vo", ClaimStr (py "lhcb"));
     (py "aud", ClaimStr AUDIENCE);
     (py "iss", ClaimStr ISSUER);
     (py "dirac_properties", ClaimList [py "NormalUser"]);
     (py "jti", ClaimStr (py "0d5b7f0a"));
     (py "preferred_username", ClaimStr (py "chaen"));
     (py "dirac_group", ClaimStr (py "lhcb_user"))].

Definition test_jwt_decode (algorithm raw_token key : str)
    (claims_options : list (str * list str)) : option (gmap str claim) :=
  if decide (raw_token = py "signed") then Some chaen_claims else None.

Definition chaen_user : UserInfo.t :=
  UserInfo.mk (py "signed") (ClaimStr (py "0d5b7f0a"))
    (ClaimList [py "NormalUser"]) (ClaimStr (py "lhcb:chaen"))
    (ClaimStr (py "chaen")) (ClaimStr (py "lhcb_user")) (ClaimStr (py "lhcb")).

(** The evaluator of a single property: membership in the list. *)
Definition holds (property : str) (properties : claim) : bool :=
  match properties with
  | ClaimList l => bool_decide (property ∈ l)
  | _ => false
  end.

(** * Properties *)

(** ** Results *)

Lemma bind_Ok {A B} (f : A -> result B) (a : A) : Ok a ≫= f = f a.
Proof. reflexivity. Qed.

Lemma bind_Raise {A B} (f : A -> result B) (e : exn) :
  (Raise e : result A) ≫= f = Raise e.
Proof. reflexivity. Qed.

Lemma bind_inv_Ok {A B} (f : A -> result B) (r : result A) (b : B) :
  r ≫= f = Ok b -> exists a, r = Ok a /\ f a = Ok b.
Proof. destruct r as [a|e]; [eauto | discriminate]. Qed.

Lemma getitem_Ok {V} (d : gmap str V) k v :
  getitem d k = Ok v <-> d !! k = Some v.
Proof.
  unfold getitem. destruct (d !! k); split; intros H; congruence.
Qed.

Lemma getitem_None {V} (d : gmap str V) k :
  d !! k = None -> getitem d k = Raise (KeyError k).
Proof. unfold getitem. intros ->. reflexivity. Qed.

(** Inversion of a successful bind, and rewriting by a known outcome. *)
Ltac inv_bind H :=
  let a := fresh "a" in
  let Ha := fresh "Ha" in
  apply bind_inv_Ok in H; destruct H as (a & Ha & H).

(** ** The subject table *)

Lemma SID_TO_USERNAME_keys sub name :
  SID_TO_USERNAME !! sub = Some name ->
  sub = py "b824d4dc-1f9d-4ee8-8df5-c0ae55d46041"
  \/ sub = py "59382c3f-181c-4df8-981d-ec3e9015fcb9".
Proof.
  unfold SID_TO_USERNAME. rewrite !lookup_insert, lookup_empty.
  repeat case_decide; intros; simplify_eq; auto.
Qed.

Section AuthProperties.

Variable set_iter : list str -> list str.
Variable SecurityProperty : list str.
Variable secrets : Secrets.

(** C9: an [id_token] whose [sub] is none of the two subjects of
    [SID_TO_USERNAME] makes [exchange_token] raise [KeyError], whatever the
    group and the registry (so before any membership check); the client
    is answered with status 500; no [ValueError] for a user outside the
    group is raised. *)
Theorem exchange_token_unknown_subject
    (utcnow : Z) (uuid4 dirac_group : str) (id_token : gmap str str)
    (config : Config) :
  id_token !! py "sub" ≠ Some (py "b824d4dc-1f9d-4ee8-8df5-c0ae55d46041") ->
  id_token !! py "sub" ≠ Some (py "59382c3f-181c-4df8-981d-ec3e9015fcb9") ->
  (exists key,
     exchange_token secrets utcnow uuid4 dirac_group id_token config
     = Raise (KeyError key))
  /\ answered (exchange_token secrets utcnow uuid4 dirac_group id_token config)
     = Some (500, InternalServerError).
Proof.
  intros H1 H2.
  assert (exists key,
     exchange_token secrets utcnow uuid4 dirac_group id_token config
     = Raise (KeyError key)) as [key Hkey].
  { unfold exchange_token.
    destruct (id_token !! py "organisation_name") as [vo|] eqn:Hvo.
    2:{ rewrite (getitem_None _ _ Hvo). eexists; reflexivity. }
    apply getitem_Ok in Hvo. rewrite Hvo, bind_Ok.
    destruct (id_token !! py "sub") as [sub|] eqn:Hsub.
    2:{ rewrite (getitem_None _ _ Hsub). eexists; reflexivity. }
    pose proof Hsub as Hsub'. apply getitem_Ok in Hsub'.
    rewrite Hsub', bind_Ok.
    destruct (SID_TO_USERNAME !! sub) as [name|] eqn:Hname.
    - apply SID_TO_USERNAME_keys in Hname as [-> | ->]; congruence.
    - rewrite (getitem_None _ _ Hname). eexists; reflexivity. }
  split; [eauto | rewrite Hkey; reflexivity].
Qed.

(** What [exchange_token] has looked up when it returns, and what it
    returns. *)
Lemma exchange_token_Ok
    (utcnow : Z) (uuid4 dirac_group : str) (id_token : gmap str str)
    (config : Config) (tr : TokenResponse) :
  exchange_token secrets utcnow uuid4 dirac_group id_token config = Ok tr ->
  exists vo sub subId vo_groups group_config preferred_username,
    id_token !! py "organisation_name" = Some vo
    /\ id_token !! py "sub" = Some sub
    /\ SID_TO_USERNAME !! sub = Some subId
    /\ Groups (Registry config) !! vo = Some vo_groups
    /\ vo_groups !! dirac_group = Some group_config
    /\ subId ∈ Users group_config
    /\ id_token !! py "preferred_username" = Some preferred_username
    /\ tr = {| access_token :=
                 jwt_encode [(py "alg", ClaimStr (token_algorithm secrets))]
                   [(py "sub", ClaimStr (vo ++ py ":" ++ subId));
                    (py "vo", ClaimStr vo);
                    (py "aud", ClaimStr AUDIENCE);
                    (py "iss", ClaimStr ISSUER);
                    (py "dirac_properties",
                     ClaimList (Properties group_config));
                    (py "jti", ClaimStr uuid4);
                    (py "preferred_username", ClaimStr preferred_username);
                    (py "dirac_group", ClaimStr dirac_group)]
                   (token_key_jwk secrets);
               expires_in := 180000;
               state := py "None" |}.
Proof.
  unfold exchange_token. intros H.
  inv_bind H. rename a into vo. apply getitem_Ok in Ha.
  inv_bind H. rename a into sub. apply getitem_Ok in Ha0.
  inv_bind H. rename a into subId. apply getitem_Ok in Ha1.
  inv_bind H. rename a into vo_groups. apply getitem_Ok in Ha2.
  inv_bind H. rename a into group_config. apply getitem_Ok in Ha3.
  destruct (bool_decide (subId ∉ Users group_config)) eqn:Hmember.
  - inv_bind H. discriminate.
  - inv_bind H. rename a into preferred_username. apply getitem_Ok in Ha4.
    injection H as <-.
    apply bool_decide_eq_false in Hmember. apply dec_stable in Hmember.
    exists vo, sub, subId, vo_groups, group_config, preferred_username.
    repeat split; assumption || reflexivity.
Qed.

(** C2: whatever [exchange_token] accepts, the payload that is signed is
    the one built by [exchange_token], with the eight claims [sub], [vo],
    [aud], [iss], [dirac_properties], [jti], [preferred_username] and
    [dirac_group]: the [exp] claim that [create_access_token] adds to its
    copy [to_encode] is not in it. [expires_in] is 180000. *)
Theorem exchange_token_signs_payload_without_exp
    (utcnow : Z) (uuid4 dirac_group : str) (id_token : gmap str str)
    (config : Config) (tr : TokenResponse) :
  exchange_token secrets utcnow uuid4 dirac_group id_token config = Ok tr ->
  (exists vo sub subId vo_groups group_config preferred_username,
     id_token !! py "organisation_name" = Some vo
     /\ id_token !! py "sub" = Some sub
     /\ SID_TO_USERNAME !! sub = Some subId
     /\ Groups (Registry config) !! vo = Some vo_groups
     /\ vo_groups !! dirac_group = Some group_config
     /\ id_token !! py "preferred_username" = Some preferred_username
     /\ jwt_payload (access_token tr)
        = [(py "sub", ClaimStr (vo ++ py ":" ++ subId));
           (py "vo", ClaimStr vo);
           (py "aud", ClaimStr AUDIENCE);
           (py "iss", ClaimStr ISSUER);
           (py "dirac_properties", ClaimList (Properties group_config));
           (py "jti", ClaimStr uuid4);
           (py "preferred_username", ClaimStr preferred_username);
           (py "dirac_group", ClaimStr dirac_group)])
  /\ dict_get (jwt_payload (access_token tr)) (py "exp") = None
  /\ expires_in tr = 180000.
Proof.
  intros (vo & sub & subId & vo_groups & group_config & preferred_username
          & Hvo & Hsub & Hname & Hgroups & Hgroup & _ & Hpref & ->)
         %exchange_token_Ok.
  cbn [access_token expires_in jwt_payload].
  split; [|split; reflexivity].
  exists vo, sub, subId, vo_groups, group_config, preferred_username.
  repeat split; assumption.
Qed.

(** X2: tokens are issued for the two subjects of [SID_TO_USERNAME]
    only. *)
Lemma exchange_token_known_subject
    (utcnow : Z) (uuid4 dirac_group : str) (id_token : gmap str str)
    (config : Config) (tr : TokenResponse) :
  exchange_token secrets utcnow uuid4 dirac_group id_token config = Ok tr ->
  id_token !! py "sub" = Some (py "b824d4dc-1f9d-4ee8-8df5-c0ae55d46041")
  \/ id_token !! py "sub" = Some (py "59382c3f-181c-4df8-981d-ec3e9015fcb9").
Proof.
  intros (vo & sub & subId & _ & _ & _ & _ & Hsub & Hname & _)
         %exchange_token_Ok.
  apply SID_TO_USERNAME_keys in Hname as [-> | ->]; auto.
Qed.

(** The signed token does not depend on the clock. *)
Lemma create_access_token_ignores_clock (t t' : Z) payload expires_delta :
  create_access_token secrets t payload expires_delta
  = create_access_token secrets t' payload expires_delta.
Proof. reflexivity. Qed.

(** ** The token endpoint *)

Lemma grant_types_differ :
  py "authorization_code" ≠ py "urn:ietf:params:oauth:grant-type:device_code".
Proof. vm_compute. discriminate. Qed.

(** C1: with the authorization-code grant the outcome of [token] is the
    same for every [client_id] presented, and a request that presents a
    [client_id] other than the one recorded in the row is answered with a
    token. *)
Theorem token_authorization_code_ignores_client_id :
  (forall (utcnow : Z) (uuid4 vo client_id client_id' : str)
          (auth_db : AuthDB) (config : Config)
          (device_code code redirect_uri code_verifier : option str),
     token set_iter SecurityProperty secrets utcnow uuid4 vo
       (py "authorization_code") client_id auth_db config
       device_code code redirect_uri code_verifier
     = token set_iter SecurityProperty secrets utcnow uuid4 vo
         (py "authorization_code") client_id' auth_db config
         device_code code redirect_uri code_verifier)
  /\ info.client_id ready_flow ≠ py "another-client"
  /\ exists tr,
       token first_occurrences known_properties test_secrets
         1700000000 (py "8c1f9f0e") (py "lhcb")
         (py "authorization_code") (py "another-client")
         (store_answering (Ok ready_flow)) lhcb_config
         None (Some (py "code")) (Some (info.redirect_uri ready_flow))
         (Some pkce_verifier)
       = Ok tr.
Proof.
  split; [|split].
  - intros. unfold token.
    rewrite (decide_False (P := _ = _)) by apply grant_types_differ.
    reflexivity.
  - vm_compute. discriminate.
  - eexists. vm_compute. reflexivity.
Qed.

(** X1: the device grant compares the [client_id] with the one recorded. *)
Lemma token_device_code_checks_client_id
    (utcnow : Z) (uuid4 vo client_id : str) (auth_db : AuthDB)
    (config : Config) (device_code : str)
    (code redirect_uri code_verifier : option str) (row : info.t) :
  get_device_flow auth_db device_code DEVICE_FLOW_EXPIRATION_SECONDS = Ok row ->
  info.client_id row ≠ client_id ->
  token set_iter SecurityProperty secrets utcnow uuid4 vo
    (py "urn:ietf:params:oauth:grant-type:device_code") client_id
    auth_db config (Some device_code) code redirect_uri code_verifier
  = Raise (HTTPException HTTP_400_BAD_REQUEST (Msg "Bad client_id" []) []).
Proof.
  intros Hrow Hne. unfold token.
  rewrite (decide_True (P := _ = _)) by reflexivity.
  rewrite Hrow. rewrite decide_True by assumption. reflexivity.
Qed.

(** C6: with the device grant, when the store raises
    [PendingAuthorizationError] the endpoint raises
    [DiracHttpResponse(400, {"error": "authorization_pending"})], and when
    it raises [ExpiredFlowError],
    [DiracHttpResponse(400, {"error": "expired_token"})]; each is answered
    with status 400 and that dictionary as the body, not the [detail]
    envelope. *)
Theorem token_device_flow_pending_and_expired
    (utcnow : Z) (uuid4 vo client_id : str) (auth_db : AuthDB)
    (config : Config) (device_code : str)
    (code redirect_uri code_verifier : option str) :
  let response :=
    token set_iter SecurityProperty secrets utcnow uuid4 vo
      (py "urn:ietf:params:oauth:grant-type:device_code") client_id
      auth_db config (Some device_code) code redirect_uri code_verifier in
  (get_device_flow auth_db device_code DEVICE_FLOW_EXPIRATION_SECONDS
   = Raise PendingAuthorizationError ->
   response = Raise (DiracHttpResponse 400
                       [(py "error", py "authorization_pending")])
   /\ answered response
      = Some (400, PlainJSON [(py "error", py "authorization_pending")]))
  /\
  (get_device_flow auth_db device_code DEVICE_FLOW_EXPIRATION_SECONDS
   = Raise ExpiredFlowError ->
   response = Raise (DiracHttpResponse 400
                       [(py "error", py "expired_token")])
   /\ answered response
      = Some (400, PlainJSON [(py "error", py "expired_token")])).
Proof.
  intros response. subst response. unfold token.
  rewrite (decide_True (P := _ = _)) by reflexivity.
  split; intros ->; split; reflexivity.
Qed.

End AuthProperties.

(** ** Scope validation *)

Lemma startswith_app s p : startswith s p = true <-> exists r, s = p ++ r.
Proof.
  revert s. induction p as [|c p IH]; intros s; simpl.
  - split; [intros _; by exists s | done].
  - destruct s as [|c' s]; simpl.
    + split; [discriminate | intros [r Hr]; discriminate].
    + rewrite andb_true_iff, bool_decide_eq_true, IH. split.
      * intros [-> [r ->]]. by exists r.
      * intros [r [= -> ->]]. split; [done | by exists r].
Qed.

Lemma startswith_drop s p : startswith s p = true -> s = p ++ drop (length p) s.
Proof.
  intros [r ->]%startswith_app. by rewrite drop_app_length.
Qed.

Lemma split_1_group r : str_split_1 58 (py "group:" ++ r) = [py "group"; r].
Proof. reflexivity. Qed.

Lemma split_1_property r :
  str_split_1 58 (py "property:" ++ r) = [py "property"; r].
Proof. reflexivity. Qed.

Lemma group_not_property r : startswith (py "group:" ++ r) (py "property:") = false.
Proof. reflexivity. Qed.

Lemma classify_scope_spec groups properties unrecognised token :
  classify_scope (groups, properties, unrecognised) token
  = Ok (groups ++ from_option (fun g => [g]) [] (group_name token),
        properties ++ from_option (fun p => [p]) [] (property_name token),
        unrecognised ++
          (if startswith token (py "group:") then []
           else if startswith token (py "property:") then [] else [token])).
Proof.
  unfold classify_scope, group_name, property_name.
  destruct (startswith token (py "group:")) eqn:Hg.
  - apply startswith_drop in Hg. rewrite Hg at 1. rewrite split_1_group.
    simpl. by rewrite !app_nil_r.
  - destruct (startswith token (py "property:")) eqn:Hp.
    + apply startswith_drop in Hp. rewrite Hp at 1. rewrite split_1_property.
      simpl. by rewrite !app_nil_r.
    + simpl. by rewrite !app_nil_r.
Qed.

Lemma classify_scopes_spec tokens groups properties unrecognised :
  classify_scopes tokens (groups, properties, unrecognised)
  = Ok (groups ++ requested_groups tokens,
        properties ++ requested_properties tokens,
        unrecognised ++ unrecognised_tokens tokens).
Proof.
  revert groups properties unrecognised.
  induction tokens as [|t tokens IH]; intros; cbn [classify_scopes].
  - unfold requested_groups, requested_properties, unrecognised_tokens.
    simpl. by rewrite !app_nil_r.
  - rewrite classify_scope_spec, bind_Ok, IH.
    unfold requested_groups, requested_properties, unrecognised_tokens.
    cbn [omap list_omap]. rewrite <- !app_assoc. repeat f_equal.
    + destruct (group_name t); reflexivity.
    + destruct (property_name t); reflexivity.
    + rewrite filter_cons.
      by destruct (startswith t (py "group:")),
                  (startswith t (py "property:")).
Qed.

Lemma property_name_Some token p :
  property_name token = Some p <-> token = py "property:" ++ p.
Proof.
  unfold property_name. split.
  - destruct (startswith token (py "group:")); [discriminate|].
    destruct (startswith token (py "property:")) eqn:Hp; [|discriminate].
    intros [= <-]. by apply startswith_drop in Hp.
  - intros ->. reflexivity.
Qed.

Lemma group_name_Some token g :
  group_name token = Some g <-> token = py "group:" ++ g.
Proof.
  unfold group_name. split.
  - destruct (startswith token (py "group:")) eqn:Hg; [|discriminate].
    intros [= <-]. by apply startswith_drop in Hg.
  - intros ->. reflexivity.
Qed.

Lemma NoDup_requested_properties tokens :
  NoDup tokens -> NoDup (requested_properties tokens).
Proof.
  unfold requested_properties.
  induction 1 as [|t tokens Hnotin Hnodup IH]; cbn [omap list_omap].
  - constructor.
  - destruct (property_name t) as [p|] eqn:Hp; [|assumption].
    apply NoDup_cons. split; [|assumption].
    intros (t' & Hin & Hp')%list_elem_of_omap.
    apply property_name_Some in Hp, Hp'. congruence.
Qed.

Section ScopeProperties.

Variable set_iter : list str -> list str.
Variable SecurityProperty : list str.

(** What the validator returns, in terms of the tokens in the order in
    which the set yields them. *)
Lemma parse_and_validate_scope_inv scope vo config si :
  parse_and_validate_scope set_iter SecurityProperty scope vo config = Ok si ->
  let tokens := set_iter (str_split 32 scope) in
  unrecognised_tokens tokens = []
  /\ properties si = requested_properties tokens
  /\ (forall p, p ∈ properties si -> p ∈ SecurityProperty)
  /\ ((requested_groups tokens = []
       /\ exists defaults,
            DefaultGroup (Registry config) !! vo = Some defaults
            /\ defaults !! 0%nat = Some (group si))
      \/ (requested_groups tokens = [group si]
          /\ exists vo_groups,
               Groups (Registry config) !! vo = Some vo_groups
               /\ is_Some (vo_groups !! group si))).
Proof.
  intros H. cbv zeta. unfold parse_and_validate_scope in H.
  set (tokens := set_iter (str_split 32 scope)) in *.
  rewrite classify_scopes_spec, bind_Ok in H. cbn [app] in H.
  destruct (unrecognised_tokens tokens); [|discriminate].
  inv_bind H. rename a into g.
  destruct (forallb _ (requested_properties tokens)) eqn:Hall; [|discriminate].
  injection H as <-. cbn [properties group].
  split; [reflexivity|]. split; [reflexivity|]. split.
  - intros p Hp. rewrite forallb_forall in Hall.
    apply list_elem_of_In, Hall, bool_decide_eq_true in Hp. exact Hp.
  - destruct (requested_groups tokens) as [|g1 [|g2 gs]].
    + left. split; [reflexivity|].
      inv_bind Ha. apply getitem_Ok in Ha0. exists a. split; [assumption|].
      unfold index in Ha. destruct (a !! 0%nat); congruence.
    + right. inv_bind Ha. apply getitem_Ok in Ha0.
      destruct (a !! g1) eqn:Hg1; [|discriminate].
      injection Ha as <-. split; [reflexivity|]. exists a. eauto.
    + discriminate.
Qed.

Hypothesis set_iter_NoDup : forall l, NoDup (set_iter l).
Hypothesis set_iter_elem : forall l x, x ∈ set_iter l <-> x ∈ l.

(** C4, as the code has it: the [properties] returned are the names of the
    [property:] tokens in the order in which the set of tokens is iterated;
    every requested name occurs in it, and occurs once. *)
Theorem parse_and_validate_scope_properties scope vo config si :
  parse_and_validate_scope set_iter SecurityProperty scope vo config = Ok si ->
  properties si = requested_properties (set_iter (str_split 32 scope))
  /\ NoDup (properties si)
  /\ (forall p, p ∈ properties si <->
                p ∈ requested_properties (str_split 32 scope)).
Proof.
  intros (_ & Hprops & _)%parse_and_validate_scope_inv.
  rewrite Hprops. split; [reflexivity|]. split.
  - apply NoDup_requested_properties, set_iter_NoDup.
  - intros p. unfold requested_properties. rewrite !list_elem_of_omap.
    by setoid_rewrite set_iter_elem.
Qed.

(** An iteration over the set of one item yields that item. *)
Lemma set_iter_singleton (x : str) : set_iter [x] = [x].
Proof.
  pose proof (set_iter_NoDup [x]) as Hnd.
  pose proof (set_iter_elem [x]) as Hel.
  destruct (set_iter [x]) as [|a [|b l]].
  - specialize (Hel x). rewrite list_elem_of_singleton in Hel.
    destruct Hel as [_ Hel]. specialize (Hel eq_refl). inversion Hel.
  - f_equal. apply list_elem_of_singleton, Hel. left.
  - assert (a = x) as -> by (apply list_elem_of_singleton, Hel; left).
    assert (b = x) as -> by (apply list_elem_of_singleton, Hel; right; left).
    apply NoDup_cons in Hnd as [Hnd _]. destruct Hnd. left.
Qed.

(** C5: with no [group:] token the validator returns the first default
    group of the VO as it stands in the registry; against a registry that
    lists a default group which is not among the groups of the VO it returns
    that group. *)
Theorem parse_and_validate_scope_default_group_unchecked :
  parse_and_validate_scope set_iter known_properties
    (py "property:NormalUser") (py "lhcb") stale_default_config
  = Ok {| group := py "lhcb_admin"; properties := [py "NormalUser"] |}
  /\ exists vo_groups,
       Groups (Registry stale_default_config) !! py "lhcb" = Some vo_groups
       /\ vo_groups !! py "lhcb_admin" = None.
Proof.
  split.
  - unfold parse_and_validate_scope.
    change (str_split 32 (py "property:NormalUser"))
      with [py "property:NormalUser"].
    rewrite set_iter_singleton. reflexivity.
  - eexists. split; reflexivity.
Qed.

End ScopeProperties.

(** X5: when the validator returns, no token is unrecognised, the
    properties are members of [SecurityProperty], and the group is the name
    of the single [group:] token, a group of the VO, or else the first
    default group of the VO. *)
Theorem parse_and_validate_scope_Ok
    (set_iter : list str -> list str) (SecurityProperty : list str)
    (scope vo : str) (config : Config) (si : ScopeInfoDict) :
  parse_and_validate_scope set_iter SecurityProperty scope vo config = Ok si ->
  unrecognised_tokens (set_iter (str_split 32 scope)) = []
  /\ properties si = requested_properties (set_iter (str_split 32 scope))
  /\ (forall p, p ∈ properties si -> p ∈ SecurityProperty)
  /\ ((requested_groups (set_iter (str_split 32 scope)) = []
       /\ exists defaults,
            DefaultGroup (Registry config) !! vo = Some defaults
            /\ defaults !! 0%nat = Some (group si))
      \/ (requested_groups (set_iter (str_split 32 scope)) = [group si]
          /\ exists vo_groups,
               Groups (Registry config) !! vo = Some vo_groups
               /\ is_Some (vo_groups !! group si))).
Proof. apply parse_and_validate_scope_inv. Qed.

(** A VO without default group: the lookup raises [KeyError], which is no
    [ValueError]. *)
Example parse_and_validate_scope_no_default :
  parse_and_validate_scope first_occurrences known_properties
    (py "property:NormalUser") (py "atlas") lhcb_config
  = Raise (KeyError (py "atlas")).
Proof. vm_compute. reflexivity. Qed.

(** [first_occurrences] is an admissible iteration order. *)
Lemma first_occurrences_NoDup l : NoDup (first_occurrences l).
Proof. apply NoDup_remove_dups. Qed.

Lemma first_occurrences_elem l x : x ∈ first_occurrences l <-> x ∈ l.
Proof. apply elem_of_remove_dups. Qed.

(** C4, as stated, fails: a name requested twice is returned once. *)
Lemma parse_and_validate_scope_drops_repetitions :
  ~ (forall (set_iter : list str -> list str) (SecurityProperty : list str)
            (scope vo : str) (config : Config) (si : ScopeInfoDict),
       (forall l, NoDup (set_iter l)) ->
       (forall l x, x ∈ set_iter l <-> x ∈ l) ->
       parse_and_validate_scope set_iter SecurityProperty scope vo config
       = Ok si ->
       properties si = requested_properties (str_split 32 scope)).
Proof.
  intros H.
  specialize (H first_occurrences known_properties repeated_scope (py "lhcb")
                lhcb_config repeated_scope_info
                first_occurrences_NoDup first_occurrences_elem).
  assert (parse_and_validate_scope first_occurrences known_properties
            repeated_scope (py "lhcb") lhcb_config = Ok repeated_scope_info)
    as Hrun by (vm_compute; reflexivity).
  specialize (H Hrun). vm_compute in H. discriminate.
Qed.

Lemma parse_and_validate_scope_properties_witness :
  properties repeated_scope_info
  = requested_properties (first_occurrences (str_split 32 repeated_scope))
  /\ NoDup (properties repeated_scope_info)
  /\ (forall p, p ∈ properties repeated_scope_info <->
                p ∈ requested_properties (str_split 32 repeated_scope)).
Proof.
  apply (parse_and_validate_scope_properties first_occurrences
           known_properties first_occurrences_NoDup first_occurrences_elem
           repeated_scope (py "lhcb") lhcb_config repeated_scope_info).
  vm_compute. reflexivity.
Defined.

Lemma parse_and_validate_scope_default_group_witness :
  parse_and_validate_scope first_occurrences known_properties
    (py "property:NormalUser") (py "lhcb") stale_default_config
  = Ok {| group := py "lhcb_admin"; properties := [py "NormalUser"] |}
  /\ exists vo_groups,
       Groups (Registry stale_default_config) !! py "lhcb" = Some vo_groups
       /\ vo_groups !! py "lhcb_admin" = None.
Proof.
  exact (parse_and_validate_scope_default_group_unchecked first_occurrences
           first_occurrences_NoDup first_occurrences_elem).
Defined.

(** ** Witnesses for the token properties *)

Lemma exchange_token_unknown_subject_witness :
  (exists key,
     exchange_token test_secrets 1700000000 (py "8c1f9f0e") (py "lhcb_user")
       stranger_id_token lhcb_config
     = Raise (KeyError key))
  /\ answered (exchange_token test_secrets 1700000000 (py "8c1f9f0e")
                 (py "lhcb_user") stranger_id_token lhcb_config)
     = Some (500, InternalServerError).
Proof.
  apply exchange_token_unknown_subject; vm_compute; discriminate.
Defined.

Lemma exchange_token_signs_payload_without_exp_witness :
  exists tr,
    exchange_token test_secrets 1700000000 (py "8c1f9f0e") (py "lhcb_user")
      chaen_id_token lhcb_config = Ok tr
    /\ dict_get (jwt_payload (access_token tr)) (py "sub")
       = Some (ClaimStr (py "lhcb:chaen"))
    /\ dict_get (jwt_payload (access_token tr)) (py "exp") = None
    /\ expires_in tr = 180000.
Proof.
  destruct (exchange_token test_secrets 1700000000 (py "8c1f9f0e")
              (py "lhcb_user") chaen_id_token lhcb_config) as [tr|e] eqn:Hrun;
    [|vm_compute in Hrun; discriminate].
  exists tr. split; [reflexivity|].
  pose proof (exchange_token_signs_payload_without_exp test_secrets
                _ _ _ _ _ _ Hrun) as [_ [Hexp Hin]].
  split; [|split; assumption].
  vm_compute in Hrun. injection Hrun as <-. reflexivity.
Defined.

Lemma token_device_flow_pending_witness :
  token first_occurrences known_properties test_secrets 1700000000
    (py "8c1f9f0e") (py "lhcb")
    (py "urn:ietf:params:oauth:grant-type:device_code") DIRAC_CLIENT_ID
    (store_answering (Raise PendingAuthorizationError)) lhcb_config
    (Some (py "devicecode")) None None None
  = Raise (DiracHttpResponse 400 [(py "error", py "authorization_pending")])
  /\ answered
       (token first_occurrences known_properties test_secrets 1700000000
          (py "8c1f9f0e") (py "lhcb")
          (py "urn:ietf:params:oauth:grant-type:device_code") DIRAC_CLIENT_ID
          (store_answering (Raise PendingAuthorizationError)) lhcb_config
          (Some (py "devicecode")) None None None)
     = Some (400, PlainJSON [(py "error", py "authorization_pending")]).
Proof.
  apply (token_device_flow_pending_and_expired first_occurrences
           known_properties test_secrets 1700000000 (py "8c1f9f0e") (py "lhcb")
           DIRAC_CLIENT_ID (store_answering (Raise PendingAuthorizationError))
           lhcb_config (py "devicecode") None None None).
  reflexivity.
Defined.

(** ** Unknown clients and redirections *)

(** C8: a [client_id] that [KNOWN_CLIENTS] does not list fails the
    assertion at the head of [initiate_device_flow] and of
    [authorization_flow]; the [AssertionError] is answered with status 500,
    not 400. *)
Theorem unknown_client_fails_assertion
    (set_iter : list str -> list str) (SecurityProperty : list str)
    (code_verifier authorization_endpoint : str)
    (vo client_id scope audience : str) (request : Request)
    (response_type code_challenge code_challenge_method redirect_uri
       state : str)
    (auth_db : AuthDB) (config : Config) :
  KNOWN_CLIENTS !! client_id = None ->
  initiate_device_flow set_iter SecurityProperty vo client_id scope audience
    request auth_db config
  = Raise (AssertionError [client_id])
  /\ authorization_flow set_iter SecurityProperty
       code_verifier authorization_endpoint vo request response_type
       code_challenge code_challenge_method client_id redirect_uri scope state
       auth_db config
     = Raise (AssertionError [client_id])
  /\ error_response (AssertionError [client_id]) = (500, InternalServerError).
Proof.
  intros Hunknown. unfold initiate_device_flow, authorization_flow.
  rewrite Hunknown. repeat split.
Qed.

Lemma unknown_client_fails_assertion_witness :
  initiate_device_flow first_occurrences known_properties (py "lhcb")
    (py "another-client") (py "group:lhcb_user property:NormalUser")
    (py "dirac") lhcb_request
    (store_answering (Ok ready_flow)) lhcb_config
  = Raise (AssertionError [py "another-client"])
  /\ authorization_flow first_occurrences known_properties
       pkce_verifier (py "https://lhcb-auth.web.cern.ch/authorize")
       (py "lhcb") lhcb_request
       (py "code") pkce_challenge (py "S256") (py "another-client")
       (py "http://localhost:8000/docs/oauth2-redirect")
       (py "group:lhcb_user property:NormalUser") (py "external-state")
       (store_answering (Ok ready_flow)) lhcb_config
     = Raise (AssertionError [py "another-client"])
  /\ error_response (AssertionError [py "another-client"])
     = (500, InternalServerError).
Proof.
  apply unknown_client_fails_assertion. vm_compute. reflexivity.
Defined.

(** X3: a [redirect_uri] outside the client's [allowed_redirects] fails
    the second assertion of [authorization_flow] in the same way. *)
Lemma disallowed_redirect_fails_assertion
    (set_iter : list str -> list str) (SecurityProperty : list str)
    (code_verifier authorization_endpoint : str)
    (vo : str) (request : Request)
    (response_type code_challenge code_challenge_method client_id
       redirect_uri scope state : str)
    (auth_db : AuthDB) (config : Config)
    (client : gmap str (list str)) (allowed_redirects : list str) :
  KNOWN_CLIENTS !! client_id = Some client ->
  client !! py "allowed_redirects" = Some allowed_redirects ->
  redirect_uri ∉ allowed_redirects ->
  authorization_flow set_iter SecurityProperty
    code_verifier authorization_endpoint vo request response_type
    code_challenge code_challenge_method client_id redirect_uri scope state
    auth_db config
  = Raise (AssertionError [])
  /\ error_response (AssertionError []) = (500, InternalServerError).
Proof.
  intros Hclient Hallowed Hnot. unfold authorization_flow.
  rewrite Hclient. apply getitem_Ok in Hallowed. rewrite Hallowed, bind_Ok.
  rewrite bool_decide_eq_false_2 by assumption. split; reflexivity.
Qed.

(** The scenario of the disallowed redirection. *)
Lemma disallowed_redirect_scenario :
  authorization_flow first_occurrences known_properties
    pkce_verifier (py "https://lhcb-auth.web.cern.ch/authorize") (py "lhcb")
    lhcb_request
    (py "code") pkce_challenge (py "S256") DIRAC_CLIENT_ID
    (py "http://evil.example/cb")
    (py "group:lhcb_user property:NormalUser") (py "external-state")
    (store_answering (Ok ready_flow)) lhcb_config
  = Raise (AssertionError []).
Proof. vm_compute. reflexivity. Qed.

(** * PKCE *)

(** ** Exhaustive checks over octets *)

Lemma forallb_seqZ (P : Z -> bool) (m n : Z) :
  forallb P (seqZ m n) = true -> forall x, m <= x < m + n -> P x = true.
Proof.
  rewrite forallb_forall. intros H x Hx.
  apply H, list_elem_of_In, elem_of_seqZ. exact Hx.
Qed.

Lemma forall_octets (P : Z -> bool) :
  forallb P (seqZ 0 256) = true -> forall a, is_byte a -> P a = true.
Proof. intros H a Ha. apply (forallb_seqZ P 0 256 H). unfold is_byte in Ha. lia. Qed.

Lemma forall_octets2 (P : Z -> Z -> bool) :
  forallb (fun a => forallb (P a) (seqZ 0 256)) (seqZ 0 256) = true ->
  forall a b, is_byte a -> is_byte b -> P a b = true.
Proof.
  intros H a b Ha Hb.
  apply (forall_octets (fun a => forallb (P a) (seqZ 0 256)) H) in Ha.
  exact (forall_octets (P a) Ha b Hb).
Qed.

Lemma sextet_b_spec v : sextet_b v = true <-> is_sextet v.
Proof. unfold sextet_b, is_sextet. lia. Qed.

Lemma sextet_1 a : is_byte a -> is_sextet (Z.shiftr a 2).
Proof. intros H. apply sextet_b_spec. revert a H. apply forall_octets. vm_compute. reflexivity. Qed.

Lemma sextet_2 a b : is_byte a -> is_byte b ->
  is_sextet (Z.lor (Z.shiftl (Z.land a 3) 4) (Z.shiftr b 4)).
Proof.
  intros Ha Hb. apply sextet_b_spec. revert a b Ha Hb.
  apply (forall_octets2 (fun a b => sextet_b (Z.lor (Z.shiftl (Z.land a 3) 4) (Z.shiftr b 4)))).
  vm_compute. reflexivity.
Qed.

Lemma sextet_3 b c : is_byte b -> is_byte c ->
  is_sextet (Z.lor (Z.shiftl (Z.land b 15) 2) (Z.shiftr c 6)).
Proof.
  intros Hb Hc. apply sextet_b_spec. revert b c Hb Hc.
  apply (forall_octets2 (fun b c => sextet_b (Z.lor (Z.shiftl (Z.land b 15) 2) (Z.shiftr c 6)))).
  vm_compute. reflexivity.
Qed.

Lemma sextet_4 c : is_byte c -> is_sextet (Z.land c 63).
Proof. intros H. apply sextet_b_spec. revert c H. apply forall_octets. vm_compute. reflexivity. Qed.

Lemma sextet_tail_1 a : is_byte a -> is_sextet (Z.shiftl (Z.land a 3) 4).
Proof. intros H. apply sextet_b_spec. revert a H. apply forall_octets. vm_compute. reflexivity. Qed.

Lemma sextet_tail_2 b : is_byte b -> is_sextet (Z.shiftl (Z.land b 15) 2).
Proof. intros H. apply sextet_b_spec. revert b H. apply forall_octets. vm_compute. reflexivity. Qed.

(** ** The base64 alphabet *)

Lemma a2b_b2a v : is_sextet v -> base64.a2b (base64.b2a v) = Some v.
Proof.
  intros Hv.
  set (P := fun v => match base64.a2b (base64.b2a v) with
                     | Some w => w =? v
                     | None => false
                     end).
  assert (P v = true) as H.
  { apply (forallb_seqZ P 0 64); [vm_compute; reflexivity|].
    unfold is_sextet in Hv. lia. }
  unfold P in H. destruct (base64.a2b (base64.b2a v)); [|discriminate].
  f_equal. lia.
Qed.

Lemma b2a_urlsafe v :
  is_sextet v -> urlsafe_char (base64.urlsafe_encode_translation (base64.b2a v)).
Proof.
  intros Hv.
  set (P := fun v => let c := base64.urlsafe_encode_translation (base64.b2a v) in
              (0 <=? c) && (c <? 128) && negb (c =? base64.PAD)
              && match base64.a2b (base64.urlsafe_decode_translation c) with
                 | Some _ => true
                 | None => false
                 end).
  assert (P v = true) as H.
  { apply (forallb_seqZ P 0 64); [vm_compute; reflexivity|]. unfold is_sextet in Hv. lia. }
  unfold P in H. cbv zeta in H.
  rewrite !andb_true_iff, negb_true_iff in H.
  destruct H as [[[H1 H2] H3] H4]. unfold urlsafe_char.
  repeat split; try lia.
  destruct (base64.a2b _); [discriminate | discriminate].
Qed.

Lemma list_ind3 {A} (P : list A -> Prop) :
  P [] -> (forall a, P [a]) -> (forall a b, P [a; b]) ->
  (forall a b c l, P l -> P (a :: b :: c :: l)) ->
  forall l, P l.
Proof.
  intros H0 H1 H2 H3 l.
  cut (P l /\ (forall a, P (a :: l)) /\ (forall a b, P (a :: b :: l))); [tauto|].
  induction l as [|x l (IH0 & IH1 & IH2)]; auto.
Qed.

(** The encoding is characters of the alphabet followed by pads. *)
Lemma urlsafe_b64encode_shape s :
  Forall is_byte s ->
  exists body pad,
    base64.urlsafe_b64encode s = body ++ pad
    /\ Forall urlsafe_char body
    /\ Forall (fun c => c = base64.PAD) pad.
Proof.
  unfold base64.urlsafe_b64encode.
  induction s as [|a|a b|a b c s IH] using list_ind3; intros Hs.
  - exists [], []. auto.
  - apply Forall_cons in Hs as [Ha _].
    eexists [_; _], [_; _]. split; [reflexivity|]. split.
    + repeat constructor; apply b2a_urlsafe; auto using sextet_1, sextet_tail_1.
    + repeat constructor.
  - apply Forall_cons in Hs as [Ha Hs]. apply Forall_cons in Hs as [Hb _].
    eexists [_; _; _], [_]. split; [reflexivity|]. split.
    + repeat constructor; apply b2a_urlsafe;
        auto using sextet_1, sextet_2, sextet_tail_2.
    + repeat constructor.
  - apply Forall_cons in Hs as [Ha Hs]. apply Forall_cons in Hs as [Hb Hs].
    apply Forall_cons in Hs as [Hc Hs].
    destruct (IH Hs) as (body & pad & Heq & Hbody & Hpad).
    eexists (_ :: _ :: _ :: _ :: body), pad. split.
    + cbn [base64.b64encode map]. rewrite Heq. reflexivity.
    + split; [|assumption].
      repeat (apply Forall_cons; split); try assumption; apply b2a_urlsafe;
        auto using sextet_1, sextet_2, sextet_3, sextet_4.
Qed.

(** Text that is ASCII decodes to itself. *)
Lemma bytes_decode_ascii b :
  Forall (fun c => 0 <= c < 128) b -> bytes_decode b = Ok b.
Proof.
  induction 1 as [|c b Hc _ IH]; [reflexivity|].
  cbn [bytes_decode].
  replace ((0 <=? c) && (c <? 128)) with true by lia.
  rewrite IH. reflexivity.
Qed.

Lemma str_encode_ascii_text s :
  Forall (fun c => 0 <= c < 128) s -> str_encode s = Ok s.
Proof.
  induction 1 as [|c s Hc _ IH]; [reflexivity|].
  cbn [str_encode]. unfold utf8_encode_char.
  replace (c <? 0) with false by lia. replace (c <? 128) with true by lia.
  rewrite bind_Ok, IH. reflexivity.
Qed.

(** ** Stripping and removing pads *)

Lemma str_lstrip_pad ch pad s :
  Forall (fun c => c = ch) pad -> str_lstrip ch (pad ++ s) = str_lstrip ch s.
Proof.
  induction 1 as [|c pad -> _ IH]; [reflexivity|].
  cbn [app str_lstrip]. by rewrite decide_True.
Qed.

Lemma str_lstrip_id ch s : Forall (fun c => c <> ch) s -> str_lstrip ch s = s.
Proof.
  destruct 1 as [|c s Hc _]; [reflexivity|].
  cbn [str_lstrip]. by rewrite decide_False.
Qed.

Lemma str_strip_body_pad ch body pad :
  Forall (fun c => c <> ch) body -> Forall (fun c => c = ch) pad ->
  str_strip ch (body ++ pad) = body.
Proof.
  intros Hbody Hpad. unfold str_strip, str_rstrip.
  assert (str_lstrip ch (body ++ pad) = body ++ pad \/ body = []) as [->| ->].
  { destruct Hbody as [|c body Hc Hbody]; [by right|left].
    cbn [app str_lstrip]. by rewrite decide_False. }
  - rewrite rev_app_distr, str_lstrip_pad by by apply Forall_rev.
    rewrite str_lstrip_id by by apply Forall_rev.
    apply rev_involutive.
  - cbn [app]. rewrite <- (app_nil_r pad), str_lstrip_pad by assumption.
    reflexivity.
Qed.

Lemma str_remove_body_pad ch body pad :
  Forall (fun c => c <> ch) body -> Forall (fun c => c = ch) pad ->
  str_remove ch (body ++ pad) = body.
Proof.
  intros Hbody Hpad. unfold str_remove. rewrite filter_app.
  assert (filter (fun c => c <> ch) body = body) as ->.
  { induction Hbody as [|c body Hc _ IH]; [reflexivity|].
    rewrite filter_cons_True by assumption. by rewrite IH. }
  assert (filter (fun c => c <> ch) pad = []) as ->.
  { induction Hpad as [|c pad -> _ IH]; [reflexivity|].
    rewrite filter_cons_False by (intros H; by apply H). exact IH. }
  apply app_nil_r.
Qed.

Lemma sha256_octets data : Forall is_byte (hashlib.sha256 data).
Proof.
  unfold hashlib.sha256. apply Forall_flat_map, Forall_forall.
  intros w _. generalize 4%nat. intros n.
  induction n as [|n IH]; cbn [hashlib.be_bytes]; constructor; [|exact IH].
  apply Z.mod_pos_bound. reflexivity.
Qed.

Lemma urlsafe_char_not_pad body :
  Forall urlsafe_char body -> Forall (fun c => c <> 61) body.
Proof. intros H. eapply Forall_impl; [exact H|]. by intros c (_ & ? & _). Qed.

Lemma urlsafe_b64encode_ascii s :
  Forall is_byte s -> Forall (fun c => 0 <= c < 128) (base64.urlsafe_b64encode s).
Proof.
  intros (body & pad & -> & Hbody & Hpad)%urlsafe_b64encode_shape.
  apply Forall_app. split.
  - eapply Forall_impl; [exact Hbody|]. by intros c (? & _).
  - eapply Forall_impl; [exact Hpad|]. intros c ->. unfold base64.PAD. lia.
Qed.

Lemma pkce_challenges_agree (code_verifier : str) :
    code_challenge_token code_verifier = code_challenge_iam code_verifier.
Proof.
  unfold code_challenge_token, code_challenge_iam.
  destruct (str_encode code_verifier) as [b|e]; [|reflexivity].
  rewrite !bind_Ok.
  pose proof (sha256_octets b) as Hoct.
  rewrite bytes_decode_ascii by by apply urlsafe_b64encode_ascii.
  rewrite !bind_Ok.
  destruct (urlsafe_b64encode_shape _ Hoct) as (body & pad & -> & Hbody & Hpad).
  apply urlsafe_char_not_pad in Hbody.
  by rewrite str_strip_body_pad, str_remove_body_pad.
Qed.

Section PkceProperties.

Variable set_iter : list str -> list str.
Variable SecurityProperty : list str.
Variable secrets : Secrets.

(** C7: the challenge that [token] computes from a verifier is the one
    that [initiate_authorization_flow_with_iam] derives from it; a flow
    whose stored challenge is the one derived from the verifier presented
    passes the PKCE check and goes on to the issuance of the token; a
    computed challenge that differs from the stored one ends the
    authorization-code grant with HTTP 400. *)
Theorem pkce_verification :
  (forall code_verifier : str,
     code_challenge_token code_verifier = code_challenge_iam code_verifier)
  /\ (forall (utcnow : Z) (uuid4 vo client_id : str) (auth_db : AuthDB)
             (config : Config) (device_code : option str)
             (code code_verifier challenge : str) (row : info.t),
        get_authorization_flow auth_db code
          AUTHORIZATION_FLOW_EXPIRATION_SECONDS = Ok row ->
        code_challenge_iam code_verifier = Ok challenge ->
        info.code_challenge row = challenge ->
        token set_iter SecurityProperty secrets utcnow uuid4 vo
          (py "authorization_code") client_id auth_db config device_code
          (Some code) (Some (info.redirect_uri row)) (Some code_verifier)
        = if decide (info.status row ≠ READY) then
            Raise (NotImplementedError (Msg "Unexpected flow status {}" []))
          else
            parsed_scope ← parse_and_validate_scope set_iter SecurityProperty
                             (info.scope row) vo config;
            exchange_token secrets utcnow uuid4 (group parsed_scope)
              (info.id_token row) config)
  /\ (forall (utcnow : Z) (uuid4 vo client_id : str) (auth_db : AuthDB)
             (config : Config) (device_code redirect_uri : option str)
             (code code_verifier challenge : str) (row : info.t),
        get_authorization_flow auth_db code
          AUTHORIZATION_FLOW_EXPIRATION_SECONDS = Ok row ->
        code_challenge_token code_verifier = Ok challenge ->
        challenge ≠ info.code_challenge row ->
        exists detail,
          token set_iter SecurityProperty secrets utcnow uuid4 vo
            (py "authorization_code") client_id auth_db config device_code
            (Some code) redirect_uri (Some code_verifier)
          = Raise (HTTPException 400 detail [])
          /\ error_response (HTTPException 400 detail [])
             = (400, Detail detail)).
Proof.
  split; [exact pkce_challenges_agree|]. split.
  - intros * Hrow Hchallenge Hstored. unfold token.
    rewrite (decide_False (P := _ = _)) by apply grant_types_differ.
    rewrite (decide_True (P := _ = _)) by reflexivity.
    rewrite Hrow, bind_Ok.
    rewrite (decide_False (P := _ ≠ _)) by (intros H; by apply H).
    rewrite pkce_challenges_agree, Hchallenge.
    rewrite (decide_False (P := _ ≠ _)) by (intros H; by apply H).
    rewrite bind_Ok. reflexivity.
  - intros * Hrow Hchallenge Hdiffers. unfold token.
    rewrite (decide_False (P := _ = _)) by apply grant_types_differ.
    rewrite (decide_True (P := _ = _)) by reflexivity.
    rewrite Hrow, bind_Ok.
    destruct (decide (redirect_uri ≠ Some (info.redirect_uri row))).
    + eexists. split; reflexivity.
    + rewrite Hchallenge. rewrite (decide_True (P := _ ≠ _)) by assumption.
      eexists. split; reflexivity.
Qed.

End PkceProperties.

(** The authorization-code scenario: the verifier of the flow is answered
    with a token, another verifier with HTTP 400. *)
Lemma pkce_scenario_accepts :
  exists tr,
    token first_occurrences known_properties test_secrets 1700000000
      (py "8c1f9f0e") (py "lhcb") (py "authorization_code") DIRAC_CLIENT_ID
      (store_answering (Ok ready_flow)) lhcb_config None (Some (py "code"))
      (Some (info.redirect_uri ready_flow)) (Some pkce_verifier)
    = Ok tr.
Proof. eexists. vm_compute. reflexivity. Qed.

Lemma pkce_verification_witness :
  exists detail,
    token first_occurrences known_properties test_secrets 1700000000
      (py "8c1f9f0e") (py "lhcb") (py "authorization_code") DIRAC_CLIENT_ID
      (store_answering (Ok ready_flow)) lhcb_config None (Some (py "code"))
      (Some (info.redirect_uri ready_flow)) (Some (py "wrong"))
    = Raise (HTTPException 400 detail [])
    /\ error_response (HTTPException 400 detail []) = (400, Detail detail).
Proof.
  apply (proj2 (proj2 (pkce_verification first_occurrences known_properties
                         test_secrets))
           1700000000 (py "8c1f9f0e") (py "lhcb") DIRAC_CLIENT_ID
           (store_answering (Ok ready_flow)) lhcb_config None
           (Some (info.redirect_uri ready_flow)) (py "code") (py "wrong")
           (py "iBCtWB5Z8rw5KLJhcHpxMI9-E56wSCA2bcTVwY2YAiU") ready_flow).
  - reflexivity.
  - vm_compute. reflexivity.
  - vm_compute. discriminate.
Defined.

(** * The configuration endpoint *)



Section ConfigurationProperties.

Variable strptime : str -> str -> option datetime.
Variable astimezone_utc : datetime -> Z.
Variable strftime : Z -> str -> str.


End ConfigurationProperties.

(** The requests of [test_get_config], in the order of the test. *)
Example test_get_config :
  get_config None None = 200
  /\ get_config (Some (_hexsha lhcb_config))
       (Some (py "Sat, 01 Apr 2023 00:00:00 GMT")) = 304
  /\ get_config (Some (py "wrongEtag")) None = 200
  /\ get_config (Some (py "pastEtag"))
       (Some (py "Mon, 1 Apr 2000 00:42:42 GMT")) = 200
  /\ get_config (Some (py "futureEtag"))
       (Some (py "Mon, 1 Apr 9999 00:42:42 GMT")) = 304
  /\ get_config (Some (py "futureEtag")) (Some (py "wrong format")) = 200
  /\ get_config (Some (_hexsha lhcb_config))
       (Some (py "Mon, 1 Apr 2000 00:42:42 GMT")) = 304
  /\ get_config (Some (_hexsha lhcb_config))
       (Some (py "Mon, 1 Apr 9999 00:42:42 GMT")) = 304
  /\ get_config (Some (_hexsha lhcb_config)) (Some (py "wrong format")) = 304.
Proof. repeat split; vm_compute; reflexivity. Qed.

Example utc_seconds_of_test_dates :
  utc_seconds <$> test_strptime (py "Mon, 1 Apr 2000 00:42:42 GMT")
                    LAST_MODIFIED_FORMAT = Some 954549762
  /\ utc_seconds <$> test_strptime (py "Mon, 1 Apr 9999 00:42:42 GMT")
                       LAST_MODIFIED_FORMAT = Some 253378543362
  /\ utc_seconds <$> test_strptime (py "Thu, 29 Feb 2024 23:59:59 GMT")
                       LAST_MODIFIED_FORMAT = Some 1709251199
  /\ test_strptime (py "wrong format") LAST_MODIFIED_FORMAT = None.
Proof. repeat split; vm_compute; reflexivity. Qed.

(** * The state parameter *)

(** ** The JSON round trip *)

Lemma hex_value_digit d : 0 <= d < 16 -> json.hex_value (json.hex_digit d) = Some d.
Proof.
  intros Hd.
  set (P := fun d => match json.hex_value (json.hex_digit d) with
                     | Some w => w =? d | None => false end).
  assert (P d = true) as H by (apply (forallb_seqZ P 0 16); [vm_compute; reflexivity | lia]).
  unfold P in H. destruct (json.hex_value _); [|discriminate]. f_equal. lia.
Qed.

Lemma hex_digit_printable d : 0 <= d < 16 -> printable (json.hex_digit d).
Proof. unfold json.hex_digit, printable. intros. destruct (d <? 10) eqn:?; lia. Qed.

Lemma decode_u_escape n rest :
  0 <= n < 65536 ->
  json.decode_uXXXX (drop 2 (json.u_escape n) ++ rest) = Ok (n, rest).
Proof.
  intros Hn. unfold json.u_escape. cbn [drop app json.decode_uXXXX].
  rewrite !hex_value_digit by (apply Z.mod_pos_bound; lia).
  do 2 f_equal. Z.to_euclidean_division_equations. lia.
Qed.

Lemma lor_high y : 0 <= y < 1024 -> Z.lor 55296 y = 55296 + y.
Proof.
  intros Hy. apply Z.eqb_eq.
  apply (forallb_seqZ (fun y => Z.lor 55296 y =? 55296 + y) 0 1024);
    [vm_compute; reflexivity | lia].
Qed.

Lemma lor_low y : 0 <= y < 1024 -> Z.lor 56320 y = 56320 + y.
Proof.
  intros Hy. apply Z.eqb_eq.
  apply (forallb_seqZ (fun y => Z.lor 56320 y =? 56320 + y) 0 1024);
    [vm_compute; reflexivity | lia].
Qed.

Lemma lor_halves a b :
  0 <= a < 1024 -> 0 <= b < 1024 -> Z.lor (Z.shiftl a 10) b = a * 1024 + b.
Proof.
  intros Ha Hb. rewrite Z.shiftl_mul_pow2 by lia.
  change (2 ^ 10) with 1024.
  rewrite <- Z.add_nocarry_lor; [reflexivity|].
  apply Z.bits_inj'. intros i Hi. rewrite Z.land_spec, Z.bits_0.
  destruct (Z.ltb_spec i 10).
  - replace (a * 1024) with (a * 2 ^ 10) by reflexivity.
    rewrite Z.mul_pow2_bits_low by lia. reflexivity.
  - rewrite (Z.bits_above_log2 b i); [apply andb_false_r | lia |].
    destruct (Z.eq_dec b 0) as [->|]; [simpl; lia|].
    apply Z.log2_lt_pow2; [lia|].
    apply Z.lt_le_trans with (2 ^ 10); [simpl; lia|].
    apply Z.pow_le_mono_r; lia.
Qed.

Lemma surrogate_halves c :
  65536 <= c < 1114112 ->
  let n := c - 65536 in
  let hi := Z.lor 55296 (Z.land (Z.shiftr n 10) 1023) in
  let lo := Z.lor 56320 (Z.land n 1023) in
  55296 <= hi <= 56319 /\ 56320 <= lo <= 57343
  /\ 65536 + Z.lor (Z.shiftl (hi - 55296) 10) (lo - 56320) = c.
Proof.
  intros Hc n hi lo.
  assert (Z.land (Z.shiftr n 10) 1023 = n / 1024) as Ha.
  { change 1023 with (Z.ones 10). rewrite Z.land_ones, Z.shiftr_div_pow2 by lia.
    change (2 ^ 10) with 1024. apply Z.mod_small. subst n.
    Z.to_euclidean_division_equations. lia. }
  assert (Z.land n 1023 = n mod 1024) as Hb.
  { change 1023 with (Z.ones 10). by rewrite Z.land_ones by lia. }
  assert (0 <= n / 1024 < 1024) by (subst n; Z.to_euclidean_division_equations; lia).
  assert (0 <= n mod 1024 < 1024) by (apply Z.mod_pos_bound; lia).
  subst hi lo. rewrite Ha, Hb, lor_high, lor_low by assumption.
  split; [lia|]. split; [lia|].
  replace (55296 + n / 1024 - 55296) with (n / 1024) by lia.
  replace (56320 + n mod 1024 - 56320) with (n mod 1024) by lia.
  rewrite lor_halves by assumption. subst n.
  Z.to_euclidean_division_equations. lia.
Qed.

Lemma u_escape_printable n : Forall printable (json.u_escape n).
Proof.
  unfold json.u_escape.
  repeat (apply Forall_cons; split); try (unfold printable; lia);
    try (apply hex_digit_printable, Z.mod_pos_bound; lia).
  constructor.
Qed.

Lemma escape_char_printable c : Forall printable (json.escape_char c).
Proof.
  unfold json.escape_char.
  repeat (match goal with
          | |- context [if ?b then _ else _] => destruct b eqn:?
          end;
          [repeat constructor; unfold printable; lia|]).
  destruct (c <? 65536).
  - apply u_escape_printable.
  - apply Forall_app; split; apply u_escape_printable.
Qed.

Lemma scanstring_loop_u_escape n uni X :
  json.scanstring_loop (S n) (json.u_escape uni ++ X)
  = '(uni, r1) ← json.decode_uXXXX (drop 2 (json.u_escape uni) ++ X);
    '(char, r2) ← json.join_surrogates uni r1;
    '(tail, rest) ← json.scanstring_loop n r2;
    Ok (char :: tail, rest).
Proof. reflexivity. Qed.

Lemma join_surrogates_scalar c X :
  scalar c -> json.join_surrogates c X = Ok (c, X).
Proof.
  intros Hc. unfold json.join_surrogates.
  replace ((55296 <=? c) && (c <=? 56319)) with false; [reflexivity|].
  unfold scalar in Hc. lia.
Qed.

Lemma join_surrogates_pair hi lo X :
  55296 <= hi <= 56319 -> 56320 <= lo <= 57343 ->
  json.join_surrogates hi (json.u_escape lo ++ X)
  = Ok (65536 + Z.lor (Z.shiftl (hi - 55296) 10) (lo - 56320), X).
Proof.
  intros Hhi Hlo. unfold json.join_surrogates.
  replace ((55296 <=? hi) && (hi <=? 56319)) with true by lia.
  change (json.u_escape lo ++ X)
    with (92 :: 117 :: drop 2 (json.u_escape lo) ++ X).
  cbn [andb Z.eqb Pos.eqb].
  rewrite decode_u_escape by lia. rewrite bind_Ok.
  replace ((56320 <=? lo) && (lo <=? 57343)) with true by lia.
  reflexivity.
Qed.

(** One character of the string, escaped, is read back as that
    character. *)
Lemma scanstring_loop_escape_char n c X :
  scalar c ->
  json.scanstring_loop (S n) (json.escape_char c ++ X)
  = '(tail, rest) ← json.scanstring_loop n X; Ok (c :: tail, rest).
Proof.
  intros Hc. unfold json.escape_char.
  destruct (c =? 34) eqn:H34; [apply Z.eqb_eq in H34 as ->; reflexivity|].
  destruct (c =? 92) eqn:H92; [apply Z.eqb_eq in H92 as ->; reflexivity|].
  destruct (c =? 10) eqn:H10; [apply Z.eqb_eq in H10 as ->; reflexivity|].
  destruct (c =? 13) eqn:H13; [apply Z.eqb_eq in H13 as ->; reflexivity|].
  destruct (c =? 9) eqn:H9; [apply Z.eqb_eq in H9 as ->; reflexivity|].
  destruct (c =? 8) eqn:H8; [apply Z.eqb_eq in H8 as ->; reflexivity|].
  destruct (c =? 12) eqn:H12; [apply Z.eqb_eq in H12 as ->; reflexivity|].
  destruct ((32 <=? c) && (c <=? 126)) eqn:Hprintable.
  - cbn [app json.scanstring_loop]. rewrite H34, H92.
    replace ((0 <=? c) && (c <? 32)) with false by lia. reflexivity.
  - destruct (c <? 65536) eqn:Hbmp.
    + rewrite scanstring_loop_u_escape.
      rewrite decode_u_escape by (unfold scalar in Hc; lia).
      rewrite bind_Ok. cbn beta iota.
      rewrite join_surrogates_scalar by assumption. reflexivity.
    + cbv zeta. rewrite <- app_assoc, scanstring_loop_u_escape.
      destruct (surrogate_halves c) as (Hhi & Hlo & Hjoin);
        [unfold scalar in Hc; lia|]. cbv zeta in Hhi, Hlo, Hjoin.
      rewrite decode_u_escape by lia. rewrite bind_Ok. cbn beta iota.
      rewrite join_surrogates_pair by assumption. rewrite Hjoin. reflexivity.
Qed.

Lemma escape_char_nonempty c : (1 <= length (json.escape_char c))%nat.
Proof.
  pose proof (escape_char_printable c) as H.
  unfold json.escape_char, json.u_escape.
  repeat match goal with
         | |- context [if ?b then _ else _] => destruct b
         end; cbn [length app]; lia.
Qed.

(** The scanner reads an encoded string back, given a step for each of its
    characters and one for the closing quote. *)
Lemma scanstring_loop_escaped s n X :
  Forall scalar s -> (length s < n)%nat ->
  json.scanstring_loop n (flat_map json.escape_char s ++ 34 :: X) = Ok (s, X).
Proof.
  intros Hs. revert n. induction Hs as [|c s Hc _ IH]; intros n Hn.
  - destruct n as [|n]; [cbn in Hn; lia|]. reflexivity.
  - destruct n as [|n]; [cbn in Hn; lia|].
    cbn [flat_map]. rewrite <- app_assoc.
    rewrite scanstring_loop_escape_char by assumption.
    rewrite IH by (cbn [length] in Hn; lia). reflexivity.
Qed.

Lemma length_escaped s : (length s <= length (flat_map json.escape_char s))%nat.
Proof.
  induction s as [|c s IH]; [reflexivity|].
  cbn [flat_map length]. rewrite length_app.
  pose proof (escape_char_nonempty c). lia.
Qed.

Lemma scanstring_escaped s X :
  Forall scalar s ->
  json.scanstring (flat_map json.escape_char s ++ 34 :: X) = Ok (s, X).
Proof.
  intros Hs. unfold json.scanstring. apply scanstring_loop_escaped; [assumption|].
  rewrite length_app. cbn [length]. pose proof (length_escaped s). lia.
Qed.


Lemma dumps_item_text k v X :
  json.encode_basestring_ascii k ++ py ": " ++ json.encode_basestring_ascii v ++ X
  = 34 :: flat_map json.escape_char k
    ++ 34 :: 58 :: 32 :: 34 :: flat_map json.escape_char v ++ 34 :: X.
Proof.
  unfold json.encode_basestring_ascii. cbn [app]. rewrite <- !app_assoc.
  reflexivity.
Qed.

Lemma scan_once_string fuel v X :
  Forall scalar v ->
  json.scan_once (S fuel) (34 :: flat_map json.escape_char v ++ 34 :: X)
  = Ok (json.String v, X).
Proof.
  intros Hv. cbn [json.scan_once]. change (34 =? 34) with true. cbv iota.
  rewrite scanstring_escaped by assumption. reflexivity.
Qed.

Lemma parse_members_item fuel k v Y :
  Forall scalar k -> Forall scalar v ->
  json.parse_members (S (S fuel))
    (34 :: flat_map json.escape_char k
     ++ 34 :: 58 :: 32 :: 34 :: flat_map json.escape_char v ++ 34 :: Y)
  = match json.skip_ws Y with
    | c4 :: r4 =>
        if c4 =? 125 then Ok ([(k, json.String v)], r4)
        else if c4 =? 44 then
          '(more, rest) ← json.parse_members (S fuel) (json.skip_ws r4);
          Ok ((k, json.String v) :: more, rest)
        else Raise (json.JSONDecodeError "Expecting ',' delimiter")
    | [] => Raise (json.JSONDecodeError "Expecting ',' delimiter")
    end.
Proof.
  intros Hk Hv. cbn [json.parse_members]. change (34 =? 34) with true. cbv iota.
  rewrite scanstring_escaped by assumption. rewrite bind_Ok. cbv beta iota.
  change (json.skip_ws (58 :: 32 :: 34 :: flat_map json.escape_char v ++ 34 :: Y))
    with (58 :: 32 :: 34 :: flat_map json.escape_char v ++ 34 :: Y).
  cbv iota. change (58 =? 58) with true. cbv iota.
  change (json.skip_ws (32 :: 34 :: flat_map json.escape_char v ++ 34 :: Y))
    with (34 :: flat_map json.escape_char v ++ 34 :: Y).
  rewrite scan_once_string by assumption. rewrite bind_Ok. reflexivity.
Qed.


Lemma dumps_items_head m X :
  m <> [] -> exists r, json.dumps_items m ++ X = 34 :: r.
Proof.
  destruct m as [|[k v] [|kv m]]; [done| |]; intros _; cbn [json.dumps_items];
    unfold json.encode_basestring_ascii; cbn [app]; eauto.
Qed.

Lemma parse_members_dumps m tail fuel :
  m <> [] -> Forall text_pair m -> (length m < fuel)%nat ->
  json.parse_members fuel (json.dumps_items m ++ 125 :: tail)
  = Ok (as_json m, tail).
Proof.
  intros Hne Hm. revert fuel. induction Hm as [|[k v] m [Hk Hv] Hm IH]; [done|].
  intros fuel Hfuel. cbn [text_pair fst snd] in Hk, Hv.
  destruct fuel as [|[|fuel]]; [cbn in Hfuel; lia | cbn in Hfuel; lia |].
  destruct m as [|kv m].
  - cbn [json.dumps_items]. rewrite <- !app_assoc, dumps_item_text.
    rewrite parse_members_item by assumption. reflexivity.
  - change (json.dumps_items ((k, v) :: kv :: m))
      with (json.encode_basestring_ascii k ++ py ": "
            ++ json.encode_basestring_ascii v ++ py ", "
            ++ json.dumps_items (kv :: m)).
    rewrite <- !app_assoc, dumps_item_text.
    rewrite parse_members_item by assumption.
    change (py ", " ++ json.dumps_items (kv :: m) ++ 125 :: tail)
      with (44 :: 32 :: json.dumps_items (kv :: m) ++ 125 :: tail).
    cbn [json.skip_ws json.is_ws orb Z.eqb Pos.eqb]. 
    destruct (dumps_items_head (kv :: m) (125 :: tail)) as [r Hr]; [done|].
    assert (json.skip_ws (json.dumps_items (kv :: m) ++ 125 :: tail)
            = json.dumps_items (kv :: m) ++ 125 :: tail) as ->
      by (rewrite Hr; reflexivity).
    rewrite IH by (done || cbn [length] in *; lia). reflexivity.
Qed.

Lemma dict_update_fresh {V} (d other : dict V) :
  NoDup (other.*1) -> (forall k, k ∈ other.*1 -> k ∉ d.*1) ->
  dict_update d other = d ++ other.
Proof.
  unfold dict_update. revert d.
  induction other as [|[k v] other IH]; intros d Hnd Hfresh; cbn [fold_left].
  - by rewrite app_nil_r.
  - cbn [fmap list_fmap fst] in Hnd. apply NoDup_cons in Hnd as [Hk Hnd].
    cbn [fst snd].
    assert (dict_set d k v = d ++ [(k, v)]) as ->.
    { assert (k ∉ d.*1) as Hkd by (apply Hfresh; left).
      clear -Hkd. induction d as [|[k' v'] d IH]; [reflexivity|].
      cbn [dict_set]. cbn [fmap list_fmap fst] in Hkd.
      apply not_elem_of_cons in Hkd as [Hne Hkd].
      rewrite decide_False by congruence. cbn [app]. f_equal. by apply IH. }
    rewrite IH.
    + by rewrite <- app_assoc.
    + assumption.
    + intros k' Hk'. rewrite fmap_app. cbn [fmap list_fmap fst].
      rewrite elem_of_app, list_elem_of_singleton.
      intros [Hin | ->]; [|done]. revert Hin. apply Hfresh. by right.
Qed.

Lemma as_json_keys m : (as_json m).*1 = m.*1.
Proof. unfold as_json. rewrite <- list_fmap_compose. reflexivity. Qed.

Lemma dumps_printable m : Forall printable (json.dumps m).
Proof.
  assert (forall s, Forall printable (json.encode_basestring_ascii s)) as Henc.
  { intros s. unfold json.encode_basestring_ascii.
    apply Forall_app; split; [repeat constructor; unfold printable; lia|].
    apply Forall_app; split; [|repeat constructor; unfold printable; lia].
    apply Forall_flat_map, Forall_forall. intros c _. apply escape_char_printable. }
  assert (Forall printable (py ": ")) as Hc.
  { change (py ": ") with [58; 32].
    repeat (apply Forall_cons; split; [unfold printable; lia|]). constructor. }
  assert (Forall printable (py ", ")) as Hs.
  { change (py ", ") with [44; 32].
    repeat (apply Forall_cons; split; [unfold printable; lia|]). constructor. }
  unfold json.dumps. apply Forall_app; split; [repeat constructor; unfold printable; lia|].
  apply Forall_app; split; [|repeat constructor; unfold printable; lia].
  induction m as [|[k v] m IH]; [constructor|].
  destruct m as [|kv m]; cbn [json.dumps_items]; rewrite ?Forall_app; auto 10.
Qed.

Lemma length_dumps_items m : (length m <= length (json.dumps_items m))%nat.
Proof.
  induction m as [|[k v] m IH]; [reflexivity|].
  assert (1 <= length (json.encode_basestring_ascii k))%nat
    by (unfold json.encode_basestring_ascii; cbn [app length]; lia).
  destruct m as [|kv m].
  - cbn [json.dumps_items]. rewrite length_app. cbn [length]. lia.
  - change (json.dumps_items ((k, v) :: kv :: m))
      with (json.encode_basestring_ascii k ++ py ": "
            ++ json.encode_basestring_ascii v ++ py ", "
            ++ json.dumps_items (kv :: m)).
    rewrite !length_app. cbn [length] in *. lia.
Qed.

(** [json.loads] inverts [json.dumps] on dictionaries of text with distinct
    keys. *)
Lemma loads_dumps m :
  NoDup (m.*1) -> Forall text_pair m ->
  json.loads (json.dumps m) = Ok (json.Object (as_json m)).
Proof.
  intros Hnd Hm. unfold json.loads, json.dumps.
  change (startswith ([123] ++ json.dumps_items m ++ [125]) [65279]) with false.
  cbv iota.
  change (json.skip_ws ([123] ++ json.dumps_items m ++ [125]))
    with (123 :: json.dumps_items m ++ [125]).
  set (body := json.dumps_items m ++ [125]).
  change ([123] ++ body) with (123 :: body). cbn [length].
  replace (2 * S (length body) + 2)%nat
    with (S (S (2 * length body + 2)))%nat by lia.
  subst body. cbn [json.scan_once]. change (123 =? 34) with false.
  change (123 =? 123) with true. cbv iota.
  destruct m as [|kv m].
  - reflexivity.
  - destruct (dumps_items_head (kv :: m) [125]) as [r Hr]; [done|].
    assert (json.skip_ws (json.dumps_items (kv :: m) ++ [125])
            = 34 :: r) as -> by (rewrite Hr; reflexivity).
    change (34 =? 125) with false. cbv iota. rewrite <- Hr.
    rewrite parse_members_dumps.
    + rewrite bind_Ok. cbv beta iota.
      rewrite dict_update_fresh; [reflexivity | by rewrite as_json_keys |].
      intros k _. cbn. apply not_elem_of_nil.
    + done.
    + assumption.
    + rewrite length_app.
      pose proof (length_dumps_items (kv :: m)). cbn [length] in *. lia.
Qed.

(** ** The base64 round trip *)


Lemma wire_a2b v :
  is_sextet v -> (wire v =? base64.PAD) = false /\ base64.a2b (wire v) = Some v.
Proof.
  intros Hv.
  set (P := fun v => negb (wire v =? base64.PAD)
                     && match base64.a2b (wire v) with
                        | Some w => w =? v | None => false end).
  assert (P v = true) as H.
  { apply (forallb_seqZ P 0 64); [vm_compute; reflexivity|].
    unfold is_sextet in Hv. lia. }
  unfold P in H. apply andb_true_iff in H as [H1 H2].
  apply negb_true_iff in H1. split; [assumption|].
  destruct (base64.a2b (wire v)); [|discriminate]. f_equal. lia.
Qed.

Lemma a2b_quad_0 v rest :
  is_sextet v ->
  base64.a2b_base64 (wire v :: rest) 0 0 0 = base64.a2b_base64 rest 1 v 0.
Proof.
  intros [Hpad Hv]%wire_a2b. cbn [base64.a2b_base64]. by rewrite Hpad, Hv.
Qed.

Lemma a2b_quad_1 v rest leftchar :
  is_sextet v ->
  base64.a2b_base64 (wire v :: rest) 1 leftchar 0
  = out ← base64.a2b_base64 rest 2 (Z.land v 15) 0;
    Ok (Z.lor (Z.shiftl leftchar 2) (Z.shiftr v 4) :: out).
Proof.
  intros [Hpad Hv]%wire_a2b. cbn [base64.a2b_base64]. by rewrite Hpad, Hv.
Qed.

Lemma a2b_quad_2 v rest leftchar :
  is_sextet v ->
  base64.a2b_base64 (wire v :: rest) 2 leftchar 0
  = out ← base64.a2b_base64 rest 3 (Z.land v 3) 0;
    Ok (Z.lor (Z.shiftl leftchar 4) (Z.shiftr v 2) :: out).
Proof.
  intros [Hpad Hv]%wire_a2b. cbn [base64.a2b_base64]. by rewrite Hpad, Hv.
Qed.

Lemma a2b_quad_3 v rest leftchar :
  is_sextet v ->
  base64.a2b_base64 (wire v :: rest) 3 leftchar 0
  = out ← base64.a2b_base64 rest 0 0 0;
    Ok (Z.lor (Z.shiftl leftchar 6) v :: out).
Proof.
  intros [Hpad Hv]%wire_a2b. cbn [base64.a2b_base64]. by rewrite Hpad, Hv.
Qed.

Ltac octets1 a Ha :=
  apply Z.eqb_eq;
  match goal with
  | |- ?e = true =>
      let P := eval pattern a in e in
      match P with
      | ?f a => exact (forall_octets f ltac:(vm_compute; reflexivity) a Ha)
      end
  end.

Ltac octets2 a b Ha Hb :=
  apply Z.eqb_eq;
  match goal with
  | |- ?e = true =>
      let P := eval pattern a, b in e in
      match P with
      | ?f a b =>
          exact (forall_octets2 f ltac:(vm_compute; reflexivity) a b Ha Hb)
      end
  end.

Lemma octet_1 a b : is_byte a -> is_byte b ->
  Z.lor (Z.shiftl (Z.shiftr a 2) 2)
        (Z.shiftr (Z.lor (Z.shiftl (Z.land a 3) 4) (Z.shiftr b 4)) 4) = a.
Proof. intros Ha Hb. octets2 a b Ha Hb. Qed.

Lemma octet_1_last a : is_byte a ->
  Z.lor (Z.shiftl (Z.shiftr a 2) 2) (Z.shiftr (Z.shiftl (Z.land a 3) 4) 4) = a.
Proof. intros Ha. octets1 a Ha. Qed.

Lemma left_2 a b : is_byte a -> is_byte b ->
  Z.land (Z.lor (Z.shiftl (Z.land a 3) 4) (Z.shiftr b 4)) 15 = Z.shiftr b 4.
Proof. intros Ha Hb. octets2 a b Ha Hb. Qed.

Lemma octet_2 b c : is_byte b -> is_byte c ->
  Z.lor (Z.shiftl (Z.shiftr b 4) 4)
        (Z.shiftr (Z.lor (Z.shiftl (Z.land b 15) 2) (Z.shiftr c 6)) 2) = b.
Proof. intros Hb Hc. octets2 b c Hb Hc. Qed.

Lemma octet_2_last b : is_byte b ->
  Z.lor (Z.shiftl (Z.shiftr b 4) 4) (Z.shiftr (Z.shiftl (Z.land b 15) 2) 2) = b.
Proof. intros Hb. octets1 b Hb. Qed.

Lemma left_3 b c : is_byte b -> is_byte c ->
  Z.land (Z.lor (Z.shiftl (Z.land b 15) 2) (Z.shiftr c 6)) 3 = Z.shiftr c 6.
Proof. intros Hb Hc. octets2 b c Hb Hc. Qed.

Lemma octet_3 c : is_byte c ->
  Z.lor (Z.shiftl (Z.shiftr c 6) 6) (Z.land c 63) = c.
Proof. intros Hc. octets1 c Hc. Qed.

(** Decoding inverts encoding. *)
Lemma b64decode_urlsafe_b64encode s :
  Forall is_byte s ->
  base64.b64decode
    (map base64.urlsafe_decode_translation (base64.urlsafe_b64encode s))
  = Ok s.
Proof.
  unfold base64.b64decode, base64.urlsafe_b64encode.
  induction s as [|a|a b|a b c s IH] using list_ind3; intros Hs.
  - reflexivity.
  - apply Forall_cons in Hs as [Ha _].
    cbn [base64.b64encode map]. fold (wire (Z.shiftr a 2)).
    fold (wire (Z.shiftl (Z.land a 3) 4)).
    rewrite a2b_quad_0, a2b_quad_1 by auto using sextet_1, sextet_tail_1.
    change (base64.urlsafe_decode_translation
              (base64.urlsafe_encode_translation base64.PAD)) with 61.
    change (base64.a2b_base64 [61; 61] 2 (Z.land (Z.shiftl (Z.land a 3) 4) 15) 0)
      with (Ok [] : result (list Z)).
    rewrite bind_Ok, octet_1_last by assumption. reflexivity.
  - apply Forall_cons in Hs as [Ha Hs]. apply Forall_cons in Hs as [Hb _].
    cbn [base64.b64encode map]. fold (wire (Z.shiftr a 2)).
    fold (wire (Z.lor (Z.shiftl (Z.land a 3) 4) (Z.shiftr b 4))).
    fold (wire (Z.shiftl (Z.land b 15) 2)).
    rewrite a2b_quad_0, a2b_quad_1, a2b_quad_2
      by auto using sextet_1, sextet_2, sextet_tail_2.
    change (base64.urlsafe_decode_translation
              (base64.urlsafe_encode_translation base64.PAD)) with 61.
    change (base64.a2b_base64 [61] 3 (Z.land (Z.shiftl (Z.land b 15) 2) 3) 0)
      with (Ok [] : result (list Z)).
    rewrite !bind_Ok, octet_1, left_2, octet_2_last by assumption. reflexivity.
  - apply Forall_cons in Hs as [Ha Hs]. apply Forall_cons in Hs as [Hb Hs].
    apply Forall_cons in Hs as [Hc Hs].
    cbn [base64.b64encode map]. fold (wire (Z.shiftr a 2)).
    fold (wire (Z.lor (Z.shiftl (Z.land a 3) 4) (Z.shiftr b 4))).
    fold (wire (Z.lor (Z.shiftl (Z.land b 15) 2) (Z.shiftr c 6))).
    fold (wire (Z.land c 63)).
    rewrite a2b_quad_0, a2b_quad_1, a2b_quad_2, a2b_quad_3
      by auto using sextet_1, sextet_2, sextet_3, sextet_4.
    rewrite IH by assumption.
    rewrite !bind_Ok, octet_1, left_2, octet_2, left_3, octet_3 by assumption.
    reflexivity.
Qed.

(** ** Encoding and decoding the state *)

Lemma printable_ascii s : Forall printable s -> Forall (fun c => 0 <= c < 128) s.
Proof.
  intros H. eapply Forall_impl; [exact H|]. unfold printable. intros; lia.
Qed.

Lemma printable_octets s : Forall printable s -> Forall is_byte s.
Proof.
  intros H. eapply Forall_impl; [exact H|]. unfold printable, is_byte.
  intros; lia.
Qed.

Lemma str_encode_ascii_Ok s :
  Forall (fun c => 0 <= c < 128) s -> str_encode_ascii s = Ok s.
Proof.
  intros H. unfold str_encode_ascii.
  replace (forallb (fun c => (0 <=? c) && (c <? 128)) s) with true;
    [reflexivity|].
  symmetry. apply forallb_forall. intros c Hc%list_elem_of_In.
  rewrite Forall_forall in H. specialize (H c Hc). lia.
Qed.

(** What [encode_state] returns. *)
Lemma encode_state_Ok m :
  encode_state m = Ok (base64.urlsafe_b64encode (json.dumps m)).
Proof.
  unfold encode_state. pose proof (dumps_printable m) as Hp.
  rewrite str_encode_ascii_text, bind_Ok by by apply printable_ascii.
  apply bytes_decode_ascii, urlsafe_b64encode_ascii, printable_octets, Hp.
Qed.

Lemma decrypt_state_encoded m :
  NoDup (m.*1) -> Forall text_pair m ->
  decrypt_state (base64.urlsafe_b64encode (json.dumps m))
  = Ok (json.Object (as_json m)).
Proof.
  intros Hnd Hm. unfold decrypt_state, base64.urlsafe_b64decode.
  pose proof (dumps_printable m) as Hp.
  rewrite str_encode_ascii_Ok
    by by apply urlsafe_b64encode_ascii, printable_octets.
  rewrite bind_Ok, b64decode_urlsafe_b64encode by by apply printable_octets.
  rewrite bind_Ok, bytes_decode_ascii by by apply printable_ascii.
  rewrite bind_Ok, loads_dumps by assumption. reflexivity.
Qed.





Lemma py_scalar (s : string) : Forall scalar (py s).
Proof.
  unfold py. apply Forall_forall. intros c (a & -> & _)%list_elem_of_fmap.
  pose proof (N_ascii_bounded a). unfold scalar. lia.
Qed.




(** The two halves of a surrogate pair, held as two code points, come back
    as the one character of the pair. *)
Lemma surrogate_state_not_restored :
  exists s, encode_state surrogate_state = Ok s
            /\ decrypt_state s
               = Ok (json.Object [(py "k", json.String [128512])]).
Proof. eexists. split; vm_compute; reflexivity. Qed.

(** X4: what [decrypt_state] raises is the HTTP 400 "Invalid state". *)
Lemma decrypt_state_raises state e :
  decrypt_state state = Raise e ->
  e = HTTPException 400 (Msg "Invalid state" []) []
  /\ error_response e = (400, Detail (Msg "Invalid state" [])).
Proof.
  unfold decrypt_state.
  destruct (_ ≫= _) as [v|e']; intros [= <-]. split; reflexivity.
Qed.

(** * The models of the library functions on known values *)

Example sha256_abc :
  hashlib.sha256 (py "abc")
  = [186; 120; 22; 191; 143; 1; 207; 234; 65; 65; 64; 222; 93; 174; 34; 35;
     176; 3; 97; 163; 150; 23; 122; 156; 180; 16; 255; 97; 242; 0; 21; 173].
Proof. vm_compute. reflexivity. Qed.

Example code_challenge_of_pkce_verifier :
  code_challenge_iam pkce_verifier = Ok pkce_challenge
  /\ code_challenge_token pkce_verifier = Ok pkce_challenge.
Proof. split; vm_compute; reflexivity. Qed.

Example urlsafe_b64decode_lenient :
  base64.urlsafe_b64decode (py "e30=") = Ok (py "{}")
  /\ base64.urlsafe_b64decode (py "e 3!0=garbage") = Ok (py "{}")
  /\ base64.urlsafe_b64decode (py "-_-_") = Ok [251; 255; 191]
  /\ base64.urlsafe_b64decode (py "e30")
     = Raise (ValueError (Msg "Incorrect padding" [])).
Proof. repeat split; vm_compute; reflexivity. Qed.

Example dumps_state_for_iam :
  json.dumps [(py "grant_type", py "authorization_code"); (py "uuid", [233])]
  = [123; 34] ++ py "grant_type" ++ [34] ++ py ": " ++ [34]
    ++ py "authorization_code" ++ [34] ++ py ", " ++ [34] ++ py "uuid"
    ++ [34] ++ py ": " ++ [34; 92] ++ py "u00e9" ++ [34; 125].
Proof. vm_compute. reflexivity. Qed.

Example loads_values :
  json.loads (py " [1, -2.5e3, true, null] ")
  = Ok (json.Array [json.Int 1; json.Float (py "-2.5e3"); json.Bool true;
                    json.Null])
  /\ json.loads (py "{}") = Ok (json.Object [])
  /\ json.loads (py "[1,]") = Raise (json.JSONDecodeError "Expecting value")
  /\ json.loads (py "01") = Raise (json.JSONDecodeError "Extra data").
Proof. repeat split; vm_compute; reflexivity. Qed.

(** * Further witnesses *)

Lemma token_device_code_checks_client_id_witness :
  token first_occurrences known_properties test_secrets 1700000000
    (py "8c1f9f0e") (py "lhcb")
    (py "urn:ietf:params:oauth:grant-type:device_code") (py "another-client")
    (store_answering (Ok ready_flow)) lhcb_config
    (Some (py "devicecode")) None None None
  = Raise (HTTPException HTTP_400_BAD_REQUEST (Msg "Bad client_id" []) []).
Proof.
  apply (token_device_code_checks_client_id first_occurrences known_properties
           test_secrets 1700000000 (py "8c1f9f0e") (py "lhcb")
           (py "another-client") (store_answering (Ok ready_flow)) lhcb_config
           (py "devicecode") None None None ready_flow).
  - reflexivity.
  - vm_compute. discriminate.
Defined.

Lemma exchange_token_known_subject_witness :
  chaen_id_token !! py "sub"
  = Some (py "b824d4dc-1f9d-4ee8-8df5-c0ae55d46041")
  \/ chaen_id_token !! py "sub"
     = Some (py "59382c3f-181c-4df8-981d-ec3e9015fcb9").
Proof.
  destruct (exchange_token test_secrets 1700000000 (py "8c1f9f0e")
              (py "lhcb_user") chaen_id_token lhcb_config) as [tr|e] eqn:Hrun;
    [|vm_compute in Hrun; discriminate].
  exact (exchange_token_known_subject test_secrets _ _ _ _ _ _ Hrun).
Defined.

Lemma disallowed_redirect_fails_assertion_witness :
  authorization_flow first_occurrences known_properties
    pkce_verifier (py "https://lhcb-auth.web.cern.ch/authorize") (py "lhcb")
    lhcb_request
    (py "code") pkce_challenge (py "S256") DIRAC_CLIENT_ID
    (py "http://evil.example/cb")
    (py "group:lhcb_user property:NormalUser") (py "external-state")
    (store_answering (Ok ready_flow)) lhcb_config
  = Raise (AssertionError [])
  /\ error_response (AssertionError []) = (500, InternalServerError).
Proof.
  apply (disallowed_redirect_fails_assertion first_occurrences known_properties
           pkce_verifier (py "https://lhcb-auth.web.cern.ch/authorize")
           (py "lhcb") lhcb_request (py "code") pkce_challenge (py "S256")
           DIRAC_CLIENT_ID (py "http://evil.example/cb")
           (py "group:lhcb_user property:NormalUser") (py "external-state")
           (store_answering (Ok ready_flow)) lhcb_config
           {[ py "allowed_redirects" :=
                [py "http://localhost:8000/docs/oauth2-redirect"] ]}
           [py "http://localhost:8000/docs/oauth2-redirect"]).
  - vm_compute. reflexivity.
  - vm_compute. reflexivity.
  - intros Hin. apply list_elem_of_singleton in Hin. vm_compute in Hin.
    discriminate.
Defined.

Lemma decrypt_state_raises_witness :
  HTTPException 400 (Msg "Invalid state" []) []
  = HTTPException 400 (Msg "Invalid state" []) []
  /\ error_response (HTTPException 400 (Msg "Invalid state" []) [])
     = (400, Detail (Msg "Invalid state" [])).
Proof.
  apply (decrypt_state_raises (py "not a state")). vm_compute. reflexivity.
Defined.

Lemma parse_and_validate_scope_Ok_witness :
  unrecognised_tokens (first_occurrences (str_split 32 repeated_scope)) = []
  /\ properties repeated_scope_info
     = requested_properties (first_occurrences (str_split 32 repeated_scope))
  /\ (forall p, p ∈ properties repeated_scope_info -> p ∈ known_properties)
  /\ ((requested_groups (first_occurrences (str_split 32 repeated_scope)) = []
       /\ exists defaults,
            DefaultGroup (Registry lhcb_config) !! py "lhcb" = Some defaults
            /\ defaults !! 0%nat = Some (group repeated_scope_info))
      \/ (requested_groups (first_occurrences (str_split 32 repeated_scope))
          = [group repeated_scope_info]
          /\ exists vo_groups,
               Groups (Registry lhcb_config) !! py "lhcb" = Some vo_groups
               /\ is_Some (vo_groups !! group repeated_scope_info))).
Proof.
  apply (parse_and_validate_scope_Ok first_occurrences known_properties
           repeated_scope (py "lhcb") lhcb_config repeated_scope_info).
  vm_compute. reflexivity.
Defined.

(** * Further properties of the scope validator *)

(** The validator in terms of the classified tokens. *)
Lemma parse_and_validate_scope_unfold
    (set_iter : list str -> list str) (SecurityProperty : list str)
    (scope vo : str) (config : Config) :
  parse_and_validate_scope set_iter SecurityProperty scope vo config
  = let tokens := set_iter (str_split 32 scope) in
    match unrecognised_tokens tokens with
    | _ :: _ =>
        Raise (ValueError (Msg "Unrecognised scopes: {}"
                             (unrecognised_tokens tokens)))
    | [] =>
      group ←
        match requested_groups tokens with
        | [] =>
            defaults ← getitem (DefaultGroup (Registry config)) vo;
            index defaults 0
        | _ :: _ :: _ =>
            Raise (ValueError (Msg "Only one DIRAC group allowed but got {}"
                                 (requested_groups tokens)))
        | [group] =>
            vo_groups ← getitem (Groups (Registry config)) vo;
            match vo_groups !! group with
            | None => Raise (ValueError (Msg "{} not in {} groups" [group; vo]))
            | Some _ => Ok group
            end
        end;
      if forallb (fun p => bool_decide (p ∈ SecurityProperty))
           (requested_properties tokens)
      then Ok {| group := group; properties := requested_properties tokens |}
      else Raise (ValueError (Msg "{} are not valid properties"
                    (filter (fun p => p ∉ SecurityProperty)
                       (requested_properties tokens))))
    end.
Proof.
  cbv zeta. unfold parse_and_validate_scope.
  rewrite classify_scopes_spec, bind_Ok. cbn [app]. reflexivity.
Qed.

Lemma unrecognised_tokens_elem tokens t :
  t ∈ unrecognised_tokens tokens
  <-> t ∈ tokens /\ startswith t (py "group:") = false
      /\ startswith t (py "property:") = false.
Proof. unfold unrecognised_tokens. rewrite list_elem_of_filter. tauto. Qed.

Lemma requested_groups_elem tokens g :
  g ∈ requested_groups tokens <-> py "group:" ++ g ∈ tokens.
Proof.
  unfold requested_groups. rewrite list_elem_of_omap. split.
  - intros (t & Ht & Hg). apply group_name_Some in Hg as ->. exact Ht.
  - intros Ht. exists (py "group:" ++ g). split; [exact Ht|].
    by apply group_name_Some.
Qed.

(** ** Splitting at blanks *)

Lemma str_split_nonempty sep s : str_split sep s <> [].
Proof.
  destruct s as [|c s]; cbn [str_split]; [discriminate|].
  destruct (decide (c = sep)); [discriminate|].
  destruct (str_split sep s); discriminate.
Qed.

Lemma str_split_app_sep sep a b :
  exists w ws, str_split sep (a ++ sep :: b) = w :: ws
               /\ ws <> []
               /\ forall x, x ∈ str_split sep b -> x ∈ ws.
Proof.
  induction a as [|c a (w & ws & IH & Hne & Hin)]; cbn [app str_split].
  - rewrite decide_True by reflexivity. exists [], (str_split sep b).
    split; [reflexivity|]. split; [apply str_split_nonempty | auto].
  - destruct (decide (c = sep)) as [->|Hc].
    + exists [], (str_split sep (a ++ sep :: b)). split; [reflexivity|].
      split; [apply str_split_nonempty|].
      intros x Hx. rewrite IH. right. auto.
    + rewrite IH. exists (c :: w), ws. auto.
Qed.

(** The empty token is among the tokens of a scope that is empty, starts or
    ends with the separator, or holds two separators in a row. *)
Lemma str_split_empty_item sep s :
  s = []
  \/ (exists a, s = sep :: a)
  \/ (exists a, s = a ++ [sep])
  \/ (exists a b, s = a ++ sep :: sep :: b) ->
  [] ∈ str_split sep s.
Proof.
  intros [->|[[a ->]|[[a ->]|(a & b & ->)]]].
  - left.
  - cbn [str_split]. rewrite decide_True by reflexivity. left.
  - destruct (str_split_app_sep sep a []) as (w & ws & -> & _ & Hin).
    right. apply Hin. left.
  - destruct (str_split_app_sep sep a (sep :: b)) as (w & ws & -> & _ & Hin).
    right. apply Hin. cbn [str_split]. rewrite decide_True by reflexivity.
    left.
Qed.

Section ScopeErrors.

Variable set_iter : list str -> list str.
Variable SecurityProperty : list str.
Hypothesis set_iter_NoDup : forall l, NoDup (set_iter l).
Hypothesis set_iter_elem : forall l x, x ∈ set_iter l <-> x ∈ l.

Lemma unrecognised_raises scope vo config t :
  t ∈ str_split 32 scope ->
  startswith t (py "group:") = false ->
  startswith t (py "property:") = false ->
  exists l,
    parse_and_validate_scope set_iter SecurityProperty scope vo config
    = Raise (ValueError (Msg "Unrecognised scopes: {}" l))
    /\ t ∈ l.
Proof.
  intros Ht Hg Hp. rewrite parse_and_validate_scope_unfold. cbv zeta.
  assert (t ∈ unrecognised_tokens (set_iter (str_split 32 scope))) as Hin.
  { apply unrecognised_tokens_elem. rewrite set_iter_elem. auto. }
  destruct (unrecognised_tokens _) as [|u l] eqn:Hu.
  - by apply elem_of_nil in Hin.
  - eauto.
Qed.

Lemma group_token_requested scope g :
  py "group:" ++ g ∈ str_split 32 scope
  <-> g ∈ requested_groups (set_iter (str_split 32 scope)).
Proof. by rewrite requested_groups_elem, set_iter_elem. Qed.

Ltac scope_cases H :=
  rewrite parse_and_validate_scope_unfold in H; cbv zeta in H;
  unfold getitem, index in H;
  repeat match type of H with
         | context [match ?x with _ => _ end] =>
             destruct x eqn:?; cbn [mbind result_bind] in H
         end.

(** X6: the validator raises the [ValueError] "Unrecognised scopes" exactly
    when some token of the scope, split at single blanks, starts neither
    with [group:] nor with [property:]. *)
Theorem parse_and_validate_scope_unrecognised scope vo config :
  (exists l,
     parse_and_validate_scope set_iter SecurityProperty scope vo config
     = Raise (ValueError (Msg "Unrecognised scopes: {}" l)))
  <-> exists t, t ∈ str_split 32 scope
                /\ startswith t (py "group:") = false
                /\ startswith t (py "property:") = false.
Proof.
  split.
  - intros [l H].
    assert (unrecognised_tokens (set_iter (str_split 32 scope)) <> []) as Hu.
    { intros Hu. scope_cases H; discriminate. }
    destruct (unrecognised_tokens (set_iter (str_split 32 scope)))
      as [|t u] eqn:Ht; [done|].
    assert (t ∈ unrecognised_tokens (set_iter (str_split 32 scope))) as Hin
      by (rewrite Ht; left).
    apply unrecognised_tokens_elem in Hin as (Hin & Hg & Hp).
    apply (proj1 (set_iter_elem _ _)) in Hin. by exists t.
  - intros (t & Ht & Hg & Hp).
    destruct (unrecognised_raises scope vo config t Ht Hg Hp) as (l & H & _).
    eauto.
Qed.

Lemma NoDup_requested_groups tokens :
  NoDup tokens -> NoDup (requested_groups tokens).
Proof.
  unfold requested_groups.
  induction 1 as [|t tokens Hnotin Hnodup IH]; cbn [omap list_omap].
  - constructor.
  - destruct (group_name t) as [g|] eqn:Hg; [|assumption].
    apply NoDup_cons. split; [|assumption].
    intros (t' & Hin & Hg')%list_elem_of_omap.
    apply group_name_Some in Hg, Hg'. congruence.
Qed.

Lemma recognised_tokens scope :
  unrecognised_tokens (set_iter (str_split 32 scope)) = []
  <-> forall t, t ∈ str_split 32 scope ->
                startswith t (py "group:") = true
                \/ startswith t (py "property:") = true.
Proof.
  split.
  - intros Hu t Ht.
    destruct (startswith t (py "group:")) eqn:Hg; [by left|].
    destruct (startswith t (py "property:")) eqn:Hp; [by right|].
    assert (t ∈ unrecognised_tokens (set_iter (str_split 32 scope))) as Hin
      by (apply unrecognised_tokens_elem; rewrite set_iter_elem; auto).
    rewrite Hu in Hin. by apply elem_of_nil in Hin.
  - intros Hall.
    destruct (unrecognised_tokens _) as [|t u] eqn:Hu; [reflexivity|].
    assert (t ∈ unrecognised_tokens (set_iter (str_split 32 scope))) as Hin
      by (rewrite Hu; left).
    apply unrecognised_tokens_elem in Hin as (Hin & Hg & Hp).
    apply (proj1 (set_iter_elem _ _)), Hall in Hin as [?|?]; congruence.
Qed.

(** X8: the validator raises "Only one DIRAC group allowed" exactly when
    every token is recognised and two [group:] tokens name different
    groups; a group that is named twice counts once. *)
Theorem parse_and_validate_scope_two_groups scope vo config :
  (exists l,
     parse_and_validate_scope set_iter SecurityProperty scope vo config
     = Raise (ValueError (Msg "Only one DIRAC group allowed but got {}" l)))
  <-> (forall t, t ∈ str_split 32 scope ->
                 startswith t (py "group:") = true
                 \/ startswith t (py "property:") = true)
      /\ exists g1 g2, g1 <> g2
                       /\ py "group:" ++ g1 ∈ str_split 32 scope
                       /\ py "group:" ++ g2 ∈ str_split 32 scope.
Proof.
  pose proof (NoDup_requested_groups _ (set_iter_NoDup (str_split 32 scope)))
    as Hnd.
  split.
  - intros [l H].
    assert (unrecognised_tokens (set_iter (str_split 32 scope)) = []
            /\ exists g1 g2 gs,
                 requested_groups (set_iter (str_split 32 scope))
                 = g1 :: g2 :: gs) as [Hu (g1 & g2 & gs & Hg)].
    { scope_cases H; try discriminate; (split; [reflexivity | eauto]). }
    split; [by apply recognised_tokens|].
    exists g1, g2. rewrite Hg in Hnd. apply NoDup_cons in Hnd as [Hne _].
    split; [intros ->; apply Hne; left|].
    split; apply group_token_requested; rewrite Hg; [left | right; left].
  - intros (Hall & g1 & g2 & Hne & H1 & H2).
    apply recognised_tokens in Hall.
    apply group_token_requested in H1, H2.
    rewrite parse_and_validate_scope_unfold. cbv zeta. rewrite Hall.
    destruct (requested_groups _) as [|a [|b gs]].
    + by apply elem_of_nil in H1.
    + apply list_elem_of_singleton in H1, H2. congruence.
    + eexists. reflexivity.
Qed.

(** The group tokens of a scope name one group at most. *)
Lemma requested_groups_at_most_one scope :
  (forall g1 g2, py "group:" ++ g1 ∈ str_split 32 scope ->
                 py "group:" ++ g2 ∈ str_split 32 scope -> g1 = g2) ->
  requested_groups (set_iter (str_split 32 scope)) = []
  \/ exists g, requested_groups (set_iter (str_split 32 scope)) = [g].
Proof.
  intros Hone.
  pose proof (NoDup_requested_groups _ (set_iter_NoDup (str_split 32 scope)))
    as Hnd.
  destruct (requested_groups _) as [|a [|b gs]] eqn:Hg; [by left | eauto |].
  exfalso. apply NoDup_cons in Hnd as [Hne _]. apply Hne.
  assert (a = b) as ->; [|left].
  apply Hone; apply group_token_requested; rewrite Hg; [left | right; left].
Qed.

(** X7: a scope that is empty, starts or ends with a blank, or holds two
    blanks in a row has the empty token among its tokens; the validator
    raises "Unrecognised scopes" with it, and [initiate_device_flow] raises
    HTTP 400 with that message for a known client, whatever the store. *)
Theorem initiate_device_flow_blank_scope
    vo client_id scope audience request auth_db config :
  is_Some (KNOWN_CLIENTS !! client_id) ->
  scope = []
  \/ (exists a, scope = 32 :: a)
  \/ (exists a, scope = a ++ [32])
  \/ (exists a b, scope = a ++ 32 :: 32 :: b) ->
  exists l,
    [] ∈ l
    /\ parse_and_validate_scope set_iter SecurityProperty scope vo config
       = Raise (ValueError (Msg "Unrecognised scopes: {}" l))
    /\ initiate_device_flow set_iter SecurityProperty vo client_id scope
         audience request auth_db config
       = Raise (HTTPException 400 (Msg "Unrecognised scopes: {}" l) []).
Proof.
  intros [client Hclient] Hblank%str_split_empty_item.
  destruct (unrecognised_raises scope vo config [] Hblank eq_refl eq_refl)
    as (l & H & Hin).
  exists l. split; [exact Hin|]. split; [exact H|].
  unfold initiate_device_flow. rewrite Hclient, H. reflexivity.
Qed.

(** X10: for a VO that the registry lists neither under [Groups] nor under
    [DefaultGroup], a scope of recognised tokens that names one group at
    most makes [initiate_device_flow] raise [KeyError] for the VO, which is
    answered with status 500 and not with 400. *)
Theorem initiate_device_flow_unknown_vo
    vo client_id scope audience request auth_db config :
  is_Some (KNOWN_CLIENTS !! client_id) ->
  Groups (Registry config) !! vo = None ->
  DefaultGroup (Registry config) !! vo = None ->
  (forall t, t ∈ str_split 32 scope ->
             startswith t (py "group:") = true
             \/ startswith t (py "property:") = true) ->
  (forall g1 g2, py "group:" ++ g1 ∈ str_split 32 scope ->
                 py "group:" ++ g2 ∈ str_split 32 scope -> g1 = g2) ->
  initiate_device_flow set_iter SecurityProperty vo client_id scope
    audience request auth_db config
  = Raise (KeyError vo)
  /\ error_response (KeyError vo) = (500, InternalServerError).
Proof.
  intros [client Hclient] Hgroups Hdefault Hall%recognised_tokens Hone.
  split; [|reflexivity].
  unfold initiate_device_flow. rewrite Hclient.
  rewrite parse_and_validate_scope_unfold. cbv zeta. rewrite Hall.
  destruct (requested_groups_at_most_one scope Hone) as [-> | [g ->]].
  - rewrite (getitem_None _ _ Hdefault). reflexivity.
  - rewrite (getitem_None _ _ Hgroups). reflexivity.
Qed.

End ScopeErrors.

(** X9: what [initiate_device_flow] raises is the [AssertionError] for an
    unknown client, HTTP 400 with the message of the validator's
    [ValueError], the validator's [KeyError] for the VO or its [IndexError]
    unchanged, or, once client and scope are accepted, what the store
    raises on insertion. *)
Theorem initiate_device_flow_raises
    (set_iter : list str -> list str) (SecurityProperty : list str)
    vo client_id scope audience request auth_db config e :
  initiate_device_flow set_iter SecurityProperty vo client_id scope
    audience request auth_db config = Raise e ->
  (KNOWN_CLIENTS !! client_id = None /\ e = AssertionError [client_id])
  \/ (exists msg,
        parse_and_validate_scope set_iter SecurityProperty scope vo config
        = Raise (ValueError msg)
        /\ e = HTTPException 400 msg [])
  \/ (parse_and_validate_scope set_iter SecurityProperty scope vo config
      = Raise e
      /\ (e = KeyError vo \/ e = IndexError))
  \/ (is_Some (KNOWN_CLIENTS !! client_id)
      /\ (exists si,
            parse_and_validate_scope set_iter SecurityProperty scope vo config
            = Ok si)
      /\ insert_device_flow auth_db client_id scope audience = Raise e).
Proof.
  unfold initiate_device_flow.
  destruct (KNOWN_CLIENTS !! client_id) as [client|] eqn:Hclient.
  2:{ intros [= <-]. by left. }
  destruct (parse_and_validate_scope _ _ scope vo config) as [si|e'] eqn:Hparse.
  - destruct (insert_device_flow auth_db client_id scope audience)
      as [[user_code device_code]|e'']; [discriminate|].
    intros [= <-]. right; right; right. eauto.
  - intros H. right.
    assert (e = match e' with
                | ValueError msg => HTTPException 400 msg []
                | _ => e'
                end) as He by (destruct e'; cbn in H; injection H as <-; reflexivity).
    clear H.
    rewrite parse_and_validate_scope_unfold in Hparse. cbv zeta in Hparse.
    unfold getitem, index in Hparse.
    repeat match type of Hparse with
           | context [match ?x with _ => _ end] =>
               destruct x eqn:?; cbn [mbind result_bind] in Hparse
           end;
      try discriminate; injection Hparse as <-; subst e;
      first [ left; eexists; split; reflexivity
            | right; left; split; [reflexivity | auto] ].
Qed.

Section TokenProperties.

Variable set_iter : list str -> list str.
Variable SecurityProperty : list str.
Variable secrets : Secrets.

(** X11: [exchange_token] raises a [ValueError] exactly when the
    [id_token] names an organisation and a subject of [SID_TO_USERNAME],
    the group is one of the organisation in the registry, the user is none
    of its [Users] and the [id_token] has a [preferred_username]; the
    message then holds that name and the group. *)
Theorem exchange_token_not_member
    (utcnow : Z) (uuid4 dirac_group : str) (id_token : gmap str str)
    (config : Config) (msg : message) :
  exchange_token secrets utcnow uuid4 dirac_group id_token config
  = Raise (ValueError msg)
  <-> exists vo sub subId vo_groups group_config preferred_username,
        id_token !! py "organisation_name" = Some vo
        /\ id_token !! py "sub" = Some sub
        /\ SID_TO_USERNAME !! sub = Some subId
        /\ Groups (Registry config) !! vo = Some vo_groups
        /\ vo_groups !! dirac_group = Some group_config
        /\ (subId ∉ Users group_config)
        /\ id_token !! py "preferred_username" = Some preferred_username
        /\ msg = Msg "User is not a member of the requested group ({}, {})"
                   [preferred_username; dirac_group].
Proof.
  unfold exchange_token, getitem. split.
  - intros H.
    destruct (id_token !! py "organisation_name") as [vo|]; [|discriminate].
    destruct (id_token !! py "sub") as [sub|]; [|discriminate].
    cbn [mbind result_bind] in H.
    destruct (SID_TO_USERNAME !! sub) as [subId|] eqn:Hsub; [|discriminate].
    cbn [mbind result_bind] in H.
    destruct (Groups (Registry config) !! vo) as [vo_groups|] eqn:Hgroups;
      [|discriminate].
    cbn [mbind result_bind] in H.
    destruct (vo_groups !! dirac_group) as [group_config|] eqn:Hgroup;
      [|discriminate].
    cbn [mbind result_bind] in H.
    destruct (bool_decide (subId ∉ Users group_config)) eqn:Hmember;
      destruct (id_token !! py "preferred_username") as [name|];
      try discriminate.
    injection H as <-. apply bool_decide_eq_true in Hmember.
    exists vo, sub, subId, vo_groups, group_config, name.
    repeat split; auto.
  - intros (vo & sub & subId & vo_groups & group_config & name
            & -> & -> & Hsub & Hgroups & Hgroup & Hmember & -> & ->).
    cbn [mbind result_bind]. rewrite Hsub. cbn [mbind result_bind].
    rewrite Hgroups. cbn [mbind result_bind]. rewrite Hgroup.
    cbn [mbind result_bind]. rewrite bool_decide_eq_true_2 by assumption.
    reflexivity.
Qed.

(** X12: when [token] returns, the store has returned a row for the code
    presented, the row is [READY], and with the device grant its
    [client_id] is the one presented, with the authorization-code grant
    its [redirect_uri] is the one presented and its [code_challenge] the
    S256 challenge of the verifier presented; the scope of the row is
    valid for the VO of the path, and the response is what
    [exchange_token] returns for the group of that scope and the
    [id_token] of the row. *)
Theorem token_Ok
    (utcnow : Z) (uuid4 vo grant_type client_id : str) (auth_db : AuthDB)
    (config : Config) (device_code code redirect_uri code_verifier : option str)
    (tr : TokenResponse) :
  token set_iter SecurityProperty secrets utcnow uuid4 vo grant_type client_id
    auth_db config device_code code redirect_uri code_verifier = Ok tr ->
  exists row si,
    ((grant_type = py "urn:ietf:params:oauth:grant-type:device_code"
      /\ exists device_code',
           device_code = Some device_code'
           /\ get_device_flow auth_db device_code'
                DEVICE_FLOW_EXPIRATION_SECONDS = Ok row
           /\ info.client_id row = client_id)
     \/ (grant_type = py "authorization_code"
         /\ exists code' code_verifier',
              code = Some code'
              /\ get_authorization_flow auth_db code'
                   AUTHORIZATION_FLOW_EXPIRATION_SECONDS = Ok row
              /\ redirect_uri = Some (info.redirect_uri row)
              /\ code_verifier = Some code_verifier'
              /\ code_challenge_token code_verifier'
                 = Ok (info.code_challenge row)))
    /\ info.status row = READY
    /\ parse_and_validate_scope set_iter SecurityProperty
         (info.scope row) vo config = Ok si
    /\ exchange_token secrets utcnow uuid4 (group si) (info.id_token row)
         config = Ok tr.
Proof.
  intros H. unfold token in H. inv_bind H. rename a into row.
  destruct (decide (info.status row ≠ READY)) as [|Hready]; [discriminate|].
  apply dec_stable in Hready.
  inv_bind H. rename a into si.
  exists row, si. split; [|repeat split; assumption].
  destruct (decide (grant_type = _)) as [Hdevice|_].
  - left. split; [exact Hdevice|].
    destruct device_code as [device_code'|]; [|discriminate].
    exists device_code'. split; [reflexivity|].
    destruct (get_device_flow _ _ _) as [row'|e]; [|by destruct e].
    destruct (decide (info.client_id row' ≠ client_id)) as [|Hclient];
      [discriminate|].
    apply dec_stable in Hclient. injection Ha as ->. split; [reflexivity|assumption].
  - destruct (decide (grant_type = _)) as [Hcode|_]; [|discriminate].
    right. split; [exact Hcode|].
    destruct code as [code'|]; [|discriminate].
    inv_bind Ha. rename a into row'.
    destruct (decide (redirect_uri ≠ _)) as [|Hredirect]; [discriminate|].
    apply dec_stable in Hredirect.
    destruct code_verifier as [code_verifier'|]; [|discriminate].
    destruct (code_challenge_token code_verifier') as [challenge|] eqn:Hch;
      [|discriminate].
    destruct (decide (challenge ≠ _)) as [|Hchallenge]; [discriminate|].
    apply dec_stable in Hchallenge. injection Ha as ->. subst challenge.
    exists code', code_verifier'. repeat split; assumption.
Qed.


End TokenProperties.

(** * The state parameter: foreign characters *)



(** * The browser leg *)

Lemma bind_Return {A B} (f : A -> attempt B) (a : A) : Return a ≫= f = f a.
Proof. reflexivity. Qed.

Lemma bind_inv_Return {A B} (f : A -> attempt B) (r : attempt A) (b : B) :
  r ≫= f = Return b -> exists a, r = Return a /\ f a = Return b.
Proof. destruct r as [a|e]; [eauto | discriminate]. Qed.

Ltac inv_return H :=
  let a := fresh "a" in
  let Ha := fresh "Ha" in
  apply bind_inv_Return in H; destruct H as (a & Ha & H).

Lemma lift_Return {A} (r : result A) (a : A) : lift r = Return a <-> r = Ok a.
Proof. destruct r; split; intros H; simplify_eq/=; done. Qed.

(** Lookups in a dictionary literal. *)
Ltac dict_lookup :=
  cbn [subscript dict_get];
  repeat first [ rewrite decide_True by reflexivity
               | rewrite decide_False by (vm_compute; discriminate) ].

(** X15: when the identity provider answers the token request with a
    status of 500 or more, [get_token_from_iam] raises HTTP 502; with a
    status from 400 to 499, HTTP 401 "Invalid code"; the body of the answer
    is not read. *)
Theorem get_token_from_iam_status
    (client : IdentityProvider) (vo code : str) (state : json.value)
    (redirect_uri endpoint : str) (data : list (str * json.value))
    (res : HTTPResponse) :
  token_endpoint client = Return endpoint ->
  token_request_data code state redirect_uri = Return data ->
  post client endpoint data = Return res ->
  (500 <= status_code res ->
   get_token_from_iam client vo code state redirect_uri
   = Throw (Known (HTTPException 502
                     (Msg "Failed to contact IAM token endpoint" []) [])))
  /\ (400 <= status_code res < 500 ->
      get_token_from_iam client vo code state redirect_uri
      = Throw (Known (HTTPException 401 (Msg "Invalid code" []) []))).
Proof.
  intros Hendpoint Hdata Hres. unfold get_token_from_iam.
  rewrite Hendpoint, bind_Return, Hdata, bind_Return, Hres, bind_Return.
  split; intros Hstatus.
  - replace (500 <=? status_code res) with true by lia. reflexivity.
  - replace (500 <=? status_code res) with false by lia.
    replace (400 <=? status_code res) with true by lia. reflexivity.
Qed.

(** X16: when [get_token_from_iam] returns an [id_token], its
    [organisation_name] is the VO of the path; the provider has answered
    the POST of the five form fields, with the [code_verifier] of the
    state, with a status below 400, and the [id_token] of its body has
    passed [parse_id_token] with the client id as audience. *)
Theorem get_token_from_iam_Return
    (client : IdentityProvider) (vo code : str) (state : json.value)
    (redirect_uri : str) (id_token : gmap str str) :
  get_token_from_iam client vo code state redirect_uri = Return id_token ->
  id_token !! py "organisation_name" = Some vo
  /\ exists endpoint code_verifier res body raw_id_token,
       token_endpoint client = Return endpoint
       /\ subscript state (py "code_verifier") = Return code_verifier
       /\ post client endpoint
            [(py "grant_type", json.String (py "authorization_code"));
             (py "client_id", json.String lhcb_iam_client_id);
             (py "code", json.String code);
             (py "code_verifier", code_verifier);
             (py "redirect_uri", json.String redirect_uri)]
          = Return res
       /\ status_code res < 400
       /\ json_body res = Return body
       /\ subscript body (py "id_token") = Return raw_id_token
       /\ parse_id_token client raw_id_token lhcb_iam_client_id
          = Return id_token.
Proof.
  unfold get_token_from_iam, token_request_data. intros H.
  inv_return H. rename a into endpoint. rename Ha into Hendpoint.
  inv_return H. inv_return Ha. rename a0 into code_verifier.
  injection Ha as <-. inv_return H. rename a into res.
  destruct (500 <=? status_code res) eqn:H500; [discriminate|].
  destruct (400 <=? status_code res) eqn:H400; [discriminate|].
  inv_return H. rename a into body. inv_return H. rename a into raw.
  inv_return H. rename a into id_token'. inv_return H.
  rename a into organisation_name. apply lift_Return, getitem_Ok in Ha4.
  destruct (decide (organisation_name ≠ vo)) as [|Hvo]; [discriminate|].
  apply dec_stable in Hvo. injection H as ->. subst organisation_name.
  split; [assumption|]. exists endpoint, code_verifier, res, body, raw.
  repeat split; try assumption. lia.
Qed.

(** The state that a login link carries, decoded. *)
Lemma login_state_decodes (m : list (str * str)) (code_verifier : str) :
  NoDup (m.*1) -> py "code_verifier" ∉ m.*1 ->
  Forall text_pair m -> Forall scalar code_verifier ->
  exists enc,
    encrypted_state m code_verifier = Ok enc
    /\ decrypt_state enc
       = Ok (json.Object
               (as_json m
                ++ [(py "code_verifier", json.String code_verifier)])).
Proof.
  intros Hnd Hfresh Hm Hcv. unfold encrypted_state.
  rewrite dict_update_fresh.
  - eexists. split; [apply encode_state_Ok|].
    rewrite decrypt_state_encoded.
    + unfold as_json. rewrite map_app. reflexivity.
    + rewrite fmap_app. apply NoDup_app. split; [assumption|].
      split; [|apply NoDup_singleton].
      intros k Hk [->|[]%elem_of_nil]%elem_of_cons. by apply Hfresh.
    + apply Forall_app. split; [assumption|].
      apply Forall_singleton. split; [apply py_scalar | assumption].
  - apply NoDup_singleton.
  - intros k [->|[]%elem_of_nil]%elem_of_cons. assumption.
Qed.

Lemma initiate_authorization_flow_with_iam_Ok
    code_verifier authorization_endpoint vo redirect_uri state url :
  initiate_authorization_flow_with_iam code_verifier authorization_endpoint
    vo redirect_uri state = Ok url ->
  exists challenge enc,
    code_challenge_iam code_verifier = Ok challenge
    /\ encrypted_state state code_verifier = Ok enc
    /\ url = authorization_endpoint ++ py "?"
             ++ str_join (py "&")
                  [py "response_type=code";
                   py "code_challenge=" ++ challenge;
                   py "code_challenge_method=S256";
                   py "client_id=" ++ lhcb_iam_client_id;
                   py "redirect_uri=" ++ redirect_uri;
                   py "scope=openid%20profile";
                   py "state=" ++ enc].
Proof.
  unfold initiate_authorization_flow_with_iam. intros H.
  inv_bind H. inv_bind H. injection H as <-. eauto.
Qed.

(** X17: the state in the login link that [do_device_flow] renders is read
    back by [decrypt_state] as the grant type of the device flow, the
    [user_code] and the verifier whose S256 challenge is in the link; called
    back at the [redirect_uri] of the link with that state,
    [finish_device_flow] sends this verifier and this [redirect_uri] to the
    token endpoint and stores the [id_token] under this [user_code], then
    redirects to [/finished]. *)
Theorem device_flow_login_round_trip
    (code_verifier authorization_endpoint vo : str) (request : Request)
    (auth_db : AuthDB_login) (user_code : str) (response : HTMLResponse) :
  Forall scalar user_code -> Forall scalar code_verifier ->
  do_device_flow code_verifier authorization_endpoint vo request auth_db
    user_code = Return response ->
  let callback := url_without_query request ++ py "/complete" in
  let decoded :=
    json.Object
      [(py "grant_type",
        json.String (py "urn:ietf:params:oauth:grant-type:device_code"));
       (py "user_code", json.String user_code);
       (py "code_verifier", json.String code_verifier)] in
  exists challenge enc,
    code_challenge_iam code_verifier = Ok challenge
    /\ response
       = HTML (py "<a href=" ++ [34]
               ++ (authorization_endpoint ++ py "?"
                   ++ str_join (py "&")
                        [py "response_type=code";
                         py "code_challenge=" ++ challenge;
                         py "code_challenge_method=S256";
                         py "client_id=" ++ lhcb_iam_client_id;
                         py "redirect_uri=" ++ callback;
                         py "scope=openid%20profile";
                         py "state=" ++ enc])
               ++ [34] ++ py ">click here to login</a>")
    /\ decrypt_state enc = Ok decoded
    /\ forall (client : IdentityProvider) (code : str) (auth_db' : AuthDB_login),
         token_request_data code decoded callback
         = Return [(py "grant_type", json.String (py "authorization_code"));
                   (py "client_id", json.String lhcb_iam_client_id);
                   (py "code", json.String code);
                   (py "code_verifier", json.String code_verifier);
                   (py "redirect_uri", json.String callback)]
         /\ finish_device_flow client vo {| url_without_query := callback |}
              code enc auth_db'
            = (id_token ← get_token_from_iam client vo code decoded callback;
               _ ← device_flow_insert_id_token auth_db'
                     (json.String user_code) id_token 600;
               Return (Redirect (callback ++ py "/finished"))).
Proof.
  intros Huser Hcv H callback decoded. unfold do_device_flow in H.
  inv_return H. clear Ha. cbv zeta in H. inv_return H.
  injection H as <-. rename a0 into url.
  apply lift_Return, initiate_authorization_flow_with_iam_Ok in Ha
    as (challenge & enc & Hchallenge & Henc & ->).
  destruct (login_state_decodes
              [(py "grant_type",
                py "urn:ietf:params:oauth:grant-type:device_code");
               (py "user_code", user_code)] code_verifier)
    as (enc' & Henc' & Hdec); [| | |assumption|].
  { apply (bool_decide_eq_true_1 (NoDup [py "grant_type"; py "user_code"])).
    vm_compute. reflexivity. }
  { apply (bool_decide_eq_true_1
             (py "code_verifier" ∉ [py "grant_type"; py "user_code"])).
    vm_compute. reflexivity. }
  { repeat (apply Forall_cons; split;
              [split; first [assumption | apply py_scalar]|]).
    constructor. }
  rewrite Henc in Henc'. injection Henc' as <-.
  cbn [as_json map app fst snd] in Hdec. fold decoded in Hdec.
  exists challenge, enc. split; [assumption|]. split; [reflexivity|].
  split; [assumption|]. intros client code auth_db'. split.
  - unfold token_request_data, decoded. dict_lookup. reflexivity.
  - unfold finish_device_flow. rewrite Hdec. cbn [lift url_without_query].
    rewrite bind_Return. unfold decoded. dict_lookup.
    rewrite bind_Return. cbn [equals_str].
    rewrite bool_decide_eq_true_2 by reflexivity. reflexivity.
Qed.

Lemma dict_get_as_json (m : list (str * str)) tail k v :
  dict_get m k = Some v ->
  dict_get (as_json m ++ tail) k = Some (json.String v).
Proof.
  induction m as [|[k' v'] m IH]; cbn [as_json map app dict_get fst snd];
    [discriminate|].
  destruct (decide (k' = k)); [by intros [= ->] | exact IH].
Qed.



(** X18: the two callbacks do not take each other's states: for a state
    that the server has encoded, [finish_device_flow] fails its assertion
    unless the [grant_type] is that of the device flow, and
    [authorization_flow_complete] unless it is [authorization_code], before
    the identity provider or the store is reached; the [AssertionError] is
    answered with status 500. *)
Theorem completion_checks_grant_type
    (m : list (str * str)) (code_verifier enc grant_type : str)
    (python_str : json.value -> str) (client : IdentityProvider)
    (vo code : str) (request : Request) (auth_db : AuthDB_login) :
  NoDup (m.*1) -> py "code_verifier" ∉ m.*1 ->
  Forall text_pair m -> Forall scalar code_verifier ->
  encrypted_state m code_verifier = Ok enc ->
  dict_get m (py "grant_type") = Some grant_type ->
  (grant_type ≠ py "urn:ietf:params:oauth:grant-type:device_code" ->
   finish_device_flow client vo request code enc auth_db
   = Throw (Known (AssertionError [])))
  /\ (grant_type ≠ py "authorization_code" ->
      authorization_flow_complete python_str client vo code enc request
        auth_db
      = Throw (Known (AssertionError [])))
  /\ error_answer (Known (AssertionError [])) = (500, InternalServerError).
Proof.
  intros Hnd Hfresh Hm Hcv Henc Hgrant.
  destruct (login_state_decodes m code_verifier Hnd Hfresh Hm Hcv)
    as (enc' & Henc' & Hdec).
  rewrite Henc in Henc'. injection Henc' as <-.
  pose proof (dict_get_as_json m
                [(py "code_verifier", json.String code_verifier)]
                _ _ Hgrant) as Hget.
  split; [|split; [|reflexivity]]; intros Hne.
  - unfold finish_device_flow. rewrite Hdec. cbn [lift].
    rewrite bind_Return. cbn [subscript]. rewrite Hget, bind_Return.
    cbn [equals_str]. rewrite bool_decide_eq_false_2 by assumption.
    reflexivity.
  - unfold authorization_flow_complete. rewrite Hdec. cbn [lift].
    rewrite bind_Return. cbn [subscript]. rewrite Hget, bind_Return.
    cbn [equals_str]. rewrite bool_decide_eq_false_2 by assumption.
    reflexivity.
Qed.


(** * The bearer token *)

Lemma forallb_not_line_feed (s : str) :
  forallb (fun c => negb (c =? 10)) s = true <-> 10 ∉ s.
Proof.
  induction s as [|c s IH]; cbn [forallb].
  - split; [intros _; apply not_elem_of_nil | done].
  - rewrite andb_true_iff, IH, not_elem_of_cons, negb_true_iff, Z.eqb_neq.
    split; intros [? ?]; split; auto.
Qed.

Lemma match_bearer_Some authorization raw_token :
  match_bearer authorization = Some raw_token
  <-> authorization = py "Bearer " ++ raw_token
      /\ raw_token ≠ [] /\ 10 ∉ raw_token.
Proof.
  unfold match_bearer. split.
  - destruct (startswith authorization (py "Bearer ")) eqn:Hprefix;
      [|discriminate].
    apply startswith_drop in Hprefix. change (length (py "Bearer ")) with 7%nat in Hprefix.
    destruct (drop 7 authorization) as [|c raw] eqn:Hdrop; [discriminate|].
    destruct (forallb _ (c :: raw)) eqn:Hlf; [|discriminate].
    intros [= <-]. apply forallb_not_line_feed in Hlf. auto.
  - intros (-> & Hne & Hlf).
    assert (startswith (py "Bearer " ++ raw_token) (py "Bearer ") = true)
      as -> by (apply startswith_app; eauto).
    change (drop 7 (py "Bearer " ++ raw_token)) with raw_token.
    destruct raw_token as [|c raw]; [done|].
    apply forallb_not_line_feed in Hlf. rewrite Hlf. reflexivity.
Qed.

Section BearerProperties.

Variable secrets : Secrets.
Variable jwt_decode :
  str -> str -> str -> list (str * list str) -> option (gmap str claim).
Variable validate_model : UserInfo.t -> option UserInfo.t.

(** What the dependency ends in, by the header, the decoder and the
    model validation. *)
Lemma verify_dirac_token_cases (authorization : str) :
  let verified :=
    verify_dirac_token secrets jwt_decode validate_model authorization in
  (match_bearer authorization = None
   /\ verified
      = Throw (Known (HTTPException 400
                        (Msg "Invalid authorization header" []) [])))
  \/ (exists raw_token,
        match_bearer authorization = Some raw_token
        /\ ((jwt_decode (token_algorithm secrets) raw_token
               (token_key_jwk secrets)
               [(py "iss", [ISSUER]); (py "aud", [AUDIENCE])] = None
             /\ verified
                = Throw (Known (HTTPException 401 (Msg "Invalid JWT" []) [])))
            \/ (exists token,
                  jwt_decode (token_algorithm secrets) raw_token
                    (token_key_jwk secrets)
                    [(py "iss", [ISSUER]); (py "aud", [AUDIENCE])]
                  = Some token
                  /\ ((exists key, verified = Throw (Known (KeyError key)))
                      \/ verified = Throw ValidationError
                      \/ exists jti dirac_properties sub preferred_username
                                dirac_group vo' user,
                           token !! py "jti" = Some jti
                           /\ token !! py "dirac_properties"
                              = Some dirac_properties
                           /\ token !! py "sub" = Some sub
                           /\ token !! py "preferred_username"
                              = Some preferred_username
                           /\ token !! py "dirac_group" = Some dirac_group
                           /\ token !! py "vo" = Some vo'
                           /\ validate_model
                                (UserInfo.mk raw_token jti dirac_properties
                                   sub preferred_username dirac_group vo')
                              = Some user
                           /\ verified = Return user)))).
Proof.
  cbv zeta. unfold verify_dirac_token.
  destruct (match_bearer authorization) as [raw|]; [right | by left].
  exists raw. split; [reflexivity|].
  destruct (jwt_decode _ raw _ _) as [token|]; [right | by left].
  exists token. split; [reflexivity|]. unfold getitem.
  destruct (token !! py "jti") as [jti|]; [|left; by eexists].
  destruct (token !! py "dirac_properties") as [props|]; [|left; by eexists].
  destruct (token !! py "sub") as [sub|]; [|left; by eexists].
  destruct (token !! py "preferred_username") as [name|];
    [|left; by eexists].
  destruct (token !! py "dirac_group") as [group|]; [|left; by eexists].
  destruct (token !! py "vo") as [vo'|]; [|left; by eexists].
  cbn [lift mbind attempt_bind].
  destruct (validate_model _) as [user|] eqn:Hvalid; [|by right; left].
  right; right. exists jti, props, sub, name, group, vo', user.
  repeat split; auto.
Qed.

(** X21: [verify_dirac_token] raises HTTP 400 "Invalid authorization
    header" exactly when the header is not [Bearer ] followed by a token
    that is not empty and holds no line feed. *)
Theorem verify_dirac_token_header (authorization : str) :
  verify_dirac_token secrets jwt_decode validate_model authorization
  = Throw (Known (HTTPException 400
                    (Msg "Invalid authorization header" []) []))
  <-> ~ exists raw_token,
          authorization = py "Bearer " ++ raw_token
          /\ raw_token ≠ [] /\ 10 ∉ raw_token.
Proof.
  destruct (verify_dirac_token_cases authorization)
    as [[Hnone ->]|(raw & Hraw & Hcases)].
  - split; [|reflexivity]. intros _ (raw & Hraw%match_bearer_Some).
    congruence.
  - split.
    + intros H. exfalso.
      destruct Hcases as [[_ Hv]|(token & _ & [[key Hv]|[Hv|Hv]])];
        [| | |destruct Hv as (?&?&?&?&?&?&?&?&?&?&?&?&?&?&Hv)];
        rewrite Hv in H; discriminate.
    + intros Hform. exfalso. apply Hform. exists raw.
      by apply match_bearer_Some.
Qed.

(** X22: [verify_dirac_token] returns a user exactly when the header has
    that form, the token decodes and validates against [ISSUER] and
    [AUDIENCE] with the key of the secrets, holds the six claims, and the
    model built from them and the raw token is valid; that model is what is
    returned. *)
Theorem verify_dirac_token_Return (authorization : str) (user : UserInfo.t) :
  verify_dirac_token secrets jwt_decode validate_model authorization
  = Return user
  <-> exists raw_token token jti dirac_properties sub preferred_username
             dirac_group vo',
        authorization = py "Bearer " ++ raw_token
        /\ raw_token ≠ [] /\ (10 ∉ raw_token)
        /\ jwt_decode (token_algorithm secrets) raw_token
             (token_key_jwk secrets)
             [(py "iss", [ISSUER]); (py "aud", [AUDIENCE])] = Some token
        /\ token !! py "jti" = Some jti
        /\ token !! py "dirac_properties" = Some dirac_properties
        /\ token !! py "sub" = Some sub
        /\ token !! py "preferred_username" = Some preferred_username
        /\ token !! py "dirac_group" = Some dirac_group
        /\ token !! py "vo" = Some vo'
        /\ validate_model
             (UserInfo.mk raw_token jti dirac_properties sub
                preferred_username dirac_group vo') = Some user.
Proof.
  split.
  - intros H.
    destruct (verify_dirac_token_cases authorization)
      as [[_ Hv]|(raw & Hraw & [[_ Hv]|(token & Htoken & [[key Hv]|[Hv|Hv]])])];
      try (rewrite Hv in H; discriminate).
    destruct Hv as (jti & props & sub & name & group & vo' & user'
                    & ? & ? & ? & ? & ? & ? & ? & Hv).
    rewrite Hv in H. injection H as ->.
    apply match_bearer_Some in Hraw as (? & ? & ?).
    exists raw, token, jti, props, sub, name, group, vo'.
    repeat split; assumption.
  - intros (raw & token & jti & props & sub & name & group & vo'
            & -> & Hne & Hlf & Htoken & Hjti & Hprops & Hsub & Hname
            & Hgroup & Hvo & Hvalid).
    unfold verify_dirac_token.
    assert (match_bearer (py "Bearer " ++ raw) = Some raw) as ->
      by by apply match_bearer_Some.
    rewrite Htoken. unfold getitem.
    rewrite Hjti, Hprops, Hsub, Hname, Hgroup, Hvo.
    cbn [lift mbind attempt_bind]. rewrite Hvalid. reflexivity.
Qed.


End BearerProperties.

(** * [BaseDB] *)

(** X24: [conn] raises [RuntimeError] on a new object and again after an
    [__aexit__] that has returned; after an [__aenter__] that has returned
    it is the connection of the engine; an [__aenter__] that raises leaves
    the object as it was. *)
Theorem BaseDB_conn_lifecycle (class : str) :
  BaseDB.conn class BaseDB.__init__
  = Throw (RuntimeError (Msg "{} was used before entering" [class]))
  /\ (forall self c,
        BaseDB.conn class (BaseDB.__aenter__ (Return c) self).1 = Return c)
  /\ (forall self e,
        BaseDB.__aenter__ (Throw e) self = (self, Throw e))
  /\ (forall commit conn_aexit self exc self',
        BaseDB.__aexit__ commit conn_aexit self exc = (self', Return tt) ->
        BaseDB.conn class self'
        = Throw (RuntimeError (Msg "{} was used before entering" [class]))).
Proof.
  split; [reflexivity|]. split; [reflexivity|]. split; [reflexivity|].
  intros commit conn_aexit self exc self' H. unfold BaseDB.__aexit__ in H.
  destruct (BaseDB._conn self) as [c|]; [|discriminate].
  destruct exc as [e|], commit as [[]|e'], conn_aexit as [[]|e''];
    simplify_eq/=; reflexivity.
Qed.

(** X25: in [async with db], [commit] is called on the connection exactly
    when the body has raised nothing; when the block returns, the calls on
    the connection are the commit and then the exit, and [_conn] is
    cleared; when the body raises, the only call is the exit with that
    exception, which the block raises again. *)
Theorem BaseDB_commits_iff_no_exception {A}
    (c : Z) (commit conn_aexit : attempt unit)
    (body : BaseDB.t -> attempt A) :
  let entered := BaseDB.mk (Some c) [] in
  let after :=
    BaseDB.async_with (Return c) commit conn_aexit body BaseDB.__init__ in
  (BaseDB.Commit c ∈ BaseDB.calls after.1
   <-> exists a, body entered = Return a)
  /\ (forall a, after.2 = Return a ->
        body entered = Return a
        /\ commit = Return tt /\ conn_aexit = Return tt
        /\ after.1 = BaseDB.mk None
                       [BaseDB.Commit c; BaseDB.Exit c None])
  /\ (forall e, body entered = Throw e ->
        BaseDB.calls after.1 = [BaseDB.Exit c (Some e)]
        /\ (conn_aexit = Return tt ->
            after = (BaseDB.mk None [BaseDB.Exit c (Some e)], Throw e))).
Proof.
  intros entered after. subst after.
  unfold BaseDB.async_with, BaseDB.__aenter__, BaseDB.__aexit__.
  cbn [BaseDB.calls BaseDB._conn BaseDB.__init__]. fold entered.
  split; [|split].
  - destruct (body entered) as [a|e];
      destruct commit as [[]|e1], conn_aexit as [[]|e2];
      cbn [fst snd BaseDB.calls BaseDB._conn app];
      (split; [intros Hin | intros [a' Ha']]);
      first [ by eauto | discriminate | by left
            | by apply list_elem_of_singleton in Hin ].
  - intros a'. destruct (body entered) as [a|e];
      destruct commit as [[]|e1], conn_aexit as [[]|e2];
      cbn [fst snd BaseDB.calls BaseDB._conn app];
      intros [= <-]; auto.
  - intros e ->. destruct conn_aexit as [[]|e2];
      cbn [fst snd BaseDB.calls BaseDB._conn app];
      (split; [reflexivity|]); [reflexivity | discriminate].
Qed.

(** X26: when the body returns and [commit] raises, the block raises that
    exception, the connection is never exited and [_conn] keeps it: [conn]
    still returns it after the block. *)
Theorem BaseDB_failed_commit_keeps_connection {A}
    (class : str) (c : Z) (conn_aexit : attempt unit)
    (body : BaseDB.t -> attempt A) (a : A) (e : error) :
  body (BaseDB.mk (Some c) []) = Return a ->
  let after :=
    BaseDB.async_with (Return c) (Throw e) conn_aexit body BaseDB.__init__ in
  after = (BaseDB.mk (Some c) [BaseDB.Commit c], Throw e)
  /\ BaseDB.conn class after.1 = Return c.
Proof.
  intros Hbody after. subst after.
  unfold BaseDB.async_with, BaseDB.__aenter__, BaseDB.__aexit__.
  cbn [BaseDB.calls BaseDB._conn BaseDB.__init__]. rewrite Hbody.
  split; reflexivity.
Qed.

(** * The scenarios of the further properties *)

Example device_login_page :
  encrypted_state device_state pkce_verifier = Ok device_state_encoded
  /\ do_device_flow pkce_verifier lhcb_authorization_endpoint (py "lhcb")
       device_request login_store (py "USERCODE")
     = Return login_page.
Proof. split; vm_compute; reflexivity. Qed.

Example authorization_redirection :
  authorization_flow first_occurrences known_properties pkce_verifier
    lhcb_authorization_endpoint (py "lhcb") lhcb_request (py "code")
    pkce_challenge (py "S256") DIRAC_CLIENT_ID
    (py "http://localhost:8000/docs/oauth2-redirect") (py "group:lhcb_user")
    (py "external-state") (store_answering (Ok ready_flow)) lhcb_config
  = Ok (Redirect authorization_redirect).
Proof. vm_compute. reflexivity. Qed.

(** Membership in the tokens of a scope that is given. *)
Ltac token_cases Ht :=
  vm_compute in Ht;
  repeat (apply elem_of_cons in Ht as [->|Ht]);
  try (by apply elem_of_nil in Ht).

Lemma parse_and_validate_scope_unrecognised_witness :
  exists l,
    parse_and_validate_scope first_occurrences known_properties
      (py "group:lhcb_user extra") (py "lhcb") lhcb_config
    = Raise (ValueError (Msg "Unrecognised scopes: {}" l)).
Proof.
  apply (proj2 (parse_and_validate_scope_unrecognised first_occurrences
                  known_properties first_occurrences_elem
                  (py "group:lhcb_user extra") (py "lhcb") lhcb_config)).
  exists (py "extra"). split; [|split; reflexivity].
  change (str_split 32 (py "group:lhcb_user extra"))
    with [py "group:lhcb_user"; py "extra"].
  right. left.
Defined.

Lemma parse_and_validate_scope_two_groups_witness :
  exists l,
    parse_and_validate_scope first_occurrences known_properties
      (py "group:lhcb_user group:lhcb_admin") (py "lhcb") lhcb_config
    = Raise (ValueError (Msg "Only one DIRAC group allowed but got {}" l)).
Proof.
  apply (proj2 (parse_and_validate_scope_two_groups first_occurrences
                  known_properties first_occurrences_NoDup
                  first_occurrences_elem
                  (py "group:lhcb_user group:lhcb_admin") (py "lhcb")
                  lhcb_config)).
  change (str_split 32 (py "group:lhcb_user group:lhcb_admin"))
    with [py "group:lhcb_user"; py "group:lhcb_admin"].
  split.
  - intros t Ht. token_cases Ht; left; reflexivity.
  - exists (py "lhcb_user"), (py "lhcb_admin").
    split; [vm_compute; discriminate|]. split; [left | right; left].
Defined.

Lemma initiate_device_flow_blank_scope_witness :
  exists l,
    [] ∈ l
    /\ parse_and_validate_scope first_occurrences known_properties
         (py "group:lhcb_user  property:NormalUser") (py "lhcb") lhcb_config
       = Raise (ValueError (Msg "Unrecognised scopes: {}" l))
    /\ initiate_device_flow first_occurrences known_properties (py "lhcb")
         DIRAC_CLIENT_ID (py "group:lhcb_user  property:NormalUser")
         (py "dirac") lhcb_request (store_answering (Ok ready_flow))
         lhcb_config
       = Raise (HTTPException 400 (Msg "Unrecognised scopes: {}" l) []).
Proof.
  apply (initiate_device_flow_blank_scope first_occurrences known_properties
           first_occurrences_elem).
  - eexists. vm_compute. reflexivity.
  - right; right; right.
    exists (py "group:lhcb_user"), (py "property:NormalUser"). reflexivity.
Defined.

Lemma initiate_device_flow_raises_witness :
  (KNOWN_CLIENTS !! py "another-client" = None
   /\ AssertionError [py "another-client"]
      = AssertionError [py "another-client"])
  \/ (exists msg,
        parse_and_validate_scope first_occurrences known_properties
          (py "group:lhcb_user") (py "lhcb") lhcb_config
        = Raise (ValueError msg)
        /\ AssertionError [py "another-client"] = HTTPException 400 msg [])
  \/ (parse_and_validate_scope first_occurrences known_properties
        (py "group:lhcb_user") (py "lhcb") lhcb_config
      = Raise (AssertionError [py "another-client"])
      /\ (AssertionError [py "another-client"] = KeyError (py "lhcb")
          \/ AssertionError [py "another-client"] = IndexError))
  \/ (is_Some (KNOWN_CLIENTS !! py "another-client")
      /\ (exists si,
            parse_and_validate_scope first_occurrences known_properties
              (py "group:lhcb_user") (py "lhcb") lhcb_config
            = Ok si)
      /\ insert_device_flow (store_answering (Ok ready_flow))
           (py "another-client") (py "group:lhcb_user") (py "dirac")
         = Raise (AssertionError [py "another-client"])).
Proof.
  apply (initiate_device_flow_raises first_occurrences known_properties
           (py "lhcb") (py "another-client") (py "group:lhcb_user")
           (py "dirac") lhcb_request (store_answering (Ok ready_flow))
           lhcb_config).
  vm_compute. reflexivity.
Defined.

Lemma initiate_device_flow_unknown_vo_witness :
  initiate_device_flow first_occurrences known_properties (py "atlas")
    DIRAC_CLIENT_ID (py "group:lhcb_user") (py "dirac") lhcb_request
    (store_answering (Ok ready_flow)) lhcb_config
  = Raise (KeyError (py "atlas"))
  /\ error_response (KeyError (py "atlas")) = (500, InternalServerError).
Proof.
  apply (initiate_device_flow_unknown_vo first_occurrences known_properties
           first_occurrences_NoDup first_occurrences_elem).
  - eexists. vm_compute. reflexivity.
  - vm_compute. reflexivity.
  - vm_compute. reflexivity.
  - intros t Ht. token_cases Ht. left. reflexivity.
  - intros g1 g2 H1 H2. vm_compute in H1, H2.
    apply list_elem_of_singleton in H1, H2. by simplify_eq.
Defined.

Lemma token_Ok_witness :
  exists row si,
    ((py "authorization_code"
      = py "urn:ietf:params:oauth:grant-type:device_code"
      /\ exists device_code',
           None = Some device_code'
           /\ get_device_flow (store_answering (Ok ready_flow)) device_code'
                DEVICE_FLOW_EXPIRATION_SECONDS = Ok row
           /\ info.client_id row = DIRAC_CLIENT_ID)
     \/ (py "authorization_code" = py "authorization_code"
         /\ exists code' code_verifier',
              Some (py "authcode") = Some code'
              /\ get_authorization_flow (store_answering (Ok ready_flow))
                   code' AUTHORIZATION_FLOW_EXPIRATION_SECONDS = Ok row
              /\ Some (py "http://localhost:8000/docs/oauth2-redirect")
                 = Some (info.redirect_uri row)
              /\ Some pkce_verifier = Some code_verifier'
              /\ code_challenge_token code_verifier'
                 = Ok (info.code_challenge row)))
    /\ info.status row = READY
    /\ parse_and_validate_scope first_occurrences known_properties
         (info.scope row) (py "lhcb") lhcb_config = Ok si
    /\ exists tr,
         exchange_token test_secrets 1700000000 (py "8c1f9f0e") (group si)
           (info.id_token row) lhcb_config = Ok tr.
Proof.
  destruct (token first_occurrences known_properties test_secrets 1700000000
              (py "8c1f9f0e") (py "lhcb") (py "authorization_code")
              DIRAC_CLIENT_ID (store_answering (Ok ready_flow)) lhcb_config
              None (Some (py "authcode"))
              (Some (py "http://localhost:8000/docs/oauth2-redirect"))
              (Some pkce_verifier)) as [tr|e] eqn:Hrun;
    [|vm_compute in Hrun; discriminate].
  destruct (token_Ok _ _ _ _ _ _ _ _ _ _ _ _ _ _ _ Hrun)
    as (row & si & Hflow & Hready & Hscope & Htoken).
  exists row, si. repeat split; try assumption. by exists tr.
Defined.


Lemma get_token_from_iam_status_witness :
  get_token_from_iam (iam_answering 503) (py "lhcb") (py "code")
    (json.Object [(py "code_verifier", json.String pkce_verifier)])
    (py "http://localhost:8000/auth/lhcb/device/complete")
  = Throw (Known (HTTPException 502
                    (Msg "Failed to contact IAM token endpoint" []) []))
  /\ get_token_from_iam (iam_answering 403) (py "lhcb") (py "code")
       (json.Object [(py "code_verifier", json.String pkce_verifier)])
       (py "http://localhost:8000/auth/lhcb/device/complete")
     = Throw (Known (HTTPException 401 (Msg "Invalid code" []) [])).
Proof.
  split.
  - eapply (get_token_from_iam_status (iam_answering 503));
      [reflexivity | reflexivity | reflexivity | cbn; lia].
  - eapply (get_token_from_iam_status (iam_answering 403));
      [reflexivity | reflexivity | reflexivity | cbn; lia].
Defined.

Lemma get_token_from_iam_Return_witness :
  exists id_token,
    get_token_from_iam (iam_answering 200) (py "lhcb") (py "code")
      (json.Object [(py "code_verifier", json.String pkce_verifier)])
      (py "http://localhost:8000/auth/lhcb/device/complete")
    = Return id_token
    /\ id_token !! py "organisation_name" = Some (py "lhcb").
Proof.
  destruct (get_token_from_iam (iam_answering 200) (py "lhcb") (py "code")
              (json.Object [(py "code_verifier", json.String pkce_verifier)])
              (py "http://localhost:8000/auth/lhcb/device/complete"))
    as [id_token|e] eqn:Hrun; [|vm_compute in Hrun; discriminate].
  exists id_token. split; [reflexivity|].
  exact (proj1 (get_token_from_iam_Return _ _ _ _ _ _ Hrun)).
Defined.

Lemma device_flow_login_round_trip_witness :
  exists enc,
    decrypt_state enc
    = Ok (json.Object
            [(py "grant_type",
              json.String (py "urn:ietf:params:oauth:grant-type:device_code"));
             (py "user_code", json.String (py "USERCODE"));
             (py "code_verifier", json.String pkce_verifier)])
    /\ finish_device_flow (iam_answering 200) (py "lhcb")
         {| url_without_query :=
              py "http://localhost:8000/auth/lhcb/device/complete" |}
         (py "code") enc login_store
       = Return
           (Redirect
              (py "http://localhost:8000/auth/lhcb/device/complete/finished")).
Proof.
  destruct (device_flow_login_round_trip pkce_verifier
              lhcb_authorization_endpoint (py "lhcb") device_request
              login_store (py "USERCODE") login_page
              (py_scalar _) (py_scalar _))
    as (challenge & enc & _ & _ & Hdecoded & Hfinish).
  { vm_compute. reflexivity. }
  exists enc. split; [exact Hdecoded|].
  destruct (Hfinish (iam_answering 200) (py "code") login_store) as [_ Hrun].
  etransitivity; [exact Hrun|]. vm_compute. reflexivity.
Defined.

Lemma completion_checks_grant_type_witness :
  authorization_flow_complete (fun _ => []) (iam_answering 200) (py "lhcb")
    (py "code") device_state_encoded
    {| url_without_query :=
         py "http://localhost:8000/auth/lhcb/authorize/complete" |}
    login_store
  = Throw (Known (AssertionError []))
  /\ error_answer (Known (AssertionError [])) = (500, InternalServerError).
Proof.
  destruct (completion_checks_grant_type device_state pkce_verifier
              device_state_encoded
              (py "urn:ietf:params:oauth:grant-type:device_code")
              (fun _ => []) (iam_answering 200) (py "lhcb") (py "code")
              {| url_without_query :=
                   py "http://localhost:8000/auth/lhcb/authorize/complete" |}
              login_store)
    as (_ & Hauthorize & Hanswer).
  - apply (bool_decide_eq_true_1 (NoDup (device_state.*1))).
    vm_compute. reflexivity.
  - apply (bool_decide_eq_true_1 (py "code_verifier" ∉ device_state.*1)).
    vm_compute. reflexivity.
  - repeat (apply Forall_cons; split; [split; apply py_scalar|]). constructor.
  - apply py_scalar.
  - vm_compute. reflexivity.
  - vm_compute. reflexivity.
  - split; [|exact Hanswer]. apply Hauthorize. vm_compute. discriminate.
Defined.


Lemma BaseDB_failed_commit_keeps_connection_witness :
  BaseDB.async_with (Return 1) (Throw (Known (StoreError "OperationalError")))
    (Return tt) (BaseDB.conn (py "AuthDB")) BaseDB.__init__
  = (BaseDB.mk (Some 1) [BaseDB.Commit 1],
     Throw (Known (StoreError "OperationalError")))
  /\ BaseDB.conn (py "AuthDB")
       (BaseDB.async_with (Return 1)
          (Throw (Known (StoreError "OperationalError"))) (Return tt)
          (BaseDB.conn (py "AuthDB")) BaseDB.__init__).1
     = Return 1.
Proof.
  apply (BaseDB_failed_commit_keeps_connection (py "AuthDB") 1 (Return tt)
           (BaseDB.conn (py "AuthDB")) 1
           (Known (StoreError "OperationalError"))).
  reflexivity.
Defined.

(** ** The remaining properties on known values *)

Example exchange_token_outside_group :
  exchange_token test_secrets 1700000000 (py "8c1f9f0e") (py "lhcb_user")
    (<[ py "sub" := py "59382c3f-181c-4df8-981d-ec3e9015fcb9" ]>
       chaen_id_token) lhcb_config
  = Raise (ValueError
             (Msg "User is not a member of the requested group ({}, {})"
                  [py "chaen"; py "lhcb_user"])).
Proof. vm_compute. reflexivity. Qed.

Example decrypt_state_with_line_breaks :
  decrypt_state (py "e30=") = Ok (json.Object [])
  /\ decrypt_state ([10] ++ py "e3" ++ [13; 10; 32] ++ py "0=" ++ [10])
     = Ok (json.Object [])
  /\ decrypt_state (py "e3" ++ [233] ++ py "0=")
     = Raise (HTTPException 400 (Msg "Invalid state" []) []).
Proof. repeat split; vm_compute; reflexivity. Qed.

Example completion_of_states_that_are_no_flow_state :
  finish_device_flow (iam_answering 200) (py "lhcb") device_request
    (py "code") (py "bnVsbA==") login_store
  = Throw TypeError
  /\ finish_device_flow (iam_answering 200) (py "lhcb") device_request
       (py "code") (py "eyJ1c2VyX2NvZGUiOiAiWCJ9") login_store
     = Throw (Known (KeyError (py "grant_type")))
  /\ finish_device_flow (iam_answering 200) (py "lhcb") device_request
       (py "code") (py "not a state") login_store
     = Throw (Known (HTTPException 400 (Msg "Invalid state" []) [])).
Proof. repeat split; vm_compute; reflexivity. Qed.

Example bearer_headers :
  verify_dirac_token test_secrets test_jwt_decode Some (py "Bearer signed")
  = Return chaen_user
  /\ verify_dirac_token test_secrets test_jwt_decode Some (py "Bearer forged")
     = Throw (Known (HTTPException 401 (Msg "Invalid JWT" []) []))
  /\ verify_dirac_token test_secrets test_jwt_decode Some (py "bearer signed")
     = Throw (Known (HTTPException 400
                       (Msg "Invalid authorization header" []) []))
  /\ verify_dirac_token test_secrets test_jwt_decode Some
       (py "Bearer signed" ++ [10])
     = Throw (Known (HTTPException 400
                       (Msg "Invalid authorization header" []) []))
  /\ has_properties test_secrets test_jwt_decode Some
       (holds (py "NormalUser")) (py "Bearer signed")
     = Return tt
  /\ has_properties test_secrets test_jwt_decode Some
       (holds (py "JobAdministrator")) (py "Bearer signed")
     = Throw (Known (HTTPException 403 (Msg "Forbidden" []) [])).
Proof. repeat split; vm_compute; reflexivity. Qed.

Example BaseDB_blocks :
  BaseDB.async_with (Return 1) (Return tt) (Return tt)
    (BaseDB.conn (py "AuthDB")) BaseDB.__init__
  = (BaseDB.mk None [BaseDB.Commit 1; BaseDB.Exit 1 None], Return 1)
  /\ BaseDB.async_with (Return 1) (Return tt) (Return tt)
       (fun _ => Throw (Known ExpiredFlowError) : attempt unit)
       BaseDB.__init__
     = (BaseDB.mk None [BaseDB.Exit 1 (Some (Known ExpiredFlowError))],
        Throw (Known ExpiredFlowError)).
Proof. split; reflexivity. Qed.

(** * The device flow: what the first request returns *)

(** X27: when [initiate_device_flow] returns, the client is known, the
    scope is valid for the VO, and the codes are those that the store
    returned for the client, the scope and the audience as given; the
    complete verification URI is the URL of the request followed by
    [?user_code=] and the user code, and the flow expires after 600
    seconds. *)
Theorem initiate_device_flow_Ok
    (set_iter : list str -> list str) (SecurityProperty : list str)
    (vo client_id scope audience : str) (request : Request)
    (auth_db : AuthDB) (config : Config)
    (response : InitiateDeviceFlowResponse) :
  initiate_device_flow set_iter SecurityProperty vo client_id scope
    audience request auth_db config = Ok response ->
  is_Some (KNOWN_CLIENTS !! client_id)
  /\ (exists si,
        parse_and_validate_scope set_iter SecurityProperty scope vo config
        = Ok si)
  /\ insert_device_flow auth_db client_id scope audience
     = Ok (user_code response, device_code response)
  /\ verification_uri response = url_without_query request
  /\ verification_uri_complete response
     = verification_uri response ++ py "?user_code=" ++ user_code response
  /\ device_expires_in response = 600.
Proof.
  unfold initiate_device_flow. intros H.
  destruct (KNOWN_CLIENTS !! client_id) as [client|]; [|discriminate].
  destruct (parse_and_validate_scope _ _ scope vo config) as [si|e];
    [|by destruct e].
  destruct (insert_device_flow auth_db client_id scope audience)
    as [[user_code device_code]|e]; [|discriminate].
  injection H as <-. cbn. repeat split; eauto.
Qed.

Lemma initiate_device_flow_Ok_witness :
  exists response,
    initiate_device_flow first_occurrences known_properties (py "lhcb")
      DIRAC_CLIENT_ID (py "group:lhcb_user property:NormalUser") (py "dirac")
      device_request (store_answering (Ok ready_flow)) lhcb_config
    = Ok response
    /\ verification_uri_complete response
       = py "http://localhost:8000/auth/lhcb/device?user_code=USERCODE"
    /\ device_expires_in response = 600.
Proof.
  destruct (initiate_device_flow first_occurrences known_properties
              (py "lhcb") DIRAC_CLIENT_ID
              (py "group:lhcb_user property:NormalUser") (py "dirac")
              device_request (store_answering (Ok ready_flow)) lhcb_config)
    as [response|e] eqn:Hrun; [|vm_compute in Hrun; discriminate].
  exists response. split; [reflexivity|].
  destruct (initiate_device_flow_Ok _ _ _ _ _ _ _ _ _ _ Hrun)
    as (_ & _ & Hcodes & Huri & -> & Hexpires).
  split; [|exact Hexpires]. rewrite Huri.
  change (insert_device_flow (store_answering (Ok ready_flow)) DIRAC_CLIENT_ID
            (py "group:lhcb_user property:NormalUser") (py "dirac"))
    with (Ok (py "USERCODE", py "devicecode") : result (str * str)) in Hcodes.
  injection Hcodes as <- _. reflexivity.
Defined.
